(** * helpdev: the suggestion pipeline and its persisted cache

    A shallow embedding of [src/lib/storage/code-storage.ts] (the SQLite-backed
    store) and of the [AIHelper] class (the pipeline that sits on top of it),
    followed by the properties of the pipeline that the specification states.

    Conventions of the embedding.
    - A JavaScript string is the list of its UTF-16 code units ([list N]).
    - An instant (the value of [new Date()]) is its number of milliseconds
      since the epoch.  The program stores instants as [toISOString()] texts
      and lets SQLite compare the texts; for years 0000 to 9999 those texts
      all have the same width and their order is the order of the instants,
      and [Iso.before] is the order of the texts for the other years too.
      The zone of the host is part of the environment: [cleanupOldData] moves
      the local reading of the clock, not the instant.
    - A count is the JavaScript number that holds it: an integer, added to
      with the rounding of the doubles.
    - SQLite holds a text in UTF-8 and [LIKE] compares characters: a surrogate
      pair is one character, a surrogate on its own has become U+FFFD, and an
      operand ends at its first U+0000 ([Sql.chars], [Sql.cstring]).  A pattern
      of more than 50 000 bytes is refused.
    - [undefined] and [null] are [None].
    - Everything the program does to the outside world (reading the clock,
      drawing a uuid, sending a statement to SQLite, calling the completion
      API, drawing a random number) appends one event to a trace and takes its
      answer from an environment indexed by the position in that trace, so a
      theorem that quantifies over the environment covers every behaviour of
      the collaborators. *)

From Stdlib Require Import String Ascii ZArith NArith QArith List Sorted Permutation Lia.
From stdpp Require Import base tactics option list.

Open Scope Z_scope.
Open Scope N_scope.
Open Scope nat_scope.

(** ** JavaScript strings *)

Module Js.

Definition jsstring := list N.

(** A literal of the source, all of whose characters are ASCII. *)
Definition lit (s : string) : jsstring :=
  List.map N_of_ascii (list_ascii_of_string s).

Definition nl : N := 10%N.
Definition hyphen : N := 45%N.
Definition bullet : N := 8226%N.          (* U+2022 *)
Definition colon : N := 58%N.

(** [WhiteSpace] and [LineTerminator] of ECMAScript: what [trim] removes and
    what [\s] matches. *)
Definition isWhiteSpace (c : N) : bool :=
  ((9 <=? c) && (c <=? 13) || (c =? 32) || (c =? 160) || (c =? 5760)
   || (8192 <=? c) && (c <=? 8202) || (c =? 8232) || (c =? 8233)
   || (c =? 8239) || (c =? 8287) || (c =? 12288) || (c =? 65279))%N.

(** What [.] does not match. *)
Definition isLineTerminator (c : N) : bool :=
  ((c =? 10) || (c =? 13) || (c =? 8232) || (c =? 8233))%N.

Definition isDigit (c : N) : bool := ((48 <=? c) && (c <=? 57))%N.

Fixpoint takeWhile (p : N -> bool) (s : jsstring) : jsstring :=
  match s with
  | c :: s' => if p c then c :: takeWhile p s' else []
  | [] => []
  end.

Fixpoint dropWhile (p : N -> bool) (s : jsstring) : jsstring :=
  match s with
  | c :: s' => if p c then dropWhile p s' else s
  | [] => []
  end.

Definition trimStart (s : jsstring) : jsstring := dropWhile isWhiteSpace s.
Definition trimEnd (s : jsstring) : jsstring := rev (dropWhile isWhiteSpace (rev s)).
Definition trim (s : jsstring) : jsstring := trimEnd (trimStart s).

(** [s.substring(0, n)] and [s.slice(0, n)] for a literal [n >= 0]. *)
Definition substring0 (n : nat) (s : jsstring) : jsstring := take n s.

(** [s.startsWith(c)] for a one-character [c]. *)
Definition startsWithChar (c : N) (s : jsstring) : bool :=
  match s with
  | d :: _ => (d =? c)%N
  | [] => false
  end.

(** [s.split('\n')]: never empty, the empty text gives one empty line. *)
Fixpoint split_nl (s : jsstring) : list jsstring :=
  match s with
  | [] => [[]]
  | c :: s' =>
      if (c =? nl)%N then [] :: split_nl s'
      else match split_nl s' with
           | l :: ls => (c :: l) :: ls
           | [] => [[c]]
           end
  end.

(** [xs.join(sep)]. *)
Fixpoint join (sep : jsstring) (xs : list jsstring) : jsstring :=
  match xs with
  | [] => []
  | [x] => x
  | x :: xs' => x ++ sep ++ join sep xs'
  end.

(** Truthiness of a string that may be [undefined]: [undefined] and the
    empty string are falsy. *)
Definition truthy (o : option jsstring) : bool :=
  match o with
  | Some (_ :: _) => true
  | _ => false
  end.

(** [o || d] on strings. *)
Definition orElse (o : option jsstring) (d : jsstring) : jsstring :=
  match o with
  | Some (c :: s) => c :: s
  | _ => d
  end.

Fixpoint eqb (s t : jsstring) : bool :=
  match s, t with
  | [], [] => true
  | c :: s', d :: t' => (c =? d)%N && eqb s' t'
  | _, _ => false
  end.

(** The two halves of a surrogate pair of UTF-16. *)
Definition isHighSurrogate (c : N) : bool := ((55296 <=? c) && (c <=? 56319))%N.
Definition isLowSurrogate (c : N) : bool := ((56320 <=? c) && (c <=? 57343))%N.

(** A number that holds an integer is given by that integer.  The integers a
    number can hold are the doubles: every integer up to 2^53 in magnitude,
    and beyond that the multiples of a power of two that have 53 significant
    bits.  [toNumber z] is the one nearest to [z], the one with the even
    significand when two are as near (numbers past the largest double, which
    no count reaches, are not modelled). *)
Definition toNumber (z : Z) : Z :=
  let a := Z.abs z in
  if (a <=? 9007199254740992)%Z then z
  else
    let ulp := (2 ^ (Z.log2 a - 52))%Z in
    let q := (a / ulp)%Z in
    let r := (a mod ulp)%Z in
    let q' := if (2 * r <? ulp)%Z then q
              else if (ulp <? 2 * r)%Z then (q + 1)%Z
              else if Z.even q then q else (q + 1)%Z in
    (Z.sgn z * (q' * ulp))%Z.

(** [a + b] on two such numbers. *)
Definition addNumber (a b : Z) : Z := toNumber (a + b).

(** [Number.isSafeInteger]. *)
Definition isSafeInteger (z : Z) : bool := (Z.abs z <=? 9007199254740991)%Z.

(** A number that need not hold an integer: a finite one, given by a
    rational, or [NaN], or an infinity. *)
Inductive number :=
| Num (q : Q)
| NaN
| Infinity (negative : bool).

(** Truthiness of a number: zero and [NaN] are falsy. *)
Definition truthyNumber (x : number) : bool :=
  match x with
  | Num q => negb (Qeq_bool q 0)
  | NaN => false
  | Infinity _ => true
  end.

End Js.

Import Js.

(** ** The four error signatures of [detectErrors]

    [code.match(re)] with a regular expression without the [g] flag: the
    leftmost position at which the expression matches, and there the match the
    backtracking order finds first.  In the four expressions every greedy
    [\s*], [\d+] and [.*] is followed by something that either always matches
    or starts with a character the repeated class excludes, so the first
    match is the one in which every repetition is as long as it can be.  Each
    signature is given as its matcher at one position, returning [match[0]]. *)

Module Regex.

(** The [i] flag compares the canonical (upper-case) forms; a character
    outside ASCII is never canonicalised to an ASCII letter, so for the ASCII
    letters of these patterns only the two cases of the letter match. *)
Definition asciiUpper (c : N) : N :=
  if ((97 <=? c) && (c <=? 122))%N then (c - 32)%N else c.

Definition charEq (ignoreCase : bool) (c d : N) : bool :=
  if ignoreCase then (asciiUpper c =? asciiUpper d)%N else (c =? d)%N.

(** A literal word at the start of [s]: the text it matched and what follows. *)
Fixpoint matchLit (ignoreCase : bool) (w s : jsstring) : option (jsstring * jsstring) :=
  match w with
  | [] => Some ([], s)
  | c :: w' =>
      match s with
      | d :: s' =>
          if charEq ignoreCase c d
          then match matchLit ignoreCase w' s' with
               | Some (m, r) => Some (d :: m, r)
               | None => None
               end
          else None
      | [] => None
      end
  end.

(** [(w1|w2|...)] followed by the rest of the expression [k]: the first
    alternative after which the rest matches. *)
Fixpoint alt (ignoreCase : bool) (ws : list jsstring)
    (k : jsstring -> option jsstring) (s : jsstring) : option jsstring :=
  match ws with
  | [] => None
  | w :: ws' =>
      match matchLit ignoreCase w s with
      | Some (m, r) =>
          match k r with
          | Some m' => Some (m ++ m')
          | None => alt ignoreCase ws' k s
          end
      | None => alt ignoreCase ws' k s
      end
  end.

(** The tail [\s* ( .* )] of every signature: it always matches. *)
Definition spacesThenLine (s : jsstring) : jsstring :=
  takeWhile isWhiteSpace s
  ++ takeWhile (fun c => negb (isLineTerminator c)) (dropWhile isWhiteSpace s).

(** A colon, then that tail. *)
Definition colonSpacesThenLine (s : jsstring) : option jsstring :=
  match s with
  | c :: s' => if (c =? colon)%N then Some (c :: spacesThenLine s') else None
  | [] => None
  end.

(** The signature [error \s* : \s* ( .* )] with the flag [i]. *)
Definition reError : jsstring -> option jsstring :=
  alt true [lit "error"]
    (fun r => match colonSpacesThenLine (dropWhile isWhiteSpace r) with
              | Some m => Some (takeWhile isWhiteSpace r ++ m)
              | None => None
              end).

(** The signature [( SyntaxError | TypeError | ReferenceError ) : \s* ( .* )]. *)
Definition reTyped : jsstring -> option jsstring :=
  alt false [lit "SyntaxError"; lit "TypeError"; lit "ReferenceError"]
    colonSpacesThenLine.

(** The signature [( E \d+ ) : \s* ( .* )]. *)
Definition reCode : jsstring -> option jsstring :=
  alt false [lit "E"]
    (fun r => match takeWhile isDigit r with
              | [] => None
              | ds => match colonSpacesThenLine (dropWhile isDigit r) with
                      | Some m => Some (ds ++ m)
                      | None => None
                      end
              end).

(** The signature [( exception | unhandled ) \s* ( .* )] with the flag [i]. *)
Definition reException : jsstring -> option jsstring :=
  alt true [lit "exception"; lit "unhandled"] (fun r => Some (spacesThenLine r)).

(** The leftmost position at which the expression matches. *)
Fixpoint search (re : jsstring -> option jsstring) (s : jsstring) : option jsstring :=
  match re s with
  | Some m => Some m
  | None =>
      match s with
      | [] => None
      | _ :: s' => search re s'
      end
  end.

End Regex.

(** ** What SQLite computes for the program's statements *)

Module Sql.

Definition percent : N := 37%N.
Definition underscore : N := 95%N.

(** A string of JavaScript reaches SQLite as UTF-8, and SQLite's functions
    read it character by character: a surrogate pair is one character, and a
    surrogate on its own has become U+FFFD on the way. *)
Fixpoint chars (s : jsstring) : list N :=
  match s with
  | [] => []
  | c :: s' =>
      if isHighSurrogate c then
        match s' with
        | d :: s'' =>
            if isLowSurrogate d
            then (65536 + (c - 55296) * 1024 + (d - 56320))%N :: chars s''
            else 65533%N :: chars s'
        | [] => [65533%N]
        end
      else if isLowSurrogate c then 65533%N :: chars s'
      else c :: chars s'
  end.

(** The bytes a character takes in UTF-8, and those of a string. *)
Definition utf8Bytes (c : N) : N :=
  (if c <? 128 then 1 else if c <? 2048 then 2 else if c <? 65536 then 3 else 4)%N.

Definition utf8Length (s : jsstring) : N :=
  fold_right N.add 0%N (List.map utf8Bytes (chars s)).

(** [LIKE] reads its operands as C strings: up to the first U+0000. *)
Definition notNul (c : N) : bool := negb (c =? 0)%N.

Definition cstring (l : list N) : list N := takeWhile notNul l.

(** A unit that is a character by itself and does not end a C string. *)
Definition plainUnit (c : N) : bool :=
  negb (isHighSurrogate c) && negb (isLowSurrogate c) && notNul c.

(** [a] ends with the first half of a surrogate pair and [r] starts with a
    second half: put together, the two make one character. *)
Fixpoint endsHigh (a : jsstring) : bool :=
  match a with
  | [] => false
  | [c] => isHighSurrogate c
  | _ :: a' => endsHigh a'
  end.

Definition startsLow (r : jsstring) : bool :=
  match r with
  | l :: _ => isLowSurrogate l
  | [] => false
  end.

Definition joins (a r : jsstring) : bool := endsHigh a && startsLow r.

(** Cutting [s] after [n] units separates the halves of a surrogate pair. *)
Definition splitsPair (n : nat) (s : jsstring) : bool := joins (take n s) (drop n s).

(** The comparison of [LIKE] with its default settings, on the characters of
    the pattern and of the text: [%] stands for any run of characters, [_]
    for any one character, every other character for itself, the ASCII
    letters without regard to case. *)
Fixpoint likeChars (p : list N) : list N -> bool :=
  match p with
  | [] => fun t => match t with [] => true | _ :: _ => false end
  | c :: p' =>
      if (c =? percent)%N then
        fix star (t : list N) : bool :=
          likeChars p' t || match t with [] => false | _ :: t' => star t' end
      else fun t =>
        match t with
        | [] => false
        | d :: t' => ((c =? underscore)%N || Regex.charEq true c d) && likeChars p' t'
        end
  end.

(** [text LIKE pattern] for a pattern and a text that came from JavaScript. *)
Definition like (p t : jsstring) : bool :=
  likeChars (cstring (chars p)) (cstring (chars t)).

(** [SQLITE_MAX_LIKE_PATTERN_LENGTH]: [LIKE] refuses a pattern of more bytes
    with the error of a pattern too complex. *)
Definition maxLikePattern : N := 50000%N.

Definition tooComplex (p : jsstring) : bool := (maxLikePattern <? utf8Length p)%N.

(** The pattern [`%${x}%`]. *)
Definition containing (x : jsstring) : jsstring := percent :: x ++ [percent].

(** [ORDER BY key DESC], and [Array.prototype.sort] with the comparator
    [(a, b) => key(b) - key(a)]: rows of equal key keep their order (the
    array sort is stable by the language standard; SQLite leaves the order of
    ties open, and the table order is one of the orders it may give). *)
Section OrderBy.
Context {A : Type} (key : A -> Z).

Fixpoint insertDesc (x : A) (l : list A) : list A :=
  match l with
  | [] => [x]
  | y :: l' => if (key x <? key y)%Z then y :: insertDesc x l' else x :: l
  end.

Fixpoint orderByDesc (l : list A) : list A :=
  match l with
  | [] => []
  | x :: l' => insertDesc x (orderByDesc l')
  end.

(** The order of the result: no row has a larger key than a row before it. *)
Definition descending (a b : A) : Prop := (key b <= key a)%Z.

End OrderBy.

(** [LIMIT n]. *)
Definition limit {A} (n : nat) (l : list A) : list A := take n l.

End Sql.

(** ** Dates

    An instant is the time value of a [Date]: milliseconds since the epoch.
    The store holds it as the text [toISOString] gives, and SQLite compares
    those texts.  For the years 0000 to 9999 the text starts with the four
    digits of the year and the order of the texts is the order of the
    instants; before the year 0000 it starts with [-] and six digits, from
    the year 10000 on with [+] and six digits. *)

Module Iso.

Definition msPerDay : Z := 86400000%Z.

(** The largest time value, and [TimeClip]: [None] is the invalid date, of
    which [toISOString] throws a [RangeError]. *)
Definition maxTime : Z := 8640000000000000%Z.

Definition timeClip (t : Z) : option Z :=
  if (Z.abs t <=? maxTime)%Z then Some t else None.

(** The first instant of the year 0000 and the first of the year 10000. *)
Definition year0 : Z := (-62167219200000)%Z.
Definition year10000 : Z := 253402300800000%Z.

Definition fourDigitYear (t : Z) : bool := ((year0 <=? t) && (t <? year10000))%Z.

(** The year of an instant, in the calendar of [toISOString] (Gregorian, with
    a year 0), by the count of days in cycles of 400 years from 1 March of
    the year 0. *)
Definition year (t : Z) : Z :=
  let z := (t / msPerDay + 719468)%Z in
  let era := (z / 146097)%Z in
  let doe := (z mod 146097)%Z in
  let yoe := ((doe - doe / 1460 + doe / 36524 - doe / 146096) / 365)%Z in
  let doy := (doe - (365 * yoe + yoe / 4 - yoe / 100))%Z in
  let mp := ((5 * doy + 2) / 153)%Z in
  (yoe + era * 400 + (if (mp <? 10)%Z then 0 else 1))%Z.

(** The first character of the text: [+] sorts before [-], and [-] before
    the digits. *)
Definition rank (t : Z) : Z :=
  if (t <? year0)%Z then 1%Z else if (t <? year10000)%Z then 2%Z else 0%Z.

(** The text of [a] sorts before the text of [b].  Among the years before
    0000 the digits of the year grow into the past, and within one year the
    texts are in the order of the instants. *)
Definition before (a b : Z) : bool :=
  if (rank a =? rank b)%Z then
    if (rank a =? 1)%Z
    then if (year a =? year b)%Z then (a <? b)%Z else (year b <? year a)%Z
    else (a <? b)%Z
  else (rank a <? rank b)%Z.

End Iso.

(** ** [JSON.stringify] of an array of strings *)

Module Json.

Definition quote : N := 34%N.
Definition backslash : N := 92%N.

Definition hexDigit (n : N) : N := if (n <? 10)%N then (48 + n)%N else (87 + n)%N.

(** [\uXXXX], in lower-case hexadecimal digits. *)
Definition unicodeEscape (c : N) : jsstring :=
  [backslash; 117%N;
   hexDigit (c / 4096 mod 16); hexDigit (c / 256 mod 16);
   hexDigit (c / 16 mod 16); hexDigit (c mod 16)]%N.

Definition isHighSurrogate (c : N) : bool := ((55296 <=? c) && (c <=? 56319))%N.
Definition isLowSurrogate (c : N) : bool := ((56320 <=? c) && (c <=? 57343))%N.

(** The two-character escapes of [QuoteJSONString]. *)
Definition shortEscape (c : N) : option N :=
  if (c =? 8)%N then Some 98%N          (* \b *)
  else if (c =? 9)%N then Some 116%N    (* \t *)
  else if (c =? 10)%N then Some 110%N   (* \n *)
  else if (c =? 12)%N then Some 102%N   (* \f *)
  else if (c =? 13)%N then Some 114%N   (* \r *)
  else if (c =? quote)%N then Some quote
  else if (c =? backslash)%N then Some backslash
  else None.

Definition escapeUnit (c : N) : jsstring :=
  match shortEscape c with
  | Some e => [backslash; e]
  | None =>
      if ((c <? 32) || isHighSurrogate c || isLowSurrogate c)%N
      then unicodeEscape c
      else [c]
  end.

(** A surrogate pair is copied, a lone surrogate is escaped. *)
Fixpoint escape (s : jsstring) : jsstring :=
  match s with
  | [] => []
  | c :: s' =>
      if isHighSurrogate c then
        match s' with
        | d :: s'' =>
            if isLowSurrogate d then c :: d :: escape s''
            else unicodeEscape c ++ escape s'
        | [] => unicodeEscape c
        end
      else escapeUnit c ++ escape s'
  end.

Definition quoteString (s : jsstring) : jsstring := quote :: escape s ++ [quote].


(** [JSON.stringify(tags)]. *)
Definition stringify (tags : list jsstring) : jsstring :=
  lit "[" ++ join (lit ",") (List.map quoteString tags) ++ lit "]".

End Json.

(** ** The data model of [code-storage.ts] *)

Module CodeSnippet.
Record CodeSnippet := {
  id : jsstring;
  content : jsstring;
  language : jsstring;
  tags : list jsstring;
  filePath : option jsstring;
  projectContext : option jsstring;
  timestamp : Z;
  sourceApp : jsstring;
  favorited : bool
}.
End CodeSnippet.
Abbreviation CodeSnippet := CodeSnippet.CodeSnippet.

Module ErrorPattern.
Record ErrorPattern := {
  id : jsstring;
  errorText : jsstring;
  solution : jsstring;
  language : jsstring;
  frequency : Z;
  lastEncountered : Z
}.
End ErrorPattern.
Abbreviation ErrorPattern := ErrorPattern.ErrorPattern.

Module DeveloperContext.
Record DeveloperContext := {
  currentApp : jsstring;
  activeFile : option jsstring;
  projectRoot : option jsstring;
  lastActivity : Z
}.
End DeveloperContext.
Abbreviation DeveloperContext := DeveloperContext.DeveloperContext.

(** The argument of [saveSnippet]: [Omit<CodeSnippet, 'id' | 'timestamp'>]. *)
Module NewSnippet.
Record NewSnippet := {
  content : jsstring;
  language : jsstring;
  tags : list jsstring;
  filePath : option jsstring;
  projectContext : option jsstring;
  sourceApp : jsstring;
  favorited : option bool
}.
End NewSnippet.
Abbreviation NewSnippet := NewSnippet.NewSnippet.

(** The argument of [recordError]. *)
Module NewError.
Record NewError := {
  errorText : jsstring;
  solution : jsstring;
  language : jsstring
}.
End NewError.
Abbreviation NewError := NewError.NewError.

(** The argument of [updateDeveloperContext]: [Partial<DeveloperContext>]. *)
Module ContextUpdate.
Record ContextUpdate := {
  currentApp : option jsstring;
  activeFile : option jsstring;
  projectRoot : option jsstring;
  lastActivity : option Z
}.
End ContextUpdate.
Abbreviation ContextUpdate := ContextUpdate.ContextUpdate.

(** The options of [getSnippets]. *)
Module SnippetQuery.
Record SnippetQuery := {
  language : option jsstring;
  searchTerm : option jsstring;
  limit : option nat
}.
End SnippetQuery.
Abbreviation SnippetQuery := SnippetQuery.SnippetQuery.

(** ** The completion API *)

Record message := { role : jsstring; message_content : jsstring }.

Record request := {
  req_model : jsstring;
  req_messages : list message;
  req_temperature : number;
  req_max_tokens : N
}.

(** What a call of [chat.completions.create] comes to: it throws, or it
    answers, and then [choices[0]?.message?.content] is a text or is missing. *)
Inductive api_outcome :=
| ApiThrows
| ApiReplies (content : option jsstring).

(** ** The world the program runs in *)

(** The statements the program sends to SQLite, with their parameters. *)
Inductive statement :=
| InsertSnippet (s : CodeSnippet)
| SelectSnippets (o : SnippetQuery)
| SelectSimilarError (language pattern : jsstring)
| UpdateError (frequency : Z) (lastEncountered : Z) (solution id : jsstring)
| InsertError (e : ErrorPattern)
| SelectErrorSolutions (language pattern : jsstring)
| InsertContext (c : DeveloperContext)
| SelectCurrentContext
| DeleteSnippetsBefore (cutoff : Z)
| DeleteContextBefore (cutoff : Z).

Inductive event :=
| EvNow (t : Z)                      (* new Date() *)
| EvUuid (u : jsstring)              (* uuidv4() *)
| EvGetDb                            (* getDb() *)
| EvSql (s : statement)              (* db.run, db.get, db.all *)
| EvCompletion (r : request)         (* openai.chat.completions.create *)
| EvEmbedding                        (* generateEmbedding *)
| EvRandom (x : N)                   (* Math.random() in calculateSimilarity *)
| EvConsoleError.                    (* console.error *)

(** The three tables (rows in the order of their insertion), the counter of
    the [AUTOINCREMENT] key of [developer_context], and the trace. *)
Record World := {
  snippets : list CodeSnippet;
  error_patterns : list ErrorPattern;
  developer_context : list (N * DeveloperContext);
  context_seq : N;
  trace : list event
}.

(** The collaborators.  Each answer is a function of the number of events so
    far; [random] gives the numerator of the random number over 2^53, which is
    all the comparison of two scores looks at. *)
Record Env := {
  clock : nat -> Z;
  uuid : nat -> jsstring;
  db_fault : nat -> bool;
  completion : nat -> request -> api_outcome;
  random : nat -> N;
  (* the time zone of the host: [LocalTime] and [UTC] of the language, from
     an instant to the local reading of the clock and back *)
  localTime : Z -> Z;
  utcTime : Z -> Z
}.

(** What is thrown: a failure of the storage engine, a failure of the
    completion API, the error of SQLite for a [LIKE] pattern that is too
    long, and the [RangeError] of [toISOString] on an invalid date. *)
Inductive exn := StorageError | ApiError | LikeError | RangeError.

Inductive result (A : Type) :=
| Ok (a : A)
| Throw (e : exn).
Arguments Ok {A} a.
Arguments Throw {A} e.

(** An [async] function: it changes the world and returns or throws. *)
Definition M (A : Type) : Type := World -> result A * World.

#[global] Instance M_ret : MRet M := fun A a w => (Ok a, w).

#[global] Instance M_bind : MBind M := fun A B f m w =>
  match m w with
  | (Ok a, w') => f a w'
  | (Throw e, w') => (Throw e, w')
  end.

(** [try { m } catch (error) { h }] *)
Definition try_catch {A} (m : M A) (h : exn -> M A) : M A := fun w =>
  match m w with
  | (Ok a, w') => (Ok a, w')
  | (Throw e, w') => h e w'
  end.

Definition throw {A} (e : exn) : M A := fun w => (Throw e, w).

Definition gets {A} (f : World -> A) : M A := fun w => (Ok (f w), w).

Definition modify (f : World -> World) : M unit := fun w => (Ok tt, f w).

Definition record (e : event) (w : World) : World :=
  {| snippets := snippets w; error_patterns := error_patterns w;
     developer_context := developer_context w; context_seq := context_seq w;
     trace := trace w ++ [e] |}.

Definition set_snippets (l : list CodeSnippet) (w : World) : World :=
  {| snippets := l; error_patterns := error_patterns w;
     developer_context := developer_context w; context_seq := context_seq w;
     trace := trace w |}.

Definition set_error_patterns (l : list ErrorPattern) (w : World) : World :=
  {| snippets := snippets w; error_patterns := l;
     developer_context := developer_context w; context_seq := context_seq w;
     trace := trace w |}.

Definition set_developer_context (l : list (N * DeveloperContext)) (seq : N)
    (w : World) : World :=
  {| snippets := snippets w; error_patterns := error_patterns w;
     developer_context := l; context_seq := seq; trace := trace w |}.

(** ** The pure part of each statement *)

Module Query.

(** [WHERE language = ? AND (content LIKE ? OR tags LIKE ?)], each condition
    present when its option is truthy; the [tags] column holds
    [JSON.stringify(tags)], which [getSnippets] parses back. *)
Definition snippetSelected (o : SnippetQuery) (s : CodeSnippet) : bool :=
  (if truthy (SnippetQuery.language o)
   then Js.eqb (CodeSnippet.language s) (orElse (SnippetQuery.language o) [])
   else true)
  &&
  (if truthy (SnippetQuery.searchTerm o)
   then
     let p := Sql.containing (orElse (SnippetQuery.searchTerm o) []) in
     Sql.like p (CodeSnippet.content s)
     || Sql.like p (Json.stringify (CodeSnippet.tags s))
   else true).

(** [SELECT * FROM snippets ... ORDER BY timestamp DESC], with [LIMIT ?] when
    the limit is truthy. *)
Definition selectSnippets (o : SnippetQuery) (rows : list CodeSnippet) : list CodeSnippet :=
  let sorted := Sql.orderByDesc CodeSnippet.timestamp (List.filter (snippetSelected o) rows) in
  match SnippetQuery.limit o with
  | Some (S n) => Sql.limit (S n) sorted
  | _ => sorted
  end.

(** The statement fails when its pattern is too long for [LIKE] and a row
    gets as far as the comparison: a row of the language, when one is asked
    for. *)
Definition likeFails (o : SnippetQuery) (rows : list CodeSnippet) : bool :=
  truthy (SnippetQuery.searchTerm o)
  && Sql.tooComplex (Sql.containing (orElse (SnippetQuery.searchTerm o) []))
  && existsb (fun s =>
       if truthy (SnippetQuery.language o)
       then Js.eqb (CodeSnippet.language s) (orElse (SnippetQuery.language o) [])
       else true) rows.

(** [WHERE language = ? AND errorText LIKE ?] *)
Definition errorMatches (language pattern : jsstring) (e : ErrorPattern) : bool :=
  Js.eqb (ErrorPattern.language e) language
  && Sql.like pattern (ErrorPattern.errorText e).

(** [... LIMIT 1] through [db.get]: the first such row, if any. *)
Definition selectSimilarError (language pattern : jsstring)
    (rows : list ErrorPattern) : option ErrorPattern :=
  head (List.filter (errorMatches language pattern) rows).

(** [UPDATE error_patterns SET frequency = ?, lastEncountered = ?,
    solution = ? WHERE id = ?] *)
Definition updateError (frequency lastEncountered : Z) (solution id : jsstring)
    (rows : list ErrorPattern) : list ErrorPattern :=
  List.map (fun e =>
    if Js.eqb (ErrorPattern.id e) id
    then {| ErrorPattern.id := ErrorPattern.id e;
            ErrorPattern.errorText := ErrorPattern.errorText e;
            ErrorPattern.solution := solution;
            ErrorPattern.language := ErrorPattern.language e;
            ErrorPattern.frequency := frequency;
            ErrorPattern.lastEncountered := lastEncountered |}
    else e) rows.

(** [... ORDER BY frequency DESC LIMIT 5] *)
Definition selectErrorSolutions (language pattern : jsstring)
    (rows : list ErrorPattern) : list ErrorPattern :=
  Sql.limit 5 (Sql.orderByDesc ErrorPattern.frequency
                 (List.filter (errorMatches language pattern) rows)).

(** [SELECT * FROM developer_context ORDER BY lastActivity DESC LIMIT 1] *)
Definition selectCurrentContext (rows : list (N * DeveloperContext))
    : option (N * DeveloperContext) :=
  head (Sql.orderByDesc (fun r => DeveloperContext.lastActivity (snd r)) rows).

(** The key an [AUTOINCREMENT] column gives a new row: one more than the
    largest key the table has ever held.  It is never the key of a row of the
    table, so the [ON CONFLICT(id)] clause of the insertion never applies. *)
Definition nextKey (seq : N) (rows : list (N * DeveloperContext)) : N :=
  (1 + fold_right N.max seq (List.map fst rows))%N.

(** [DELETE FROM snippets WHERE timestamp < ?], a comparison of texts. *)
Definition deleteSnippetsBefore (cutoff : Z) (rows : list CodeSnippet) : list CodeSnippet :=
  List.filter (fun s => negb (Iso.before (CodeSnippet.timestamp s) cutoff)) rows.

(** [DELETE FROM developer_context WHERE lastActivity < ?] *)
Definition deleteContextBefore (cutoff : Z) (rows : list (N * DeveloperContext))
    : list (N * DeveloperContext) :=
  List.filter (fun r => negb (Iso.before (DeveloperContext.lastActivity (snd r)) cutoff))
    rows.

End Query.

(** ** [code-storage.ts] *)

Section Storage.
Variable env : Env.

Definition newDate : M Z := fun w =>
  let t := clock env (length (trace w)) in (Ok t, record (EvNow t) w).

Definition uuidv4 : M jsstring := fun w =>
  let u := uuid env (length (trace w)) in (Ok u, record (EvUuid u) w).

(** A call that reaches the storage engine throws when the engine fails. *)
Definition storage (e : event) : M unit := fun w =>
  if db_fault env (length (trace w))
  then (Throw StorageError, record e w)
  else (Ok tt, record e w).

Definition getDb : M unit := storage EvGetDb.

Definition sql (s : statement) : M unit := storage (EvSql s).

Definition millisecondsPerDay : Z := Iso.msPerDay.

(** The primary key of a table refuses a second row of the same [id]. *)
Definition insertSnippet (s : CodeSnippet) : M unit :=
  sql (InsertSnippet s);;
  rows ← gets snippets;
  if existsb (fun r => Js.eqb (CodeSnippet.id r) (CodeSnippet.id s)) rows
  then throw StorageError
  else modify (set_snippets (rows ++ [s])).

Definition insertError (e : ErrorPattern) : M unit :=
  sql (InsertError e);;
  rows ← gets error_patterns;
  if existsb (fun r => Js.eqb (ErrorPattern.id r) (ErrorPattern.id e)) rows
  then throw StorageError
  else modify (set_error_patterns (rows ++ [e])).

Definition saveSnippet (snippet : NewSnippet) : M CodeSnippet :=
  getDb;;
  id ← uuidv4;
  now ← newDate;
  let fullSnippet :=
    {| CodeSnippet.id := id;
       CodeSnippet.content := NewSnippet.content snippet;
       CodeSnippet.language := NewSnippet.language snippet;
       CodeSnippet.tags := NewSnippet.tags snippet;
       CodeSnippet.filePath := NewSnippet.filePath snippet;
       CodeSnippet.projectContext := NewSnippet.projectContext snippet;
       CodeSnippet.timestamp := now;
       CodeSnippet.sourceApp := NewSnippet.sourceApp snippet;
       CodeSnippet.favorited := default false (NewSnippet.favorited snippet) |} in
  insertSnippet fullSnippet;;
  mret fullSnippet.

Definition getSnippets (options : SnippetQuery) : M (list CodeSnippet) :=
  getDb;;
  sql (SelectSnippets options);;
  rows ← gets snippets;
  if Query.likeFails options rows then throw LikeError
  else mret (Query.selectSnippets options rows).

Definition recordError (error : NewError) : M ErrorPattern :=
  getDb;;
  let language := NewError.language error in
  let pattern := Sql.containing (substring0 50 (NewError.errorText error)) in
  sql (SelectSimilarError language pattern);;
  existing ← gets (fun w => Query.selectSimilarError language pattern (error_patterns w));
  match existing with
  | Some existing =>
      let frequency := addNumber (ErrorPattern.frequency existing) 1 in
      now ← newDate;
      sql (UpdateError frequency now (NewError.solution error) (ErrorPattern.id existing));;
      modify (fun w => set_error_patterns
                (Query.updateError frequency now (NewError.solution error)
                   (ErrorPattern.id existing) (error_patterns w)) w);;
      mret {| ErrorPattern.id := ErrorPattern.id existing;
              ErrorPattern.errorText := ErrorPattern.errorText existing;
              ErrorPattern.solution := ErrorPattern.solution existing;
              ErrorPattern.language := ErrorPattern.language existing;
              ErrorPattern.frequency := frequency;
              ErrorPattern.lastEncountered := ErrorPattern.lastEncountered existing |}
  | None =>
      id ← uuidv4;
      now ← newDate;
      let newError :=
        {| ErrorPattern.id := id;
           ErrorPattern.errorText := NewError.errorText error;
           ErrorPattern.solution := NewError.solution error;
           ErrorPattern.language := language;
           ErrorPattern.frequency := 1%Z;
           ErrorPattern.lastEncountered := now |} in
      insertError newError;;
      mret newError
  end.

Definition getErrorSolutions (errorText language : jsstring) : M (list ErrorPattern) :=
  getDb;;
  let pattern := Sql.containing (substring0 100 errorText) in
  sql (SelectErrorSolutions language pattern);;
  gets (fun w => Query.selectErrorSolutions language pattern (error_patterns w)).

Definition updateDeveloperContext (context : ContextUpdate) : M unit :=
  getDb;;
  now ← newDate;
  let row :=
    {| DeveloperContext.currentApp :=
         orElse (ContextUpdate.currentApp context) (lit "unknown");
       DeveloperContext.activeFile := ContextUpdate.activeFile context;
       DeveloperContext.projectRoot := ContextUpdate.projectRoot context;
       DeveloperContext.lastActivity := now |} in
  sql (InsertContext row);;
  modify (fun w =>
    let key := Query.nextKey (context_seq w) (developer_context w) in
    set_developer_context (developer_context w ++ [(key, row)]) key w).

Definition getCurrentContext : M (option (N * DeveloperContext)) :=
  getDb;;
  sql SelectCurrentContext;;
  gets (fun w => Query.selectCurrentContext (developer_context w)).

(** [daysToKeep] is a whole number of days, [None] when the argument is left
    out.  [setDate(getDate() - daysToKeep)] works on the local reading of the
    clock: it moves the day of the month, keeps the time of the day, and
    takes the instant of that reading in the zone of the host.  When the
    instant is out of the range of a [Date], [toISOString] throws before the
    first statement is sent. *)
Definition cleanupOldData (daysToKeep : option Z) : M unit :=
  getDb;;
  now ← newDate;
  let reading := (localTime env now - default 30%Z daysToKeep * millisecondsPerDay)%Z in
  match Iso.timeClip (utcTime env reading) with
  | None => throw RangeError
  | Some cutoffDate =>
      sql (DeleteSnippetsBefore cutoffDate);;
      modify (fun w => set_snippets (Query.deleteSnippetsBefore cutoffDate (snippets w)) w);;
      sql (DeleteContextBefore cutoffDate);;
      modify (fun w => set_developer_context
                (Query.deleteContextBefore cutoffDate (developer_context w))
                (context_seq w) w)
  end.

End Storage.

(** ** The class [AIHelper] *)

Record AIConfig := {
  apiKey : jsstring;
  config_model : option jsstring;
  config_temperature : option number
}.

Record AIHelper := {
  model : jsstring;
  temperature : number
}.

(** The constructor: a missing or empty model name gives way to the default
    name, and a temperature that is missing or falsy (zero, [NaN]) to the
    default temperature. *)
Definition newAIHelper (config : AIConfig) : AIHelper :=
  {| model := orElse (config_model config) (lit "gpt-4-turbo");
     temperature :=
       match config_temperature config with
       | Some t => if truthyNumber t then t else Num (7 # 10)
       | None => Num (7 # 10)
       end |}.

(** An element of the result of [detectErrors]. *)
Record FoundError := { error : jsstring; found_solution : jsstring }.

(** The context argument of [processCodeContent]. *)
Record CodeContext := {
  ctx_filePath : option jsstring;
  ctx_language : option jsstring;
  ctx_sourceApp : jsstring
}.

(** The result of [processCodeContent]. *)
Record Analysis := {
  suggestions : list jsstring;
  errors : option (list FoundError);
  matched_snippets : option (list CodeSnippet)
}.

Module Prompt.

Definition line (s : jsstring) : jsstring := s ++ [nl].

Definition errorSolution (error : jsstring) (language : option jsstring) : jsstring :=
  line (lit "Provide a concise solution for this "
        ++ orElse language (lit "programming") ++ lit " error:")
  ++ line (lit "      Error: " ++ error)
  ++ line (lit "      ")
  ++ lit "      Solution:".

Definition relevantSnippets (snippets : list CodeSnippet) : jsstring :=
  match snippets with
  | [] => []
  | _ :: _ =>
      line (lit "Relevant snippets:")
      ++ join ([nl] ++ lit "---" ++ [nl]) (List.map CodeSnippet.content snippets)
  end.

Definition suggestions (code : jsstring) (filePath language : option jsstring)
    (snippets : list CodeSnippet) : jsstring :=
  line (lit "Based on this code context:")
  ++ line (lit "      File: " ++ orElse filePath (lit "unknown"))
  ++ line (lit "      Language: " ++ orElse language (lit "unknown"))
  ++ line (lit "      Current code:")
  ++ line (lit "      " ++ code)
  ++ line (lit "      ")
  ++ line (lit "      " ++ relevantSnippets snippets)
  ++ line (lit "      ")
  ++ lit "      Provide 3 concise suggestions to improve or continue this code. Format as bullet points.".

Definition system_solution : jsstring :=
  lit "You are an expert programming assistant. Provide clear, concise solutions to errors.".

Definition system_suggestions : jsstring :=
  lit "You are a pair programming assistant. Provide helpful, concise coding suggestions.".

End Prompt.

(** The parsing of the bullet points of a response. *)
Module Bullets.

(** [line.startsWith('-') || line.startsWith('•')] *)
Definition isBulletLine (l : jsstring) : bool :=
  startsWithChar hyphen l || startsWithChar bullet l.

(** [line.replace(re, '')] for the expression [^[-•]\s*]: one marker at the
    start of the line and the white space after it. *)
Definition stripMarker (l : jsstring) : jsstring :=
  match l with
  | c :: l' =>
      if ((c =? hyphen) || (c =? bullet))%N then dropWhile isWhiteSpace l' else l
  | [] => []
  end.

(** [content.split('\n').filter(...).map(...).slice(0, 3)] *)
Definition parse (content : jsstring) : list jsstring :=
  take 3 (List.map (fun l => trim (stripMarker l))
            (List.filter isBulletLine (split_nl content))).

End Bullets.

Section Helper.
Variable env : Env.
Variable this : AIHelper.

Definition consoleError : M unit := modify (record EvConsoleError).

Definition createCompletion (r : request) : M (option jsstring) := fun w =>
  match completion env (length (trace w)) r with
  | ApiThrows => (Throw ApiError, record (EvCompletion r) w)
  | ApiReplies c => (Ok c, record (EvCompletion r) w)
  end.

Definition chat (system user : jsstring) (max_tokens : N) : request :=
  {| req_model := model this;
     req_messages :=
       [ {| role := lit "system"; message_content := system |};
         {| role := lit "user"; message_content := user |} ];
     req_temperature := temperature this;
     req_max_tokens := max_tokens |}.

Definition generateErrorSolution (error : jsstring) (language : option jsstring)
    : M (option jsstring) :=
  try_catch
    (let prompt := Prompt.errorSolution error language in
     content ← createCompletion (chat Prompt.system_solution prompt 200);
     mret (match content with
           | Some c => match trim c with [] => None | t => Some t end
           | None => None
           end))
    (fun _ => consoleError;; mret None).

(** The body of the loop of [detectErrors] for a signature that matched. *)
Definition detectCandidate (language : option jsstring) (errorText : jsstring)
    (foundErrors : list FoundError) : M (list FoundError) :=
  dbSolutions ← (if truthy language
                 then getErrorSolutions env errorText (orElse language [])
                 else mret []);
  if (0 <? length dbSolutions)%nat then
    mret (foundErrors
          ++ List.map (fun sol => {| error := errorText;
                                     found_solution := ErrorPattern.solution sol |})
               dbSolutions)
  else
    aiSolution ← generateErrorSolution errorText language;
    match aiSolution with
    | Some aiSolution =>
        let foundErrors :=
          foundErrors ++ [ {| error := errorText; found_solution := aiSolution |} ] in
        (if truthy language
         then recordError env
                {| NewError.errorText := errorText;
                   NewError.solution := aiSolution;
                   NewError.language := orElse language [] |};;
              mret foundErrors
         else mret foundErrors)
    | None => mret foundErrors
    end.

Definition errorPatterns : list (jsstring -> option jsstring) :=
  [Regex.reError; Regex.reTyped; Regex.reCode; Regex.reException].

Fixpoint detectLoop (patterns : list (jsstring -> option jsstring))
    (code : jsstring) (language : option jsstring)
    (foundErrors : list FoundError) : M (list FoundError) :=
  match patterns with
  | [] => mret foundErrors
  | pattern :: patterns' =>
      match Regex.search pattern code with
      | Some errorText =>
          foundErrors ← detectCandidate language errorText foundErrors;
          detectLoop patterns' code language foundErrors
      | None => detectLoop patterns' code language foundErrors
      end
  end.

Definition detectErrors (code : jsstring) (language : option jsstring)
    : M (option (list FoundError)) :=
  foundErrors ← detectLoop errorPatterns code language [];
  mret (if (0 <? length foundErrors)%nat then Some foundErrors else None).

Definition generateSuggestions (code : jsstring) (filePath language : option jsstring)
    : M (list jsstring) :=
  try_catch
    (currentContext ← getCurrentContext env;
     snippets ← getSnippets env
       {| SnippetQuery.language := language;
          SnippetQuery.searchTerm := None;
          SnippetQuery.limit := Some 3%nat |};
     let prompt := Prompt.suggestions code filePath language snippets in
     content ← createCompletion (chat Prompt.system_suggestions prompt 300);
     match content with
     | Some (c :: s) => mret (Bullets.parse (c :: s))
     | _ => mret []
     end)
    (fun _ => consoleError;; mret []).

(** The mock of an embedding: the empty vector. *)
Definition generateEmbedding (text : jsstring) : M (list Q) :=
  modify (record EvEmbedding);; mret [].

(** The mock of a similarity: [Math.random()]. *)
Definition calculateSimilarity (embedding : list Q) (text : jsstring) : M N := fun w =>
  let x := random env (length (trace w)) in (Ok x, record (EvRandom x) w).

(** [Promise.all(allSnippets.map(async snippet => ...))]: the calls start in
    the order of the array. *)
Fixpoint scoreSnippets (embedding : list Q) (allSnippets : list CodeSnippet)
    : M (list (CodeSnippet * N)) :=
  match allSnippets with
  | [] => mret []
  | snippet :: rest =>
      score ← calculateSimilarity embedding (CodeSnippet.content snippet);
      scored ← scoreSnippets embedding rest;
      mret ((snippet, score) :: scored)
  end.

Definition findRelevantSnippets (code : jsstring) (language : option jsstring)
    : M (option (list CodeSnippet)) :=
  match trim code with
  | [] => mret None
  | _ :: _ =>
      try_catch
        (exactMatches ← getSnippets env
           {| SnippetQuery.language := language;
              SnippetQuery.searchTerm := Some (substring0 50 (trim code));
              SnippetQuery.limit := Some 2%nat |};
         if (0 <? length exactMatches)%nat then mret (Some exactMatches)
         else
           embedding ← generateEmbedding code;
           allSnippets ← getSnippets env
             {| SnippetQuery.language := language;
                SnippetQuery.searchTerm := None;
                SnippetQuery.limit := None |};
           scoredSnippets ← scoreSnippets embedding allSnippets;
           mret (Some (List.map fst
                         (take 2 (Sql.orderByDesc (fun item => Z.of_N (snd item))
                                    scoredSnippets)))))
        (fun _ => consoleError;; mret None)
  end.

(** [Promise.all] of the three analyses.  None of them waits for a result of
    another and they work on different tables (the detector on
    [error_patterns], the other two read [snippets] and [developer_context]),
    so they are run here one after the other, in the order of the array.
    All three run to their end whatever the others do; the promise is
    rejected when one of them throws. *)
Definition promiseAll3 {A B C} (a : M A) (b : M B) (c : M C) : M (A * B * C) := fun w =>
  let '(ra, w1) := a w in
  let '(rb, w2) := b w1 in
  let '(rc, w3) := c w2 in
  match ra, rb, rc with
  | Ok x, Ok y, Ok z => (Ok (x, y, z), w3)
  | Throw e, _, _ => (Throw e, w3)
  | _, Throw e, _ => (Throw e, w3)
  | _, _, Throw e => (Throw e, w3)
  end.

Definition processCodeContent (content : jsstring) (context : CodeContext) : M Analysis :=
  lastActivity ← newDate env;
  updateDeveloperContext env
    {| ContextUpdate.currentApp := Some (ctx_sourceApp context);
       ContextUpdate.activeFile := ctx_filePath context;
       ContextUpdate.projectRoot := None;
       ContextUpdate.lastActivity := Some lastActivity |};;
  '(errorAnalysis, suggestionAnalysis, snippetMatch) ←
    promiseAll3
      (detectErrors content (ctx_language context))
      (generateSuggestions content (ctx_filePath context) (ctx_language context))
      (findRelevantSnippets content (ctx_language context));
  mret {| suggestions := suggestionAnalysis;
          errors := errorAnalysis;
          matched_snippets := snippetMatch |}.

End Helper.

(** ** Assumptions on the collaborators *)

(** The storage engine is reliable when none of its calls fails. *)
Definition reliable (env : Env) : Prop := forall n, db_fault env n = false.

(** The completion API is up when none of its calls throws. *)
Definition api_up (env : Env) : Prop := forall n r, completion env n r <> ApiThrows.

(** The host keeps one offset from UTC: no daylight saving time and no change
    of zone. *)
Definition fixedOffset (env : Env) : Prop :=
  exists k, forall t, localTime env t = (t + k)%Z /\ utcTime env t = (t - k)%Z.

(** The rows that carry a stamp carry one of the years 0000 to 9999, where
    the order of the texts is the order of the instants. *)
Definition fourDigitYears (w : World) : Prop :=
  (forall s, In s (snippets w) -> Iso.fourDigitYear (CodeSnippet.timestamp s) = true)
  /\ (forall r, In r (developer_context w) ->
        Iso.fourDigitYear (DeveloperContext.lastActivity (snd r)) = true).

(** ** Sample data for the examples *)

Module Sample.

(** A reliable storage engine, an API that gives one fixed answer, a clock
    that advances by a millisecond per event. *)
Definition env_with (fault : nat -> bool) (answer : api_outcome) : Env :=
  {| clock := fun n => (1000 + Z.of_nat n)%Z;
     uuid := fun n => lit "uuid-" ++ [(48 + N.of_nat n)%N];
     db_fault := fault;
     completion := fun _ _ => answer;
     random := fun n => N.of_nat n;
     localTime := fun t => (t + 3600000)%Z;
     utcTime := fun t => (t - 3600000)%Z |}.

Definition no_fault : nat -> bool := fun _ => false.

Definition fault_at (k : nat) : nat -> bool := fun n => Nat.eqb n k.

Definition newline_text (a b : jsstring) : jsstring := a ++ [nl] ++ b.

Definition env : Env :=
  env_with no_fault (ApiReplies (Some (lit "Verify the type of x before the call. "))).

Definition env_bullets : Env :=
  env_with no_fault
    (ApiReplies (Some (newline_text (lit "Here you are:")
                         (newline_text (lit "--x is decremented twice")
                            (lit "- rename y  "))))).

Definition env_down : Env := env_with no_fault ApiThrows.

Definition helper : AIHelper :=
  newAIHelper {| apiKey := []; config_model := None; config_temperature := None |}.

Definition empty : World :=
  {| snippets := []; error_patterns := []; developer_context := [];
     context_seq := 0%N; trace := [] |}.

Definition pattern (id text solution : string) (frequency : Z) : ErrorPattern :=
  {| ErrorPattern.id := lit id;
     ErrorPattern.errorText := lit text;
     ErrorPattern.solution := lit solution;
     ErrorPattern.language := lit "js";
     ErrorPattern.frequency := frequency;
     ErrorPattern.lastEncountered := 500%Z |}.

Definition snippet (id text : string) (tags : list string) (timestamp : Z) : CodeSnippet :=
  {| CodeSnippet.id := lit id;
     CodeSnippet.content := lit text;
     CodeSnippet.language := lit "js";
     CodeSnippet.tags := List.map lit tags;
     CodeSnippet.filePath := None;
     CodeSnippet.projectContext := None;
     CodeSnippet.timestamp := timestamp;
     CodeSnippet.sourceApp := lit "editor";
     CodeSnippet.favorited := false |}.

Definition context_row (app : string) (lastActivity : Z) : DeveloperContext :=
  {| DeveloperContext.currentApp := lit app;
     DeveloperContext.activeFile := None;
     DeveloperContext.projectRoot := None;
     DeveloperContext.lastActivity := lastActivity |}.

(** A store with three known errors, two snippets and one context row.  The
    second snippet and the context row are stamped 1001, the instant the
    sample clock shows at the second event. *)
Definition store : World :=
  {| snippets :=
       [ snippet "s1" "const total = items.reduce(add, 0)" ["sum"; "fold"]%string 700%Z;
         snippet "s2" "items.map(render)" ["list"]%string 1001%Z ];
     error_patterns :=
       [ pattern "e1" "TypeError: x is not a function" "Call a function." 3%Z;
         pattern "e2" "TypeError: x is undefined" "Define x." 7%Z;
         pattern "e3" "ReferenceError: y is not defined" "Bind y first." 1%Z ];
     developer_context := [ (1%N, context_row "editor" 1001%Z) ];
     context_seq := 1%N;
     trace := [] |}.

(** An error text of 65 characters, and a store that knows an error with the
    same first 57 characters. *)
Definition reading_error : jsstring :=
  lit "TypeError: Cannot read properties of undefined (reading 'length')".

Definition store_reading : World :=
  {| snippets := [];
     error_patterns :=
       [ pattern "e1" "TypeError: Cannot read properties of undefined (reading 'id')"
           "Fetch the record first." 4%Z ];
     developer_context := [];
     context_seq := 0%N;
     trace := [] |}.

(** The storage engine fails at its call number [k]. *)
Definition env_fault (k : nat) : Env :=
  env_with (fault_at k) (ApiReplies (Some (lit "- keep going"))).

Definition error (text solution : string) : NewError :=
  {| NewError.errorText := lit text;
     NewError.solution := lit solution;
     NewError.language := lit "js" |}.

Definition context_x : CodeContext :=
  {| ctx_filePath := None; ctx_language := None; ctx_sourceApp := lit "x" |}.

Definition context_js : CodeContext :=
  {| ctx_filePath := None; ctx_language := Some (lit "js"); ctx_sourceApp := lit "x" |}.

End Sample.

(** ** [getProjectContext]

    The last function of the class that works on texts alone: the name of the
    directory a file lies in, taken from its path. *)

Module Path.

(** The class of the expression [filePath.split] is called with: a backslash
    or a slash. *)
Definition isSeparator (c : N) : bool := ((c =? 92) || (c =? 47))%N.

(** [s.split(re)] for that expression: never empty. *)
Fixpoint split (s : jsstring) : list jsstring :=
  match s with
  | [] => [[]]
  | c :: s' =>
      if isSeparator c then [] :: split s'
      else match split s' with
           | l :: ls => (c :: l) :: ls
           | [] => [[c]]
           end
  end.

End Path.

Definition getProjectContext (filePath : option jsstring) : option jsstring :=
  if truthy filePath then
    let parts := Path.split (orElse filePath []) in
    if (1 <? length parts)%nat then nth_error parts (length parts - 2) else None
  else None.

(** ** What a run did, read off its trace *)

Definition isCompletion (e : event) : bool :=
  match e with EvCompletion _ => true | _ => false end.

Definition isRandom (e : event) : bool :=
  match e with EvRandom _ => true | _ => false end.

Definition isStorage (e : event) : bool :=
  match e with EvGetDb | EvSql _ => true | _ => false end.

(** The calls of the completion API so far. *)
Definition apiCalls (w : World) : nat := length (List.filter isCompletion (trace w)).

(** The random numbers drawn so far. *)
Definition randomDraws (w : World) : nat := length (List.filter isRandom (trace w)).

(** The calls that reached the storage engine so far. *)
Definition storageCalls (w : World) : nat := length (List.filter isStorage (trace w)).

(** The trace only grows. *)
Definition extends (w w' : World) : Prop := exists events, trace w' = trace w ++ events.

(** ** Relations between the store before and after a run *)

Definition sameSnippets (w w' : World) : Prop := snippets w' = snippets w.

Definition sameErrorPatterns (w w' : World) : Prop := error_patterns w' = error_patterns w.

Definition sameContext (w w' : World) : Prop :=
  developer_context w' = developer_context w /\ context_seq w' = context_seq w.

Definition sameTables (w w' : World) : Prop :=
  sameSnippets w w' /\ sameErrorPatterns w w' /\ sameContext w w'.

(** The keys of the three tables: no [id] occurs twice in [snippets] or in
    [error_patterns], no key twice in [developer_context]. *)
Definition wellKeyed (w : World) : Prop :=
  NoDup (List.map CodeSnippet.id (snippets w))
  /\ NoDup (List.map ErrorPattern.id (error_patterns w))
  /\ NoDup (List.map fst (developer_context w)).

Definition keepsKeys (w w' : World) : Prop := wellKeyed w -> wellKeyed w'.

(** A run respects a relation when the world it leaves is related to the
    world it started in, whether it returns or throws. *)
Definition respects (R : World -> World -> Prop) {A} (m : M A) : Prop :=
  forall w, R w (snd (m w)).

(** The relations runs are followed with: they hold of a world and itself,
    and compose. *)
Class Stable (R : World -> World -> Prop) : Prop := {
  frame_refl : forall w, R w w;
  frame_trans : forall w1 w2 w3, R w1 w2 -> R w2 w3 -> R w1 w3
}.

(** Those that every step other than a call of the completion API respects. *)
Class QuietFrame (R : World -> World -> Prop) : Prop := {
  quiet_stable :: Stable R;
  quiet_record : forall e w, isCompletion e = false -> R w (record e w)
}.

(** Those that every step respects: they do not look at the trace. *)
Class Frame (R : World -> World -> Prop) : Prop := {
  frame_stable :: Stable R;
  frame_record : forall e w, R w (record e w)
}.

(** The calls of the completion API are as many after as before. *)
Definition sameCalls (w w' : World) : Prop := apiCalls w' = apiCalls w.

(** A run makes at most [n] calls of the completion API. *)
Definition atMostCalls (n : nat) {A} (m : M A) : Prop :=
  forall w, apiCalls w <= apiCalls (snd (m w)) <= apiCalls w + n.

(** A run adds at most [n] error patterns and removes none. *)
Definition atMostPatterns (n : nat) {A} (m : M A) : Prop :=
  forall w,
    length (error_patterns w) <= length (error_patterns (snd (m w)))
    <= length (error_patterns w) + n.

(** The candidate error strings of a text: [match[0]] of each signature that
    matches, in the order of the signatures. *)
Definition candidatesOf (patterns : list (jsstring -> option jsstring))
    (code : jsstring) : list jsstring :=
  omap (fun pattern => Regex.search pattern code) patterns.

Definition candidates (code : jsstring) : list jsstring :=
  candidatesOf [Regex.reError; Regex.reTyped; Regex.reCode; Regex.reException] code.

(** The upper-case letters of ASCII, which [toLowerCase] leaves none of. *)
Definition isUpperAscii (c : N) : bool := ((65 <=? c) && (c <=? 90))%N.

(** More sample data. *)
Module Fixture.

Definition new_snippet : NewSnippet :=
  {| NewSnippet.content := lit "const id = x => x";
     NewSnippet.language := lit "js";
     NewSnippet.tags := [lit "identity"];
     NewSnippet.filePath := Some (lit "src/util/id.js");
     NewSnippet.projectContext := Some (lit "util");
     NewSnippet.sourceApp := lit "editor";
     NewSnippet.favorited := None |}.

(** A store whose snippet has the [id] the sample environment draws next. *)
Definition store_taken : World :=
  {| snippets := [ {| CodeSnippet.id := uuid Sample.env 1;
                      CodeSnippet.content := lit "let a = 1";
                      CodeSnippet.language := lit "js";
                      CodeSnippet.tags := [];
                      CodeSnippet.filePath := None;
                      CodeSnippet.projectContext := None;
                      CodeSnippet.timestamp := 10%Z;
                      CodeSnippet.sourceApp := lit "editor";
                      CodeSnippet.favorited := false |} ];
     error_patterns := []; developer_context := []; context_seq := 0%N; trace := [] |}.

Definition update (app : option jsstring) : ContextUpdate :=
  {| ContextUpdate.currentApp := app;
     ContextUpdate.activeFile := Some (lit "main.js");
     ContextUpdate.projectRoot := None;
     ContextUpdate.lastActivity := Some 5%Z |}.

(** An API that answers with white space only. *)
Definition env_blank : Env := Sample.env_with Sample.no_fault (ApiReplies (Some (lit "   "))).

Definition all_snippets (language : option jsstring) : SnippetQuery :=
  {| SnippetQuery.language := language;
     SnippetQuery.searchTerm := None;
     SnippetQuery.limit := None |}.

(** The first 100 units of a stack trace, and two traces that begin with
    them. *)
Definition stack_head : jsstring :=
  lit "TypeError: Cannot read properties of undefined (reading 'length') at renderList (src/lists.js:12:5) ".

Definition long_error : jsstring := stack_head ++ lit "at update (src/app.js:40:3)".

Definition long_error_again : jsstring := stack_head ++ lit "at main (src/index.js:7:1)".

Definition known (id : string) (text : jsstring) (language : string) (frequency : Z)
    : ErrorPattern :=
  {| ErrorPattern.id := lit id;
     ErrorPattern.errorText := text;
     ErrorPattern.solution := lit "Guard the list.";
     ErrorPattern.language := lit language;
     ErrorPattern.frequency := frequency;
     ErrorPattern.lastEncountered := 500%Z |}.

(** Known errors: two whose text holds those 100 units, one that holds the
    first 90 of them only, one of another language. *)
Definition store_traces : World :=
  {| snippets := [];
     error_patterns :=
       [ known "e1" (stack_head ++ lit "at paint (src/view.js:3:9)") "js" 2%Z;
         known "e2" (lit "Uncaught " ++ stack_head) "js" 9%Z;
         known "e3" (take 90 stack_head) "js" 50%Z;
         known "e4" long_error "ts" 100%Z ];
     developer_context := [];
     context_seq := 0%N;
     trace := [] |}.

(** An input of 86 units, 82 of them after trimming, and a store with a
    snippet that holds the first 50 of those. *)
Definition long_code : jsstring :=
  lit "  const total = items.reduce((sum, item) => sum + item.price, 0); console.log(total)  ".

Definition store_totals : World :=
  {| snippets :=
       [ Sample.snippet "s1"
           "function pay(items) { const total = items.reduce((sum, item) => sum + item.tax, 0) }"
           ["sum"]%string 700%Z;
         Sample.snippet "s2" "items.map(render)" ["list"]%string 1001%Z ];
     error_patterns := [];
     developer_context := [];
     context_seq := 0%N;
     trace := [] |}.

(** A search term of 50 000 letters: its pattern has 50 002 bytes. *)
Definition huge_term : jsstring := repeat 97%N (N.to_nat 50000).

Definition huge_query (language : string) : SnippetQuery :=
  {| SnippetQuery.language := Some (lit language);
     SnippetQuery.searchTerm := Some huge_term;
     SnippetQuery.limit := None |}.

(** A snippet with a character outside the basic plane: U+1F600, the two
    units D83D and DE00. *)
Definition store_face : World :=
  {| snippets :=
       [ {| CodeSnippet.id := lit "s1";
            CodeSnippet.content := lit "say(" ++ [55357%N; 56832%N] ++ lit ")";
            CodeSnippet.language := lit "js";
            CodeSnippet.tags := [];
            CodeSnippet.filePath := None;
            CodeSnippet.projectContext := None;
            CodeSnippet.timestamp := 700%Z;
            CodeSnippet.sourceApp := lit "editor";
            CodeSnippet.favorited := false |} ];
     error_patterns := []; developer_context := []; context_seq := 0%N; trace := [] |}.

(** An error text whose unit 50 is the first half of a surrogate pair. *)
Definition split_error : NewError :=
  {| NewError.errorText := repeat 97%N 49 ++ [55357%N; 56832%N] ++ lit " is not a function";
     NewError.solution := lit "Call a function.";
     NewError.language := lit "js" |}.

(** The call of [monitorScreenActivity] for a window without an application
    name. *)
Definition context_unnamed : CodeContext :=
  {| ctx_filePath := None; ctx_language := None; ctx_sourceApp := [] |}.

(** A host half an hour after the end of daylight saving time, which was at
    the instant 0: the offset from UTC was two hours before it and is one hour
    since, and a reading of the local clock in the hour that occurs twice is
    taken as one of the first occurrence. *)
Definition env_autumn : Env :=
  {| clock := clock Sample.env;
     uuid := uuid Sample.env;
     db_fault := Sample.no_fault;
     completion := completion Sample.env;
     random := random Sample.env;
     localTime := fun t => if (t <? 0)%Z then (t + 7200000)%Z else (t + 3600000)%Z;
     utcTime := fun l => if (l <? 7200000)%Z then (l - 7200000)%Z else (l - 3600000)%Z |}.

End Fixture.

(** * Properties *)

(** ** Strings *)

Lemma eqb_eq (s t : jsstring) : Js.eqb s t = true <-> s = t.
Proof.
  revert t; induction s as [|c s IH]; intros [|d t]; simpl; try easy.
  rewrite andb_true_iff, N.eqb_eq, IH. split.
  - intros [-> ->]; reflexivity.
  - intros [= -> ->]; auto.
Qed.

Lemma eqb_refl (s : jsstring) : Js.eqb s s = true.
Proof. apply eqb_eq; reflexivity. Qed.

Lemma truthy_orElse (o : option jsstring) (d : jsstring) :
  truthy o = true -> o = Some (orElse o d).
Proof. destruct o as [[|c s]|]; simpl; intros; congruence. Qed.

(** What [dropWhile] leaves does not start with a character of the class. *)
Lemma dropWhile_head (p : N -> bool) (s : jsstring) (c : N) (r : jsstring) :
  dropWhile p s = c :: r -> p c = false.
Proof.
  induction s as [|d s IH]; simpl; [discriminate|].
  destruct (p d) eqn:E; [exact IH|]. intros [= -> _]; exact E.
Qed.

Lemma trimEnd_cons (c : N) (s : jsstring) :
  isWhiteSpace c = false -> exists r, trimEnd (c :: s) = c :: r.
Proof.
  intros Hc. unfold trimEnd. simpl rev.
  assert (H : forall l, exists r, dropWhile isWhiteSpace (l ++ [c]) = r ++ [c]).
  { induction l as [|d l IH]; simpl.
    - rewrite Hc. exists []; reflexivity.
    - destruct (isWhiteSpace d); [exact IH|]. exists (d :: l); reflexivity. }
  destruct (H (rev s)) as [r ->]. rewrite rev_app_distr. simpl. eauto.
Qed.

(** Trimming does not change the first character of a text that does not
    start with white space. *)
Lemma trim_cons (c : N) (s : jsstring) :
  isWhiteSpace c = false -> exists r, trim (c :: s) = c :: r.
Proof.
  intros Hc. unfold trim, trimStart. simpl. rewrite Hc. now apply trimEnd_cons.
Qed.

(** ** [ORDER BY ... DESC] *)

Section OrderByFacts.
Context {A : Type} (key : A -> Z).

Lemma insertDesc_perm (x : A) (l : list A) :
  Permutation (Sql.insertDesc key x l) (x :: l).
Proof.
  induction l as [|y l IH]; simpl; [reflexivity|].
  destruct (key x <? key y)%Z; [|reflexivity].
  rewrite IH. apply perm_swap.
Qed.

Lemma orderByDesc_perm (l : list A) : Permutation (Sql.orderByDesc key l) l.
Proof.
  induction l as [|x l IH]; simpl; [reflexivity|].
  rewrite insertDesc_perm. now constructor.
Qed.

Lemma orderByDesc_length (l : list A) : length (Sql.orderByDesc key l) = length l.
Proof. apply Permutation_length, orderByDesc_perm. Qed.

Lemma orderByDesc_In (x : A) (l : list A) : In x (Sql.orderByDesc key l) <-> In x l.
Proof.
  split; apply Permutation_in; [|symmetry]; apply orderByDesc_perm.
Qed.

Lemma insertDesc_sorted (x : A) (l : list A) :
  StronglySorted (Sql.descending key) l ->
  StronglySorted (Sql.descending key) (Sql.insertDesc key x l).
Proof.
  induction 1 as [|y l Hs IH Hy]; simpl.
  - repeat constructor.
  - destruct (key x <? key y)%Z eqn:E.
    + constructor; [exact IH|].
      apply List.Forall_forall. intros z Hz.
      apply (Permutation_in _ (insertDesc_perm x l)) in Hz.
      destruct Hz as [<-|Hz].
      * apply Z.ltb_lt in E. unfold Sql.descending. lia.
      * rewrite List.Forall_forall in Hy. now apply Hy.
    + apply Z.ltb_ge in E. constructor; [now constructor|].
      constructor; [exact E|].
      eapply List.Forall_impl; [|exact Hy]. unfold Sql.descending. intros; simpl in *; lia.
Qed.

Lemma orderByDesc_sorted (l : list A) :
  StronglySorted (Sql.descending key) (Sql.orderByDesc key l).
Proof.
  induction l; simpl; [constructor|]. now apply insertDesc_sorted.
Qed.

Lemma orderByDesc_nil (l : list A) : Sql.orderByDesc key l = [] <-> l = [].
Proof.
  split; [|intros ->; reflexivity]. intros H.
  apply length_zero_iff_nil. rewrite <- orderByDesc_length, H. reflexivity.
Qed.

Lemma take_sorted (n : nat) (l : list A) :
  StronglySorted (Sql.descending key) l -> StronglySorted (Sql.descending key) (take n l).
Proof.
  intros H; revert n. induction H as [|x l Hs IH Hx]; intros [|n]; simpl; try constructor.
  - apply IH.
  - rewrite List.Forall_forall in *. intros y Hy. apply Hx.
    rewrite <- (take_drop n l). apply in_or_app. now left.
Qed.

(** What [LIMIT n] cuts off comes after everything it keeps. *)
Lemma take_sorted_bound (n : nat) (l : list A) (x y : A) :
  StronglySorted (Sql.descending key) l ->
  In x (take n l) -> In y (drop n l) -> Sql.descending key x y.
Proof.
  intros H; revert n. induction H as [|z l Hs IH Hz]; intros [|n]; simpl; try tauto.
  intros [<-|Hx] Hy.
  - rewrite List.Forall_forall in Hz. apply Hz.
    rewrite <- (take_drop n l). apply in_or_app. now right.
  - now apply (IH n).
Qed.

End OrderByFacts.

(** ** [LIKE] *)

(** *** The comparison of characters *)

Lemma like_percent (q t : list N) :
  Sql.likeChars (Sql.percent :: q) t
  = Sql.likeChars q t || match t with
                         | [] => false
                         | _ :: t' => Sql.likeChars (Sql.percent :: q) t'
                         end.
Proof. destruct t; reflexivity. Qed.

Lemma like_percent_skip (q a t : list N) :
  Sql.likeChars (Sql.percent :: q) t = true ->
  Sql.likeChars (Sql.percent :: q) (a ++ t) = true.
Proof.
  intros H. induction a as [|c a IH]; [exact H|].
  simpl app. rewrite like_percent, IH. apply orb_true_r.
Qed.

Lemma like_percent_only (t : list N) : Sql.likeChars [Sql.percent] t = true.
Proof.
  induction t as [|c t IH]; [reflexivity|].
  rewrite like_percent, IH. apply orb_true_r.
Qed.

Lemma charEq_refl (i : bool) (c : N) : Regex.charEq i c c = true.
Proof. destruct i; apply N.eqb_refl. Qed.

Lemma like_cons (c : N) (p : list N) (d : N) (t : list N) :
  (c =? Sql.percent)%N = false ->
  Sql.likeChars (c :: p) (d :: t)
  = ((c =? Sql.underscore)%N || Regex.charEq true c d) && Sql.likeChars p t.
Proof. intros H. simpl. rewrite H. reflexivity. Qed.

(** A text matches a pattern that differs from its beginning in the case of
    ASCII letters only, when what follows matches the rest of the pattern. *)
Lemma like_prefix (x x' p t : list N) :
  List.map Regex.asciiUpper x' = List.map Regex.asciiUpper x ->
  Sql.likeChars p t = true -> Sql.likeChars (x ++ p) (x' ++ t) = true.
Proof.
  revert x'. induction x as [|c x IH]; intros [|d x'] Hup Hp; try discriminate.
  - exact Hp.
  - injection Hup as Hd Hup. specialize (IH x' Hup Hp).
    destruct (c =? Sql.percent)%N eqn:Ec.
    + apply N.eqb_eq in Ec. subst c.
      change ((Sql.percent :: x) ++ p) with (Sql.percent :: (x ++ p)).
      change ((d :: x') ++ t) with (d :: (x' ++ t)).
      rewrite like_percent. apply orb_true_iff. right.
      rewrite like_percent, IH. reflexivity.
    + change ((c :: x) ++ p) with (c :: (x ++ p)).
      change ((d :: x') ++ t) with (d :: (x' ++ t)).
      rewrite (like_cons _ _ _ _ Ec), IH. unfold Regex.charEq.
      rewrite Hd, N.eqb_refl, orb_true_r. reflexivity.
Qed.

(** A text matches itself read as a pattern, whatever follows it. *)
Lemma like_self (p b : list N) : Sql.likeChars (p ++ [Sql.percent]) (p ++ b) = true.
Proof. apply like_prefix; [reflexivity|apply like_percent_only]. Qed.



(** *** The characters of a string *)

Lemma chars_pair (c d : N) (s : jsstring) :
  isHighSurrogate c = true -> isLowSurrogate d = true ->
  Sql.chars (c :: d :: s)
  = (65536 + (c - 55296) * 1024 + (d - 56320))%N :: Sql.chars s.
Proof. intros Hc Hd. simpl. now rewrite Hc, Hd. Qed.

Lemma chars_lone_high (c : N) (s : jsstring) :
  isHighSurrogate c = true -> Sql.startsLow s = false ->
  Sql.chars (c :: s) = 65533%N :: Sql.chars s.
Proof.
  intros Hc Hs. destruct s as [|d s]; simpl in *; rewrite Hc; [reflexivity|].
  now rewrite Hs.
Qed.

Lemma chars_other (c : N) (s : jsstring) :
  isHighSurrogate c = false ->
  Sql.chars (c :: s) = (if isLowSurrogate c then 65533%N else c) :: Sql.chars s.
Proof. intros Hc. simpl. rewrite Hc. destruct (isLowSurrogate c); reflexivity. Qed.




Lemma plainUnit_spec (c : N) :
  Sql.plainUnit c = true ->
  isHighSurrogate c = false /\ isLowSurrogate c = false /\ Sql.notNul c = true.
Proof.
  unfold Sql.plainUnit. rewrite !andb_true_iff, !negb_true_iff. tauto.
Qed.

(** Units that are no surrogates are characters as they stand. *)
Lemma chars_units (s r : jsstring) :
  forallb (fun c => negb (isHighSurrogate c) && negb (isLowSurrogate c)) s = true ->
  Sql.chars (s ++ r) = s ++ Sql.chars r.
Proof.
  induction s as [|c s IH]; [reflexivity|]. simpl.
  rewrite !andb_true_iff, !negb_true_iff. intros [[-> ->] Hs]. now rewrite IH.
Qed.

Lemma plain_units (s : jsstring) :
  forallb Sql.plainUnit s = true ->
  forallb (fun c => negb (isHighSurrogate c) && negb (isLowSurrogate c)) s = true
  /\ forallb Sql.notNul s = true.
Proof.
  induction s as [|c s IH]; [split; reflexivity|]. simpl.
  rewrite !andb_true_iff. intros [Hc Hs]. destruct (IH Hs) as [H1 H2].
  destruct (plainUnit_spec c Hc) as (-> & -> & ->). auto.
Qed.




Lemma cstring_app (a b : list N) :
  forallb Sql.notNul a = true -> Sql.cstring (a ++ b) = a ++ Sql.cstring b.
Proof.
  unfold Sql.cstring. induction a as [|c a IH]; [reflexivity|]. simpl.
  rewrite andb_true_iff. intros [-> Ha]. now rewrite IH.
Qed.


Lemma cstring_notNul (a : list N) : forallb Sql.notNul a = true -> Sql.cstring a = a.
Proof.
  intros H. rewrite <- (app_nil_r a) at 1. rewrite (cstring_app _ _ H).
  simpl. apply app_nil_r.
Qed.

(** *** Patterns made of a piece of the text *)




(** *** The length of a pattern *)

Lemma utf8Bytes_le (c : N) : (Sql.utf8Bytes c <= 4)%N.
Proof.
  unfold Sql.utf8Bytes.
  destruct (c <? 128)%N; [lia|]. destruct (c <? 2048)%N; [lia|].
  destruct (c <? 65536)%N; lia.
Qed.

Lemma utf8Length_cons (c : N) (l : jsstring) (x : N) :
  Sql.chars (c :: l) = x :: Sql.chars l ->
  Sql.utf8Length (c :: l) = (Sql.utf8Bytes x + Sql.utf8Length l)%N.
Proof. unfold Sql.utf8Length. intros ->. reflexivity. Qed.

Lemma utf8Length_both (s : jsstring) :
  (Sql.utf8Length s <= 4 * N.of_nat (length s))%N
  /\ (forall c, (Sql.utf8Length (c :: s) <= 4 * N.of_nat (length (c :: s)))%N).
Proof.
  induction s as [|d s [IH1 IH2]].
  - split; [vm_compute; discriminate|]. intros c.
    destruct (isHighSurrogate c) eqn:Hc.
    + unfold Sql.utf8Length. rewrite (chars_lone_high c [] Hc eq_refl).
      vm_compute. discriminate.
    + rewrite (utf8Length_cons c [] _ (chars_other c [] Hc)).
      pose proof (utf8Bytes_le (if isLowSurrogate c then 65533 else c)%N).
      change (Sql.utf8Length []) with 0%N. cbn [length]. lia.
  - split; [exact (IH2 d)|]. intros c. specialize (IH2 d).
    cbn [length] in *.
    destruct (isHighSurrogate c) eqn:Hc.
    + destruct (isLowSurrogate d) eqn:Hd.
      * unfold Sql.utf8Length in *. rewrite (chars_pair c d s Hc Hd).
        cbn [List.map fold_right].
        pose proof (utf8Bytes_le (65536 + (c - 55296) * 1024 + (d - 56320))%N). lia.
      * rewrite (utf8Length_cons c (d :: s) _ (chars_lone_high c (d :: s) Hc Hd)).
        change (Sql.utf8Bytes 65533) with 3%N. lia.
    + rewrite (utf8Length_cons c (d :: s) _ (chars_other c (d :: s) Hc)).
      pose proof (utf8Bytes_le (if isLowSurrogate c then 65533 else c)%N). lia.
Qed.

(** A pattern of at most 12 500 units is never too long for [LIKE]. *)
Lemma short_pattern (p : jsstring) :
  (N.of_nat (length p) <= 12500)%N -> Sql.tooComplex p = false.
Proof.
  intros H. unfold Sql.tooComplex, Sql.maxLikePattern.
  apply N.ltb_ge. pose proof (proj1 (utf8Length_both p)). lia.
Qed.

Lemma containing_take_short (n : nat) (x : jsstring) :
  n <= 100 -> Sql.tooComplex (Sql.containing (take n x)) = false.
Proof.
  intros H. apply short_pattern. unfold Sql.containing. simpl.
  rewrite length_app, length_take. simpl. lia.
Qed.



(** ** Running the storage functions *)

Lemma trace_record (e : event) (w : World) : trace (record e w) = trace w ++ [e].
Proof. reflexivity. Qed.

Lemma length_trace_record (e : event) (w : World) :
  length (trace (record e w)) = S (length (trace w)).
Proof. rewrite trace_record, length_app. simpl. lia. Qed.

#[global] Arguments Query.selectSnippets : simpl never.
#[global] Arguments Query.likeFails : simpl never.
#[global] Arguments Sql.chars : simpl never.
#[global] Arguments Sql.tooComplex : simpl never.
#[global] Arguments addNumber : simpl never.
#[global] Arguments Iso.before : simpl never.
#[global] Arguments Iso.timeClip : simpl never.
#[global] Arguments Query.selectSimilarError : simpl never.
#[global] Arguments Query.selectErrorSolutions : simpl never.
#[global] Arguments Query.selectCurrentContext : simpl never.
#[global] Arguments Query.updateError : simpl never.
#[global] Arguments Query.nextKey : simpl never.
#[global] Arguments Query.deleteSnippetsBefore : simpl never.
#[global] Arguments Query.deleteContextBefore : simpl never.
#[global] Arguments Sql.containing : simpl never.
#[global] Arguments Sql.like : simpl never.
#[global] Arguments Query.errorMatches : simpl never.
#[global] Arguments Query.snippetSelected : simpl never.
#[global] Arguments substring0 : simpl never.
#[global] Arguments trim : simpl never.
#[global] Arguments lit : simpl never.
#[global] Arguments Bullets.parse : simpl never.
#[global] Arguments Prompt.errorSolution : simpl never.
#[global] Arguments Prompt.suggestions : simpl never.
#[global] Arguments Prompt.system_solution : simpl never.
#[global] Arguments Prompt.system_suggestions : simpl never.
#[global] Arguments chat : simpl never.
#[global] Arguments Z.mul : simpl never.
#[global] Arguments Z.sub : simpl never.
#[global] Arguments Z.add : simpl never.

(** Unfolds the monad and steps through reliable storage calls. *)
Ltac run_storage H :=
  unfold mbind, M_bind, mret, M_ret, getDb, sql, storage, gets, modify, newDate,
    uuidv4, throw; simpl;
  rewrite ?H; simpl;
  rewrite ?length_app; simpl;
  rewrite <- ?Nat.add_assoc; simpl.

(** A query without a search term has no pattern, and the pattern of a term
    of at most 100 units is short enough. *)
Lemma likeFails_no_term (language : option jsstring) (limit : option nat)
    (rows : list CodeSnippet) :
  Query.likeFails {| SnippetQuery.language := language;
                     SnippetQuery.searchTerm := None;
                     SnippetQuery.limit := limit |} rows = false.
Proof. reflexivity. Qed.

Lemma likeFails_short (language : option jsstring) (limit : option nat) (n : nat)
    (x : jsstring) (rows : list CodeSnippet) :
  n <= 100 ->
  Query.likeFails {| SnippetQuery.language := language;
                     SnippetQuery.searchTerm := Some (take n x);
                     SnippetQuery.limit := limit |} rows = false.
Proof.
  intros Hn. unfold Query.likeFails. cbn [SnippetQuery.searchTerm].
  destruct (take n x) as [|c k] eqn:E; [reflexivity|].
  cbn [truthy orElse]. rewrite <- E, (containing_take_short n x Hn). reflexivity.
Qed.

Section StorageRuns.
Variable env : Env.
Hypothesis Hdb : reliable env.

Lemma getErrorSolutions_run (errorText language : jsstring) (w : World) :
  let pattern := Sql.containing (substring0 100 errorText) in
  getErrorSolutions env errorText language w
  = (Ok (Query.selectErrorSolutions language pattern (error_patterns w)),
     record (EvSql (SelectErrorSolutions language pattern)) (record EvGetDb w)).
Proof. unfold getErrorSolutions. run_storage Hdb. reflexivity. Qed.

Lemma getSnippets_outcome (options : SnippetQuery) (w : World) :
  getSnippets env options w
  = (if Query.likeFails options (snippets w)
     then Throw LikeError
     else Ok (Query.selectSnippets options (snippets w)),
     record (EvSql (SelectSnippets options)) (record EvGetDb w)).
Proof.
  unfold getSnippets. run_storage Hdb.
  destruct (Query.likeFails options (snippets w)); reflexivity.
Qed.

Lemma getSnippets_run (options : SnippetQuery) (w : World) :
  Query.likeFails options (snippets w) = false ->
  getSnippets env options w
  = (Ok (Query.selectSnippets options (snippets w)),
     record (EvSql (SelectSnippets options)) (record EvGetDb w)).
Proof. intros H. rewrite getSnippets_outcome, H. reflexivity. Qed.

Lemma getCurrentContext_run (w : World) :
  getCurrentContext env w
  = (Ok (Query.selectCurrentContext (developer_context w)),
     record (EvSql SelectCurrentContext) (record EvGetDb w)).
Proof. unfold getCurrentContext. run_storage Hdb. reflexivity. Qed.

Lemma updateDeveloperContext_run (context : ContextUpdate) (w : World) :
  let now := clock env (length (trace w) + 1) in
  let row :=
    {| DeveloperContext.currentApp :=
         orElse (ContextUpdate.currentApp context) (lit "unknown");
       DeveloperContext.activeFile := ContextUpdate.activeFile context;
       DeveloperContext.projectRoot := ContextUpdate.projectRoot context;
       DeveloperContext.lastActivity := now |} in
  let key := Query.nextKey (context_seq w) (developer_context w) in
  updateDeveloperContext env context w
  = (Ok tt,
     {| snippets := snippets w; error_patterns := error_patterns w;
        developer_context := developer_context w ++ [(key, row)];
        context_seq := key;
        trace := trace w ++ [EvGetDb; EvNow now; EvSql (InsertContext row)] |}).
Proof.
  unfold updateDeveloperContext. run_storage Hdb.
  unfold set_developer_context, record; simpl.
  rewrite <- !app_assoc. reflexivity.
Qed.

Lemma recordError_existing_run (error : NewError) (existing : ErrorPattern) (w : World) :
  let language := NewError.language error in
  let pattern := Sql.containing (substring0 50 (NewError.errorText error)) in
  let now := clock env (length (trace w) + 2) in
  let frequency := addNumber (ErrorPattern.frequency existing) 1 in
  Query.selectSimilarError language pattern (error_patterns w) = Some existing ->
  exists r,
    recordError env error w
    = (Ok r,
       {| snippets := snippets w;
          error_patterns :=
            Query.updateError frequency now (NewError.solution error)
              (ErrorPattern.id existing) (error_patterns w);
          developer_context := developer_context w;
          context_seq := context_seq w;
          trace := trace w
            ++ [EvGetDb; EvSql (SelectSimilarError language pattern); EvNow now;
                EvSql (UpdateError frequency now (NewError.solution error)
                         (ErrorPattern.id existing))] |}).
Proof.
  intros language pattern now frequency Hex.
  unfold recordError. run_storage Hdb.
  fold language pattern. rewrite Hex. run_storage Hdb.
  eexists. unfold set_error_patterns, record; simpl.
  rewrite <- !app_assoc. reflexivity.
Qed.

Lemma recordError_new_run (error : NewError) (w : World) :
  let language := NewError.language error in
  let pattern := Sql.containing (substring0 50 (NewError.errorText error)) in
  let id := uuid env (length (trace w) + 2) in
  let now := clock env (length (trace w) + 3) in
  let newError :=
    {| ErrorPattern.id := id;
       ErrorPattern.errorText := NewError.errorText error;
       ErrorPattern.solution := NewError.solution error;
       ErrorPattern.language := language;
       ErrorPattern.frequency := 1%Z;
       ErrorPattern.lastEncountered := now |} in
  Query.selectSimilarError language pattern (error_patterns w) = None ->
  (forall e, In e (error_patterns w) -> ErrorPattern.id e <> id) ->
  recordError env error w
  = (Ok newError,
     {| snippets := snippets w;
        error_patterns := error_patterns w ++ [newError];
        developer_context := developer_context w;
        context_seq := context_seq w;
        trace := trace w
          ++ [EvGetDb; EvSql (SelectSimilarError language pattern); EvUuid id;
              EvNow now; EvSql (InsertError newError)] |}).
Proof.
  intros language pattern id now newError Hnone Hfresh.
  unfold recordError. run_storage Hdb.
  fold language pattern. rewrite Hnone. unfold insertError. run_storage Hdb.
  fold id now newError.
  assert (Hex : existsb (fun r => Js.eqb (ErrorPattern.id r) id) (error_patterns w) = false).
  { apply not_true_is_false. intros H. apply existsb_exists in H.
    destruct H as (e & He & Hid). apply eqb_eq in Hid. now apply (Hfresh e). }
  rewrite Hex. unfold set_error_patterns, record; simpl.
  rewrite <- !app_assoc. reflexivity.
Qed.

End StorageRuns.

(** ** The cache of error patterns *)

Lemma selectSimilarError_Some (language pattern : jsstring) (rows : list ErrorPattern)
    (existing : ErrorPattern) :
  Query.selectSimilarError language pattern rows = Some existing ->
  In existing rows /\ Query.errorMatches language pattern existing = true.
Proof.
  unfold Query.selectSimilarError. intros H. apply filter_In.
  destruct (List.filter _ rows) as [|x l]; [discriminate|].
  injection H as ->. now left.
Qed.


Lemma selectErrorSolutions_length (language pattern : jsstring) (rows : list ErrorPattern) :
  length (Query.selectErrorSolutions language pattern rows) <= 5.
Proof.
  unfold Query.selectErrorSolutions, Sql.limit. rewrite length_take. lia.
Qed.

Lemma selectErrorSolutions_In (language pattern : jsstring) (rows : list ErrorPattern)
    (e : ErrorPattern) :
  In e (Query.selectErrorSolutions language pattern rows) ->
  In e rows /\ ErrorPattern.language e = language
  /\ Sql.like pattern (ErrorPattern.errorText e) = true.
Proof.
  unfold Query.selectErrorSolutions, Sql.limit. intros H.
  assert (H' : In e (List.filter (Query.errorMatches language pattern) rows)).
  { apply (orderByDesc_In ErrorPattern.frequency).
    rewrite <- (take_drop 5 (Sql.orderByDesc _ _)). apply in_or_app. now left. }
  apply filter_In in H'. destruct H' as [Hin Hm].
  unfold Query.errorMatches in Hm. apply andb_true_iff in Hm.
  destruct Hm as [Hl Hp]. apply eqb_eq in Hl. auto.
Qed.

Lemma selectErrorSolutions_complete (language pattern : jsstring)
    (rows : list ErrorPattern) (e : ErrorPattern) :
  In e rows -> Query.errorMatches language pattern e = true ->
  let found := Query.selectErrorSolutions language pattern rows in
  In e found
  \/ (length found = 5
      /\ forall x, In x found -> (ErrorPattern.frequency e <= ErrorPattern.frequency x)%Z).
Proof.
  intros Hin Hm found. unfold found, Query.selectErrorSolutions, Sql.limit.
  set (sorted := Sql.orderByDesc ErrorPattern.frequency
                   (List.filter (Query.errorMatches language pattern) rows)).
  assert (Hsorted : In e sorted) by (apply orderByDesc_In, filter_In; auto).
  rewrite <- (take_drop 5 sorted) in Hsorted.
  apply in_app_or in Hsorted. destruct Hsorted as [H5|Hrest]; [now left|right].
  split.
  - rewrite length_take.
    destruct sorted as [|x1 [|x2 [|x3 [|x4 [|x5 l]]]]]; simpl in *; tauto || lia.
  - intros x Hx.
    apply (take_sorted_bound ErrorPattern.frequency 5 sorted x e); auto.
    apply orderByDesc_sorted.
Qed.

(** C9. [getErrorSolutions] returns at most five patterns, in the order of
    descending frequency: patterns of the store, of the asked language, whose
    text matches the pattern of the look-up, the five most frequent of them.
    The pattern is made of the first 100 units of the error text and of
    nothing else of it: the statement sent holds those units between two
    percent signs, and every error text with the same first 100 units gets
    the same answer by the same statement. *)
Theorem getErrorSolutions_top5_by_frequency
    (env : Env) (errorText language : jsstring) (w : World) :
  reliable env ->
  let key := take 100 errorText in
  let pattern := Sql.percent :: key ++ [Sql.percent] in
  exists rows w',
    getErrorSolutions env errorText language w = (Ok rows, w')
    /\ length rows <= 5
    /\ StronglySorted (Sql.descending ErrorPattern.frequency) rows
    /\ length key <= 100
    /\ (forall e, In e rows ->
          In e (error_patterns w)
          /\ ErrorPattern.language e = language
          /\ Sql.like pattern (ErrorPattern.errorText e) = true)
    /\ (forall e, In e (error_patterns w) ->
          ErrorPattern.language e = language ->
          Sql.like pattern (ErrorPattern.errorText e) = true ->
          In e rows
          \/ (length rows = 5
              /\ forall x, In x rows ->
                   (ErrorPattern.frequency e <= ErrorPattern.frequency x)%Z))
    /\ trace w' = trace w ++ [EvGetDb; EvSql (SelectErrorSolutions language pattern)]
    /\ (forall errorText',
          take 100 errorText' = key ->
          getErrorSolutions env errorText' language w = (Ok rows, w')).
Proof.
  intros Hdb key pattern. eexists _, _.
  split; [apply (getErrorSolutions_run env Hdb)|].
  change (Sql.containing (substring0 100 errorText)) with pattern.
  split; [apply selectErrorSolutions_length|].
  split; [apply take_sorted, orderByDesc_sorted|].
  split; [unfold key; rewrite length_take; lia|].
  split; [apply selectErrorSolutions_In|].
  split.
  { intros e Hin Hlang Hlike. apply selectErrorSolutions_complete; [exact Hin|].
    unfold Query.errorMatches. rewrite Hlike, andb_true_r. now apply eqb_eq. }
  split; [simpl; rewrite <- app_assoc; reflexivity|].
  intros errorText' Heq. rewrite (getErrorSolutions_run env Hdb).
  unfold substring0. rewrite Heq. reflexivity.
Qed.

Lemma updateError_length (f t : Z) (s id : jsstring) (rows : list ErrorPattern) :
  length (Query.updateError f t s id rows) = length rows.
Proof. apply length_map. Qed.

Lemma updateError_hit (f t : Z) (s : jsstring) (rows : list ErrorPattern)
    (i : nat) (e : ErrorPattern) :
  nth_error rows i = Some e ->
  nth_error (Query.updateError f t s (ErrorPattern.id e) rows) i
  = Some {| ErrorPattern.id := ErrorPattern.id e;
            ErrorPattern.errorText := ErrorPattern.errorText e;
            ErrorPattern.solution := s;
            ErrorPattern.language := ErrorPattern.language e;
            ErrorPattern.frequency := f;
            ErrorPattern.lastEncountered := t |}.
Proof.
  intros H. unfold Query.updateError. rewrite nth_error_map, H. simpl.
  rewrite eqb_refl. reflexivity.
Qed.

Lemma updateError_miss (f t : Z) (s id : jsstring) (rows : list ErrorPattern)
    (j : nat) (e : ErrorPattern) :
  nth_error rows j = Some e -> ErrorPattern.id e <> id ->
  nth_error (Query.updateError f t s id rows) j = Some e.
Proof.
  intros H Hid. unfold Query.updateError. rewrite nth_error_map, H. simpl.
  destruct (Js.eqb (ErrorPattern.id e) id) eqn:E; [|reflexivity].
  apply eqb_eq in E. contradiction.
Qed.



(** A count that is a safe integer is incremented exactly; at 2^53 the sum
    is not a number the language has, and the count stays. *)
Lemma addNumber_safe (f : Z) :
  isSafeInteger f = true -> addNumber f 1 = (f + 1)%Z.
Proof.
  unfold isSafeInteger, addNumber, toNumber. intros H. apply Z.leb_le in H.
  destruct (Z.leb_spec (Z.abs (f + 1)) 9007199254740992); [reflexivity|lia].
Qed.

Lemma addNumber_stuck : addNumber 9007199254740992 1 = 9007199254740992%Z.
Proof. reflexivity. Qed.



(** ** The retention sweep *)

(** Among the years 0000 to 9999 the order of the texts is the order of the
    instants. *)
Lemma before_fourDigit (a b : Z) :
  Iso.fourDigitYear a = true -> Iso.fourDigitYear b = true ->
  Iso.before a b = (a <? b)%Z.
Proof.
  unfold Iso.fourDigitYear, Iso.before, Iso.rank.
  rewrite !andb_true_iff, !Z.leb_le, !Z.ltb_lt. intros [Ha1 Ha2] [Hb1 Hb2].
  destruct (Z.ltb_spec a Iso.year0); [lia|]. destruct (Z.ltb_spec b Iso.year0); [lia|].
  destruct (Z.ltb_spec a Iso.year10000); [|lia].
  destruct (Z.ltb_spec b Iso.year10000); [|lia]. reflexivity.
Qed.

(** No text of a four-digit year sorts before the text of an instant outside
    those years. *)
Lemma before_outside (a b : Z) :
  Iso.fourDigitYear a = true -> Iso.fourDigitYear b = false -> Iso.before a b = false.
Proof.
  unfold Iso.fourDigitYear, Iso.before, Iso.rank.
  rewrite andb_true_iff, andb_false_iff, !Z.leb_le, Z.ltb_lt, Z.leb_gt, Z.ltb_ge.
  intros [Ha1 Ha2] Hb.
  destruct (Z.ltb_spec a Iso.year0); [lia|].
  destruct (Z.ltb_spec a Iso.year10000); [|lia].
  destruct (Z.ltb_spec b Iso.year0); [reflexivity|].
  destruct (Z.ltb_spec b Iso.year10000); [|reflexivity].
  unfold Iso.year0, Iso.year10000 in *. lia.
Qed.



(** What [cleanupOldData] does with a reliable storage engine. *)
Lemma cleanupOldData_run (env : Env) (daysToKeep : option Z) (w : World) :
  reliable env ->
  let now := clock env (length (trace w) + 1) in
  let reading := (localTime env now - default 30%Z daysToKeep * millisecondsPerDay)%Z in
  cleanupOldData env daysToKeep w
  = match Iso.timeClip (utcTime env reading) with
    | None =>
        (Throw RangeError,
         {| snippets := snippets w; error_patterns := error_patterns w;
            developer_context := developer_context w; context_seq := context_seq w;
            trace := trace w ++ [EvGetDb; EvNow now] |})
    | Some cutoffDate =>
        (Ok tt,
         {| snippets := Query.deleteSnippetsBefore cutoffDate (snippets w);
            error_patterns := error_patterns w;
            developer_context :=
              Query.deleteContextBefore cutoffDate (developer_context w);
            context_seq := context_seq w;
            trace := trace w
              ++ [EvGetDb; EvNow now; EvSql (DeleteSnippetsBefore cutoffDate);
                  EvSql (DeleteContextBefore cutoffDate)] |})
    end.
Proof.
  intros Hdb now reading. unfold cleanupOldData. run_storage Hdb.
  fold now reading. destruct (Iso.timeClip (utcTime env reading)) as [cutoffDate|].
  - run_storage Hdb. unfold set_developer_context, set_snippets, record; simpl.
    rewrite <- !app_assoc. reflexivity.
  - unfold record; simpl. rewrite <- !app_assoc. reflexivity.
Qed.

(** On a host of one offset the cut-off is the instant of the call less the
    days to keep. *)
Lemma cutoff_fixedOffset (env : Env) (now days : Z) :
  fixedOffset env ->
  utcTime env (localTime env now - days * millisecondsPerDay)
  = (now - days * millisecondsPerDay)%Z.
Proof.
  intros [k Hk]. destruct (Hk now) as [-> _].
  destruct (Hk (now + k - days * millisecondsPerDay)%Z) as [_ ->]. lia.
Qed.

Lemma deleteSnippetsBefore_fourDigit (cutoff : Z) (rows : list CodeSnippet) :
  Iso.fourDigitYear cutoff = true ->
  (forall s, In s rows -> Iso.fourDigitYear (CodeSnippet.timestamp s) = true) ->
  Query.deleteSnippetsBefore cutoff rows
  = List.filter (fun s => (cutoff <=? CodeSnippet.timestamp s)%Z) rows.
Proof.
  intros Hc Hrows. unfold Query.deleteSnippetsBefore. apply filter_ext_in.
  intros s Hs. rewrite (before_fourDigit _ _ (Hrows s Hs) Hc).
  rewrite Z.ltb_antisym, negb_involutive. reflexivity.
Qed.

Lemma deleteContextBefore_fourDigit (cutoff : Z) (rows : list (N * DeveloperContext)) :
  Iso.fourDigitYear cutoff = true ->
  (forall r, In r rows -> Iso.fourDigitYear (DeveloperContext.lastActivity (snd r)) = true) ->
  Query.deleteContextBefore cutoff rows
  = List.filter (fun r => (cutoff <=? DeveloperContext.lastActivity (snd r))%Z) rows.
Proof.
  intros Hc Hrows. unfold Query.deleteContextBefore. apply filter_ext_in.
  intros r Hr. rewrite (before_fourDigit _ _ (Hrows r Hr) Hc).
  rewrite Z.ltb_antisym, negb_involutive. reflexivity.
Qed.


(** ** The context updater *)

(** It appends one row, stamped with the instant it reads from the clock; an
    absent (or empty) application name is recorded as ["unknown"]. *)
Lemma updateDeveloperContext_appends (env : Env) (context : ContextUpdate) (w : World) :
  reliable env ->
  exists w' key,
    updateDeveloperContext env context w = (Ok tt, w')
    /\ developer_context w'
       = developer_context w
         ++ [(key,
              {| DeveloperContext.currentApp :=
                   orElse (ContextUpdate.currentApp context) (lit "unknown");
                 DeveloperContext.activeFile := ContextUpdate.activeFile context;
                 DeveloperContext.projectRoot := ContextUpdate.projectRoot context;
                 DeveloperContext.lastActivity := clock env (length (trace w) + 1) |})]
    /\ (forall r, In r (developer_context w) -> fst r <> key).
Proof.
  intros Hdb. eexists _, _. split; [apply (updateDeveloperContext_run env Hdb)|].
  split; [reflexivity|].
  intros r Hr. unfold Query.nextKey.
  assert (H : forall l seq, In r l -> (fst r <= fold_right N.max seq (List.map fst l))%N).
  { induction l as [|x l IH]; simpl; [tauto|]. intros seq [->|Hin]; [lia|].
    specialize (IH seq Hin). lia. }
  specialize (H _ (context_seq w) Hr). lia.
Qed.

Lemma updateDeveloperContext_absent_app (env : Env) (w : World)
    (activeFile projectRoot : option jsstring) (lastActivity : option Z) :
  reliable env ->
  exists w' key row,
    updateDeveloperContext env
      {| ContextUpdate.currentApp := None;
         ContextUpdate.activeFile := activeFile;
         ContextUpdate.projectRoot := projectRoot;
         ContextUpdate.lastActivity := lastActivity |} w = (Ok tt, w')
    /\ developer_context w' = developer_context w ++ [(key, row)]
    /\ DeveloperContext.currentApp row = lit "unknown".
Proof.
  intros Hdb. eexists _, _, _. split; [apply (updateDeveloperContext_run env Hdb)|].
  split; reflexivity.
Qed.

(** A failure of the storage engine in the updater reaches the caller. *)
Lemma updateDeveloperContext_propagates (env : Env) (context : ContextUpdate) (w : World) :
  db_fault env (length (trace w)) = true
  \/ db_fault env (length (trace w) + 2) = true ->
  exists w',
    updateDeveloperContext env context w = (Throw StorageError, w')
    /\ developer_context w' = developer_context w.
Proof.
  intros H. unfold updateDeveloperContext.
  unfold mbind, M_bind, mret, M_ret, getDb, sql, storage, gets, modify, newDate. simpl.
  destruct (db_fault env (length (trace w))) eqn:E0; simpl; [eauto|].
  destruct H as [H|H]; [discriminate|].
  rewrite !length_app. simpl. rewrite <- Nat.add_assoc. simpl. rewrite H. simpl. eauto.
Qed.

(** The pipeline runs the updater to its end before any analysis starts: when
    the updater throws, the pipeline throws and has done nothing else. *)
Lemma processCodeContent_updater_first (env : Env) (this : AIHelper)
    (content : jsstring) (context : CodeContext) (w : World) (e : exn) (w1 : World) :
  let update :=
    {| ContextUpdate.currentApp := Some (ctx_sourceApp context);
       ContextUpdate.activeFile := ctx_filePath context;
       ContextUpdate.projectRoot := None;
       ContextUpdate.lastActivity := Some (clock env (length (trace w))) |} in
  updateDeveloperContext env update (record (EvNow (clock env (length (trace w)))) w)
  = (Throw e, w1) ->
  processCodeContent env this content context w = (Throw e, w1).
Proof.
  intros update H. unfold processCodeContent.
  unfold mbind at 1, M_bind at 1. unfold newDate at 1.
  unfold mbind at 1, M_bind at 1. fold update. rewrite H. reflexivity.
Qed.

(** ** The error detector *)

(** One call of [generateErrorSolution] is one call of the completion API; a
    failure of the call is logged and swallowed. *)
Lemma generateErrorSolution_run (env : Env) (this : AIHelper)
    (error : jsstring) (language : option jsstring) (w : World) :
  let request := chat this Prompt.system_solution (Prompt.errorSolution error language) 200 in
  let answer := completion env (length (trace w)) request in
  generateErrorSolution env this error language w
  = (Ok (match answer with
         | ApiReplies (Some c) => match trim c with [] => None | t => Some t end
         | _ => None
         end),
     {| snippets := snippets w; error_patterns := error_patterns w;
        developer_context := developer_context w; context_seq := context_seq w;
        trace := trace w ++ EvCompletion request
                   :: match answer with ApiThrows => [EvConsoleError] | _ => [] end |}).
Proof.
  intros request answer. unfold generateErrorSolution, try_catch, createCompletion.
  unfold mbind, M_bind, mret, M_ret, consoleError, modify. fold request answer.
  destruct answer as [|[c|]]; unfold record; simpl; rewrite <- ?app_assoc; reflexivity.
Qed.

#[global] Arguments generateErrorSolution : simpl never.
#[global] Arguments recordError : simpl never.
#[global] Arguments getErrorSolutions : simpl never.
#[global] Arguments getSnippets : simpl never.
#[global] Arguments getCurrentContext : simpl never.

Lemma Some_trim_nonempty (c : jsstring) :
  trim c <> [] -> match trim c with [] => None | t => Some t end = Some (trim c).
Proof. destruct (trim c); [intros H; now elim H | reflexivity]. Qed.

(** C1, as the code has it.  For a candidate with no cached solution (the
    cache is asked first when a language is given, by the first 100 units of
    the error text, and not at all otherwise) the completion API is called
    exactly once.  When it answers with a text that is not empty after
    trimming, exactly one pair is emitted; without a language nothing is
    persisted; with a language [recordError] runs once.  It creates one
    pattern of frequency 1 when its look-up, by the first 50 units of the
    error text, finds no pattern of the language; otherwise no pattern is
    added, and the first pattern found has its frequency incremented (exactly,
    for a count that is a safe integer), its solution replaced and its stamp
    set, while the patterns of another id stay as they were. *)
Theorem detectCandidate_cache_miss (env : Env) (this : AIHelper) (w : World)
    (language : option jsstring) (errorText : jsstring) (foundErrors : list FoundError) :
  reliable env ->
  let lang := orElse language [] in
  let lookupPattern := Sql.percent :: take 100 errorText ++ [Sql.percent] in
  let dedupPattern := Sql.percent :: take 50 errorText ++ [Sql.percent] in
  (truthy language = true ->
   Query.selectErrorSolutions lang lookupPattern (error_patterns w) = []) ->
  (forall e, In e (error_patterns w) ->
     ErrorPattern.id e <> uuid env (length (trace w) + 5)) ->
  let lookup :=
    if truthy language
    then [EvGetDb; EvSql (SelectErrorSolutions lang lookupPattern)]
    else [] in
  let request :=
    chat this Prompt.system_solution (Prompt.errorSolution errorText language) 200 in
  let answer := completion env (length (trace w) + length lookup) request in
  exists found' w' rest,
    detectCandidate env this language errorText foundErrors w = (Ok found', w')
    /\ trace w' = trace w ++ lookup ++ [EvCompletion request] ++ rest
    /\ (forall r, ~ In (EvCompletion r) rest)
    /\ (forall c, answer = ApiReplies (Some c) -> trim c <> [] ->
          found' = foundErrors ++ [ {| error := errorText; found_solution := trim c |} ]
          /\ (truthy language = false -> error_patterns w' = error_patterns w)
          /\ (truthy language = true ->
              match Query.selectSimilarError lang dedupPattern (error_patterns w) with
              | None =>
                  error_patterns w'
                  = error_patterns w
                    ++ [ {| ErrorPattern.id := uuid env (length (trace w) + 5);
                            ErrorPattern.errorText := errorText;
                            ErrorPattern.solution := trim c;
                            ErrorPattern.language := lang;
                            ErrorPattern.frequency := 1%Z;
                            ErrorPattern.lastEncountered :=
                              clock env (length (trace w) + 6) |} ]
              | Some existing =>
                  length (error_patterns w') = length (error_patterns w)
                  /\ (exists i,
                        nth_error (error_patterns w) i = Some existing
                        /\ nth_error (error_patterns w') i
                           = Some {| ErrorPattern.id := ErrorPattern.id existing;
                                     ErrorPattern.errorText :=
                                       ErrorPattern.errorText existing;
                                     ErrorPattern.solution := trim c;
                                     ErrorPattern.language :=
                                       ErrorPattern.language existing;
                                     ErrorPattern.frequency :=
                                       addNumber (ErrorPattern.frequency existing) 1;
                                     ErrorPattern.lastEncountered :=
                                       clock env (length (trace w) + 5) |})
                  /\ (forall j e, nth_error (error_patterns w) j = Some e ->
                        ErrorPattern.id e <> ErrorPattern.id existing ->
                        nth_error (error_patterns w') j = Some e)
                  /\ (isSafeInteger (ErrorPattern.frequency existing) = true ->
                      addNumber (ErrorPattern.frequency existing) 1
                      = (ErrorPattern.frequency existing + 1)%Z)
              end)).
Proof.
  intros Hdb lang lookupPattern dedupPattern Hmiss Hfresh lookup request answer.
  change lookupPattern with (Sql.containing (substring0 100 errorText)) in *.
  change dedupPattern with (Sql.containing (substring0 50 errorText)) in *.
  unfold detectCandidate. fold lang.
  destruct (truthy language) eqn:Hlang.
  - (* a language is given: the cache is asked, and it has nothing *)
    unfold mbind at 1, M_bind at 1.
    rewrite (getErrorSolutions_run env Hdb), (Hmiss eq_refl).
    change (0 <? length (@nil ErrorPattern)) with false. cbv iota.
    unfold mbind at 1, M_bind at 1. rewrite generateErrorSolution_run.
    cbv zeta. fold request.
    replace (length (trace (record (EvSql (SelectErrorSolutions lang
               (Sql.containing (substring0 100 errorText)))) (record EvGetDb w))))
      with (length (trace w) + length lookup)
      by (simpl; rewrite !length_app; simpl; lia).
    fold answer.
    set (w1 := record _ (record EvGetDb w)).
    destruct answer as [|[c|]] eqn:Hans.
    + eexists _, _, [EvConsoleError]. split; [reflexivity|].
      split; [simpl; rewrite <- !app_assoc; reflexivity|].
      split; [intros r [H|[]]; discriminate|]. intros c H; discriminate.
    + destruct (trim c) as [|t0 ts] eqn:Htrim.
      * eexists _, _, []. split; [reflexivity|].
        split; [simpl; rewrite <- !app_assoc; reflexivity|].
        split; [intros r []|]. intros c' [= <-] Hc. now rewrite Htrim in Hc.
      * rewrite <- Htrim.
        assert (Hne : trim c <> []) by (rewrite Htrim; discriminate).
        clear Htrim t0 ts.
        set (w2 := {| snippets := snippets w1 |}).
        assert (Hlen : length (trace w2) = length (trace w) + 3)
          by (simpl; rewrite !length_app; simpl; lia).
        set (error := {| NewError.errorText := errorText |}).
        unfold mbind, M_bind.
        destruct (Query.selectSimilarError lang (Sql.containing (substring0 50 errorText))
                    (error_patterns w)) as [existing|] eqn:Hsim.
        -- destruct (recordError_existing_run env Hdb error existing w2 Hsim) as [r Hrun].
           rewrite Hrun, !Hlen, <- !Nat.add_assoc. eexists _, _, _. split; [reflexivity|].
           split; [simpl; rewrite <- !app_assoc; reflexivity|].
           split; [intros r' [H|[H|[H|[H|[]]]]]; discriminate|].
           intros c' [= <-] _. split; [reflexivity|]. split; [discriminate|].
           intros _. cbn [error_patterns NewError.solution error].
           destruct (selectSimilarError_Some _ _ _ _ Hsim) as [Hin _].
           destruct (In_nth_error _ _ Hin) as [i Hi].
           split; [apply updateError_length|].
           split; [exists i; split; [exact Hi|now apply updateError_hit]|].
           split; [intros j e Hj Hid; now apply updateError_miss|].
           apply addNumber_safe.
        -- rewrite (recordError_new_run env Hdb error w2 Hsim)
             by (rewrite Hlen, <- Nat.add_assoc; exact Hfresh).
           rewrite !Hlen, <- !Nat.add_assoc.
           eexists _, _, _. split; [reflexivity|].
           split; [simpl; rewrite <- !app_assoc; reflexivity|].
           split; [intros r' [H|[H|[H|[H|[H|[]]]]]]; discriminate|].
           intros c' [= <-] _. split; [reflexivity|]. split; [discriminate|].
           intros _. reflexivity.
    + eexists _, _, []. split; [reflexivity|].
      split; [simpl; rewrite <- !app_assoc; reflexivity|].
      split; [intros r []|]. intros c H; discriminate.
  - (* no language: no look-up, and nothing is persisted *)
    unfold mbind at 1, M_bind at 1. unfold mret at 1, M_ret at 1.
    change (0 <? length (@nil ErrorPattern)) with false. cbv iota.
    unfold mbind at 1, M_bind at 1. rewrite generateErrorSolution_run.
    cbv zeta. fold request.
    assert (Ha : completion env (length (trace w)) request = answer)
      by (unfold answer; simpl; rewrite Nat.add_0_r; reflexivity).
    rewrite !Ha.
    destruct answer as [|[c|]] eqn:Hans.
    + eexists _, _, [EvConsoleError]. split; [reflexivity|].
      split; [reflexivity|].
      split; [intros r [H|[]]; discriminate|]. intros c H; discriminate.
    + destruct (trim c) as [|t0 ts] eqn:Htrim.
      * eexists _, _, []. split; [reflexivity|]. split; [reflexivity|].
        split; [intros r []|]. intros c' [= <-] Hc. now rewrite Htrim in Hc.
      * rewrite <- Htrim. eexists _, _, []. split; [reflexivity|].
        split; [reflexivity|]. split; [intros r []|].
        intros c' [= <-] _. split; [reflexivity|]. split; [reflexivity|discriminate].
    + eexists _, _, []. split; [reflexivity|]. split; [reflexivity|].
      split; [intros r []|]. intros c H; discriminate.
Qed.

(** ** The suggestion generator *)

Lemma parse_length (content : jsstring) : length (Bullets.parse content) <= 3.
Proof. unfold Bullets.parse. rewrite length_take. lia. Qed.

Lemma isBulletLine_cons (l : jsstring) :
  Bullets.isBulletLine l = true ->
  exists rest, (l = hyphen :: rest \/ l = bullet :: rest)
               /\ Bullets.stripMarker l = dropWhile isWhiteSpace rest.
Proof.
  destruct l as [|c rest]; [discriminate|].
  unfold Bullets.isBulletLine, Bullets.stripMarker. simpl.
  intros H. exists rest. rewrite H. split; [|reflexivity].
  apply orb_true_iff in H. destruct H as [H|H]; apply N.eqb_eq in H; subst; auto.
Qed.

Lemma isBulletLine_not_space (c : N) (s : jsstring) :
  Bullets.isBulletLine (c :: s) = true -> isWhiteSpace c = false.
Proof.
  unfold Bullets.isBulletLine. simpl. intros H.
  apply orb_true_iff in H. destruct H as [H|H]; apply N.eqb_eq in H; subst; reflexivity.
Qed.

(** Trimming what follows the marker and its white space neither adds nor
    removes a marker at the start. *)
Lemma isBulletLine_trim_dropWhile (s : jsstring) :
  Bullets.isBulletLine (trim (dropWhile isWhiteSpace s))
  = Bullets.isBulletLine (dropWhile isWhiteSpace s).
Proof.
  destruct (dropWhile isWhiteSpace s) as [|c r] eqn:E; [reflexivity|].
  apply dropWhile_head in E. destruct (trim_cons c r E) as [r' ->]. reflexivity.
Qed.

(** What [generateSuggestions] does, whatever the collaborators do. *)
Lemma generateSuggestions_run (env : Env) (this : AIHelper)
    (code : jsstring) (filePath language : option jsstring) (w : World) :
  let query := {| SnippetQuery.language := language;
                  SnippetQuery.searchTerm := None;
                  SnippetQuery.limit := Some 3 |} in
  generateSuggestions env this code filePath language w
  = match getCurrentContext env w with
    | (Throw _, w1) => (Ok [], record EvConsoleError w1)
    | (Ok _, w1) =>
        match getSnippets env query w1 with
        | (Throw _, w2) => (Ok [], record EvConsoleError w2)
        | (Ok snippets, w2) =>
            let request :=
              chat this Prompt.system_suggestions
                (Prompt.suggestions code filePath language snippets) 300 in
            match completion env (length (trace w2)) request with
            | ApiThrows =>
                (Ok [], record EvConsoleError (record (EvCompletion request) w2))
            | ApiReplies (Some content) =>
                (Ok (Bullets.parse content), record (EvCompletion request) w2)
            | ApiReplies None => (Ok [], record (EvCompletion request) w2)
            end
        end
    end.
Proof.
  intros query. unfold generateSuggestions, try_catch. fold query.
  unfold mbind, M_bind, consoleError, modify, mret, M_ret, createCompletion.
  destruct (getCurrentContext env w) as [[c|e] w1]; [|reflexivity].
  destruct (getSnippets env query w1) as [[sn|e] w2]; [|reflexivity].
  cbv zeta. destruct (completion env (length (trace w2)) _) as [|[[|c0 s0]|]]; reflexivity.
Qed.

(** C7. [generateSuggestions] never throws, and its result is the empty list
    whenever the retrieval of the developer context fails, the retrieval of
    the snippets fails, or the call of the completion API fails. *)
Theorem generateSuggestions_swallows_failures (env : Env) (this : AIHelper)
    (code : jsstring) (filePath language : option jsstring) (w : World) :
  let query := {| SnippetQuery.language := language;
                  SnippetQuery.searchTerm := None;
                  SnippetQuery.limit := Some 3 |} in
  exists out w',
    generateSuggestions env this code filePath language w = (Ok out, w')
    /\ (forall e w1, getCurrentContext env w = (Throw e, w1) -> out = [])
    /\ (forall c w1 e w2,
          getCurrentContext env w = (Ok c, w1) ->
          getSnippets env query w1 = (Throw e, w2) -> out = [])
    /\ (forall c w1 snippets w2,
          getCurrentContext env w = (Ok c, w1) ->
          getSnippets env query w1 = (Ok snippets, w2) ->
          completion env (length (trace w2))
            (chat this Prompt.system_suggestions
               (Prompt.suggestions code filePath language snippets) 300) = ApiThrows ->
          out = []).
Proof.
  intros query. rewrite generateSuggestions_run. fold query.
  destruct (getCurrentContext env w) as [[c|e] w1] eqn:Hctx.
  - destruct (getSnippets env query w1) as [[sn|e] w2] eqn:Hsn.
    + cbv zeta.
      destruct (completion env (length (trace w2)) _) as [|[content|]] eqn:Hans;
        eexists _, _; (split; [reflexivity|]); (split; [intros ? ? [=]|]);
        (split; [intros ? ? ? ? [= <- <-] H; rewrite Hsn in H; discriminate|]);
        intros ? ? ? ? [= <- <-] H; rewrite Hsn in H; injection H as <- <-;
        intros Hthrow; try reflexivity; rewrite Hans in Hthrow; discriminate.
    + eexists _, _. split; [reflexivity|]. split; [intros ? ? [=]|].
      split; reflexivity.
  - eexists _, _. split; [reflexivity|]. split; [reflexivity|].
    split; intros ? ? ? ? [=].
Qed.

(** C3, as the code has it.  When the completion API answers with a text, the
    output is the first three lines of the text that begin with a marker,
    each without that one marker, the white space after it and the white
    space at its end.  An entry begins with a marker exactly when its line
    went on with another marker after the first one and its white space. *)
Theorem generateSuggestions_parses_bullets (env : Env) (this : AIHelper)
    (code : jsstring) (filePath language : option jsstring) (w : World)
    (content : jsstring) :
  reliable env ->
  let recent :=
    Query.selectSnippets {| SnippetQuery.language := language;
                            SnippetQuery.searchTerm := None;
                            SnippetQuery.limit := Some 3 |} (snippets w) in
  let request :=
    chat this Prompt.system_suggestions
      (Prompt.suggestions code filePath language recent) 300 in
  completion env (length (trace w) + 4) request = ApiReplies (Some content) ->
  let bulletLines := List.filter Bullets.isBulletLine (split_nl content) in
  exists out w',
    generateSuggestions env this code filePath language w = (Ok out, w')
    /\ length out <= 3
    /\ out = take 3 (List.map (fun l => trim (Bullets.stripMarker l)) bulletLines)
    /\ (forall i entry, nth_error out i = Some entry ->
          exists rest,
            (nth_error bulletLines i = Some (hyphen :: rest)
             \/ nth_error bulletLines i = Some (bullet :: rest))
            /\ entry = trim (dropWhile isWhiteSpace rest)
            /\ Bullets.isBulletLine entry
               = Bullets.isBulletLine (dropWhile isWhiteSpace rest)).
Proof.
  intros Hdb recent request Hans bulletLines.
  rewrite generateSuggestions_run, (getCurrentContext_run env Hdb),
    (getSnippets_run env Hdb _ _ (likeFails_no_term _ _ _)).
  cbv zeta. simpl snippets.
  replace (length (trace _)) with (length (trace w) + 4)
    by (simpl; rewrite !length_app; simpl; lia).
  fold recent request. rewrite Hans.
  eexists _, _. split; [reflexivity|].
  split; [apply parse_length|]. split; [reflexivity|].
  intros i entry Hi. unfold Bullets.parse in Hi. fold bulletLines in Hi.
  assert (Hi' : nth_error (List.map (fun l => trim (Bullets.stripMarker l)) bulletLines) i
                = Some entry).
  { rewrite <- (take_drop 3 (List.map _ bulletLines)).
    rewrite nth_error_app1; [exact Hi|]. apply nth_error_Some. congruence. }
  rewrite nth_error_map in Hi'.
  destruct (nth_error bulletLines i) as [line|] eqn:Hline; [|discriminate].
  injection Hi' as <-.
  assert (Hb : Bullets.isBulletLine line = true).
  { apply nth_error_In in Hline. unfold bulletLines in Hline.
    now apply filter_In in Hline. }
  destruct (isBulletLine_cons line Hb) as (rest & Hshape & ->).
  exists rest. split; [destruct Hshape as [->| ->]; auto|].
  split; [reflexivity|]. apply isBulletLine_trim_dropWhile.
Qed.

(** ** The snippet matcher *)

Lemma selectSnippets_In (o : SnippetQuery) (rows : list CodeSnippet) (s : CodeSnippet) :
  In s (Query.selectSnippets o rows) ->
  In s rows /\ Query.snippetSelected o s = true.
Proof.
  unfold Query.selectSnippets, Sql.limit. intros H. apply filter_In.
  apply (orderByDesc_In CodeSnippet.timestamp).
  destruct (SnippetQuery.limit o) as [[|n]|]; try exact H.
  rewrite <- (take_drop (S n) (Sql.orderByDesc _ _)). apply in_or_app. now left.
Qed.

Lemma selectSnippets_limit (o : SnippetQuery) (rows : list CodeSnippet) (n : nat) :
  SnippetQuery.limit o = Some (S n) ->
  length (Query.selectSnippets o rows) <= S n.
Proof.
  intros H. unfold Query.selectSnippets, Sql.limit. rewrite H, length_take. lia.
Qed.

(** The mock similarity cannot fail: every snippet gets a score. *)
Lemma scoreSnippets_run (env : Env) (embedding : list Q) (allSnippets : list CodeSnippet)
    (w : World) :
  exists scored w',
    scoreSnippets env embedding allSnippets w = (Ok scored, w')
    /\ List.map fst scored = allSnippets.
Proof.
  revert w. induction allSnippets as [|s l IH]; intros w.
  - eexists _, _. split; reflexivity.
  - simpl. unfold mbind, M_bind, calculateSimilarity.
    destruct (IH (record (EvRandom (random env (length (trace w)))) w))
      as (scored & w' & Hrun & Hmap).
    rewrite Hrun. eexists _, _. split; [reflexivity|]. simpl. now rewrite Hmap.
Qed.

(** The first query of the matcher decides when it finds something. *)
Lemma findRelevantSnippets_exact_run (env : Env) (code : jsstring)
    (language : option jsstring) (w : World) :
  reliable env ->
  trim code <> [] ->
  let query := {| SnippetQuery.language := language;
                  SnippetQuery.searchTerm := Some (substring0 50 (trim code));
                  SnippetQuery.limit := Some 2 |} in
  Query.selectSnippets query (snippets w) <> [] ->
  findRelevantSnippets env code language w
  = (Ok (Some (Query.selectSnippets query (snippets w))),
     record (EvSql (SelectSnippets query)) (record EvGetDb w)).
Proof.
  intros Hdb Hcode. unfold findRelevantSnippets.
  destruct (trim code) as [|c0 t0] eqn:Htrim; [contradiction|]. rewrite <- Htrim.
  set (query := {| SnippetQuery.searchTerm := Some _ |}).
  set (exactMatches := Query.selectSnippets query (snippets w)).
  intros Hfound.
  unfold try_catch, mbind, M_bind.
  rewrite (getSnippets_run env Hdb query w (likeFails_short _ _ 50 _ _ ltac:(lia))).
  fold query exactMatches.
  assert (Hpos : (0 <? length exactMatches) = true)
    by (destruct exactMatches; [contradiction|reflexivity]).
  rewrite Hpos. reflexivity.
Qed.

(** The rows of a query with a limit are at most as many, whatever the
    storage engine does. *)
Lemma getSnippets_limit (env : Env) (o : SnippetQuery) (n : nat) (w w1 : World)
    (rows : list CodeSnippet) :
  SnippetQuery.limit o = Some (S n) ->
  getSnippets env o w = (Ok rows, w1) -> length rows <= S n.
Proof.
  intros Hlimit. unfold getSnippets, mbind, M_bind, getDb, sql, storage, gets, throw,
    mret, M_ret.
  destruct (db_fault env (length (trace w))); [discriminate|].
  destruct (db_fault env _); [discriminate|].
  destruct (Query.likeFails o _); [discriminate|].
  intros [= <- _]. now apply selectSnippets_limit.
Qed.

(** C4. [findRelevantSnippets] never throws and returns at most two snippets.
    When its first query (the language, the first 50 units of the trimmed
    input as the search term, at most two rows) finds a snippet, the rows it
    found are the result, and nothing else was done: no embedding, no second
    query, no similarity score.  The rows are snippets of the store, of the
    asked language, whose content or serialized tags match the pattern made
    of those 50 units. *)
Theorem findRelevantSnippets_exact_first (env : Env) (this : AIHelper)
    (code : jsstring) (language : option jsstring) (w : World) :
  (exists r w',
     findRelevantSnippets env code language w = (Ok r, w')
     /\ length (default [] r) <= 2)
  /\
  (reliable env ->
   trim code <> [] ->
   let term := take 50 (trim code) in
   let pattern := Sql.percent :: term ++ [Sql.percent] in
   let query := {| SnippetQuery.language := language;
                   SnippetQuery.searchTerm := Some term;
                   SnippetQuery.limit := Some 2 |} in
   let exactMatches := Query.selectSnippets query (snippets w) in
   exactMatches <> [] ->
   exists w',
     findRelevantSnippets env code language w = (Ok (Some exactMatches), w')
     /\ trace w' = trace w ++ [EvGetDb; EvSql (SelectSnippets query)]
     /\ snippets w' = snippets w
     /\ length term <= 50
     /\ (forall s, In s exactMatches ->
           In s (snippets w)
           /\ (truthy language = true -> CodeSnippet.language s = orElse language [])
           /\ (Sql.like pattern (CodeSnippet.content s) = true
               \/ Sql.like pattern (Json.stringify (CodeSnippet.tags s)) = true))).
Proof.
  split.
  - unfold findRelevantSnippets.
    destruct (trim code) as [|c0 t0]; [eexists _, _; split; [reflexivity|simpl; lia]|].
    set (query := {| SnippetQuery.searchTerm := Some _ |}).
    unfold try_catch, mbind, M_bind, consoleError, modify, mret, M_ret,
      generateEmbedding.
    destruct (getSnippets env query w) as [[exact|e] w1] eqn:Hexact;
      [|eexists _, _; split; [reflexivity|simpl; lia]].
    destruct (0 <? length exact) eqn:Hlen.
    + eexists _, _. split; [reflexivity|]. simpl.
      now apply (getSnippets_limit env query 1 w w1).
    + unfold mbind, M_bind, modify, mret, M_ret. cbv beta iota zeta.
      destruct (getSnippets env _ (record EvEmbedding w1)) as [[allSnippets|e] w2];
        [|eexists _, _; split; [reflexivity|simpl; lia]].
      destruct (scoreSnippets_run env [] allSnippets w2) as (scored & w3 & Hrun & _).
      rewrite Hrun. eexists _, _. split; [reflexivity|]. simpl.
      rewrite length_map, length_take. lia.
  - intros Hdb Hcode term pattern query exactMatches Hfound.
    assert (Hterm : term <> []).
    { unfold term. destruct (trim code); [contradiction|discriminate]. }
    rewrite (findRelevantSnippets_exact_run env code language w Hdb Hcode Hfound).
    fold query exactMatches. eexists. split; [reflexivity|].
    split; [simpl; rewrite <- app_assoc; reflexivity|].
    split; [reflexivity|].
    split; [unfold term; rewrite length_take; lia|].
    intros s Hs. apply selectSnippets_In in Hs. destruct Hs as [Hin Hsel].
    split; [exact Hin|].
    unfold Query.snippetSelected in Hsel.
    cbn [SnippetQuery.language SnippetQuery.searchTerm query] in Hsel.
    apply andb_true_iff in Hsel. destruct Hsel as [Hlang Hlike]. split.
    + intros Htruthy. rewrite Htruthy in Hlang. now apply eqb_eq in Hlang.
    + destruct term as [|c0 t0] eqn:E; [contradiction|].
      cbn [truthy orElse] in Hlike. cbv zeta in Hlike.
      apply orb_true_iff in Hlike. exact Hlike.
Qed.

(** ** Search terms and tags *)



















(** ** The pipeline *)

(** None of the four signatures matches the empty text. *)
Lemma detectErrors_empty (env : Env) (this : AIHelper) (language : option jsstring)
    (w : World) :
  detectErrors env this [] language w = (Ok None, w).
Proof. reflexivity. Qed.

Lemma findRelevantSnippets_empty (env : Env) (language : option jsstring) (w : World) :
  findRelevantSnippets env [] language w = (Ok None, w).
Proof. reflexivity. Qed.

(** C5, as the code has it.  On the empty text the pipeline does not throw,
    reports no error and no snippet, and returns as suggestions what the
    bullet parser makes of the answer of the completion API: the empty list
    when the API fails or has no content, and the marked lines of the answer
    otherwise. *)
Theorem processCodeContent_empty_input (env : Env) (this : AIHelper)
    (context : CodeContext) (w : World) :
  reliable env ->
  let recent :=
    Query.selectSnippets {| SnippetQuery.language := ctx_language context;
                            SnippetQuery.searchTerm := None;
                            SnippetQuery.limit := Some 3 |} (snippets w) in
  let request :=
    chat this Prompt.system_suggestions
      (Prompt.suggestions [] (ctx_filePath context) (ctx_language context) recent) 300 in
  exists w',
    processCodeContent env this [] context w
    = (Ok {| suggestions :=
               match completion env (length (trace w) + 8) request with
               | ApiReplies (Some content) => Bullets.parse content
               | _ => []
               end;
             errors := None;
             matched_snippets := None |}, w')
    /\ length (match completion env (length (trace w) + 8) request with
               | ApiReplies (Some content) => Bullets.parse content
               | _ => []
               end) <= 3.
Proof.
  intros Hdb recent request.
  unfold processCodeContent.
  unfold mbind at 1, M_bind at 1. unfold newDate at 1.
  unfold mbind at 1, M_bind at 1. rewrite (updateDeveloperContext_run env Hdb).
  cbv zeta. unfold mbind, M_bind, promiseAll3.
  rewrite detectErrors_empty.
  rewrite generateSuggestions_run, (getCurrentContext_run env Hdb),
    (getSnippets_run env Hdb _ _ (likeFails_no_term _ _ _)).
  cbv zeta. simpl snippets.
  replace (length (trace (record _ (record _ (record _ (record _ _))))))
    with (length (trace w) + 8)
    by (simpl; rewrite !length_app; simpl; lia).
  fold recent request.
  destruct (completion env (length (trace w) + 8) request) as [|[content|]];
    rewrite findRelevantSnippets_empty;
    (eexists; split; [reflexivity|]); simpl; try lia. apply parse_length.
Qed.

(** * Examples *)

Lemma sample_reliable (answer : api_outcome) : reliable (Sample.env_with Sample.no_fault answer).
Proof. intros n. reflexivity. Defined.

(** ** The building blocks at work *)

Example search_typed_error :
  Regex.search Regex.reTyped (lit "at line 3: TypeError: x is not a function")
  = Some (lit "TypeError: x is not a function").
Proof. reflexivity. Qed.

Lemma sample_fourDigitYears : fourDigitYears Sample.store.
Proof. split; [intros s [<-|[<-|[]]]|intros r [<-|[]]]; reflexivity. Qed.


Example search_error_any_case :
  Regex.search Regex.reError (lit "build failed, ERROR : missing semicolon")
  = Some (lit "ERROR : missing semicolon").
Proof. reflexivity. Qed.

Example search_error_code :
  Regex.search Regex.reCode (lit "E12a then E0432: unresolved import")
  = Some (lit "E0432: unresolved import").
Proof. reflexivity. Qed.

Example search_stops_at_line_end :
  Regex.search Regex.reException (Sample.newline_text (lit "Unhandled  rejection") (lit "at f"))
  = Some (lit "Unhandled  rejection").
Proof. reflexivity. Qed.

Example like_ignores_ascii_case :
  Sql.like (Sql.containing (lit "typeerror")) (lit "Uncaught TypeError: x") = true.
Proof. reflexivity. Qed.

Example like_underscore_is_any_character :
  Sql.like (Sql.containing (lit "my_var")) (lit "let my-var = 1") = true.
Proof. reflexivity. Qed.

Example stringify_tags :
  Json.stringify [lit "sum"; lit "fold"] = lit "[" ++ [34; 115; 117; 109; 34]%N
    ++ lit "," ++ [34; 102; 111; 108; 100; 34]%N ++ lit "]".
Proof. reflexivity. Qed.

Example parse_bullets :
  Bullets.parse (Sample.newline_text (lit "Sure:")
                   (Sample.newline_text (lit "- use const ")
                      (Sample.newline_text (lit " - indented lines are dropped")
                         (bullet :: lit "  name the function"))))
  = [lit "use const"; lit "name the function"].
Proof. reflexivity. Qed.

(** ** Where the code departs from the specification *)

(** C1 does not hold as stated.  The look-up and the write are both guarded
    by the language: without one, which is how [monitorScreenActivity] calls
    the pipeline, the cache is not asked, the API gives a solution, and
    nothing is persisted. *)
Lemma cache_miss_may_persist_nothing :
  ~ (forall (env : Env) (this : AIHelper) (w : World) (language : option jsstring)
            (errorText : jsstring) (foundErrors : list FoundError) (c : jsstring),
       reliable env ->
       (if truthy language
        then Query.selectErrorSolutions (orElse language [])
               (Sql.containing (substring0 100 errorText)) (error_patterns w)
        else []) = [] ->
       completion env (length (trace w) + (if truthy language then 2 else 0))
         (chat this Prompt.system_solution (Prompt.errorSolution errorText language) 200)
       = ApiReplies (Some c) ->
       trim c <> [] ->
       exists found' w' new,
         detectCandidate env this language errorText foundErrors w = (Ok found', w')
         /\ found' = foundErrors ++ [ {| error := errorText; found_solution := trim c |} ]
         /\ error_patterns w' = error_patterns w ++ [new]
         /\ ErrorPattern.frequency new = 1%Z).
Proof.
  intros H.
  destruct (H Sample.env Sample.helper Sample.store None
              (lit "TypeError: x is not a function") []
              (lit "Verify the type of x before the call. "))
    as (found' & w' & new & Hrun & _ & Hrows & _).
  - apply sample_reliable.
  - reflexivity.
  - reflexivity.
  - vm_compute. discriminate.
  - vm_compute in Hrun. injection Hrun as _ <-.
    apply (f_equal (@length _)) in Hrows. simpl in Hrows. discriminate.
Qed.

(** That run: one call of the API, one pair, the patterns as they were. *)
Example detectCandidate_without_language :
  exists w',
    detectCandidate Sample.env Sample.helper None (lit "TypeError: x is not a function")
      [] Sample.store
    = (Ok [ {| error := lit "TypeError: x is not a function";
               found_solution := lit "Verify the type of x before the call." |} ], w')
    /\ error_patterns w' = error_patterns Sample.store
    /\ length (trace w') = 1.
Proof. eexists. split; [vm_compute; reflexivity|]. split; reflexivity. Qed.

(** With a language, a miss of the cache need not create a pattern either.
    The cache is asked with the first 100 characters of the error text and
    [recordError] compares the first 50: here the cache has no solution for
    the error about ['length'], and [recordError] finds the pattern about
    ['id'], which has the same first 50 characters, and updates it. *)
Example detectCandidate_updates_similar_pattern :
  Query.selectErrorSolutions (lit "js")
    (Sql.containing (substring0 100 Sample.reading_error))
    (error_patterns Sample.store_reading) = []
  /\ exists found' w',
       detectCandidate Sample.env Sample.helper (Some (lit "js")) Sample.reading_error
         [] Sample.store_reading = (Ok found', w')
       /\ length found' = 1
       /\ error_patterns w'
          = [ {| ErrorPattern.id := lit "e1";
                 ErrorPattern.errorText :=
                   lit "TypeError: Cannot read properties of undefined (reading 'id')";
                 ErrorPattern.solution := lit "Verify the type of x before the call.";
                 ErrorPattern.language := lit "js";
                 ErrorPattern.frequency := 5%Z;
                 ErrorPattern.lastEncountered := 1005%Z |} ].
Proof.
  split; [vm_compute; reflexivity|].
  eexists _, _. split; [vm_compute; reflexivity|]. split; reflexivity.
Qed.


(** That run: two records of frequency 1 for one text. *)
Example recordError_split_pair_twice :
  Sql.splitsPair 50 (NewError.errorText Fixture.split_error) = true
  /\ exists r1 w1 r2 w2,
       recordError Sample.env Fixture.split_error Sample.empty = (Ok r1, w1)
       /\ recordError Sample.env Fixture.split_error w1 = (Ok r2, w2)
       /\ List.map ErrorPattern.frequency (error_patterns w2) = [1%Z; 1%Z]
       /\ List.map ErrorPattern.errorText (error_patterns w2)
          = [NewError.errorText Fixture.split_error;
             NewError.errorText Fixture.split_error].
Proof.
  split; [reflexivity|].
  eexists _, _, _, _. split; [vm_compute; reflexivity|].
  split; [vm_compute; reflexivity|]. split; reflexivity.
Qed.

(** A count of 2^53 is not incremented: the sum is not a number of the
    language, and the nearest one is the count itself. *)
Example recordError_count_at_2_53 :
  exists r w',
    recordError Sample.env (Sample.error "TypeError: x is undefined" "Give x a value.")
      (set_error_patterns
         [Sample.pattern "e2" "TypeError: x is undefined" "Define x." 9007199254740992%Z]
         Sample.empty)
    = (Ok r, w')
    /\ List.map ErrorPattern.frequency (error_patterns w') = [9007199254740992%Z]
    /\ List.map ErrorPattern.solution (error_patterns w') = [lit "Give x a value."].
Proof. eexists _, _. split; [vm_compute; reflexivity|]. split; reflexivity. Qed.

(** C3 does not hold as stated: the parser removes one marker, so the line
    [--x is decremented twice] gives an entry that begins with a marker. *)
Lemma generateSuggestions_entry_with_marker :
  ~ (forall (env : Env) (this : AIHelper) (code : jsstring)
            (filePath language : option jsstring) (w : World) (content : jsstring),
       reliable env ->
       completion env (length (trace w) + 4)
         (chat this Prompt.system_suggestions
            (Prompt.suggestions code filePath language
               (Query.selectSnippets
                  {| SnippetQuery.language := language;
                     SnippetQuery.searchTerm := None;
                     SnippetQuery.limit := Some 3 |} (snippets w))) 300)
       = ApiReplies (Some content) ->
       exists out w',
         generateSuggestions env this code filePath language w = (Ok out, w')
         /\ length out <= 3
         /\ (forall entry, In entry out -> Bullets.isBulletLine entry = false)).
Proof.
  intros H.
  destruct (H Sample.env_bullets Sample.helper [] None None Sample.empty _
              (sample_reliable _) eq_refl)
    as (out & w' & Hrun & _ & Hclean).
  vm_compute in Hrun. injection Hrun as <- _.
  specialize (Hclean _ (or_introl eq_refl)). vm_compute in Hclean. discriminate.
Qed.

(** C5 does not hold as stated: on the empty text the generator still asks the
    completion API, and an answer with marked lines gives suggestions. *)
Lemma empty_input_may_get_suggestions :
  ~ (forall (env : Env) (this : AIHelper) (w : World),
       reliable env -> api_up env ->
       exists w',
         processCodeContent env this [] Sample.context_x w
         = (Ok {| suggestions := []; errors := None; matched_snippets := None |}, w')).
Proof.
  intros H.
  destruct (H Sample.env_bullets Sample.helper Sample.empty) as (w' & Hrun).
  - apply sample_reliable.
  - intros n r. discriminate.
  - vm_compute in Hrun. discriminate.
Qed.


(** The condition on the time zone in C6 is needed: on a host where daylight
    saving time ended half an hour before the call, the local reading lies in
    the hour that occurs twice and is taken as one of its first occurrence,
    so the cut-off is an hour before the call and a row stamped within that
    hour stays. *)
Example cleanupOldData_zero_repeated_hour :
  reliable Fixture.env_autumn
  /\ clock Fixture.env_autumn 1 = 1001%Z
  /\ exists w',
       cleanupOldData Fixture.env_autumn (Some 0%Z) Sample.store = (Ok tt, w')
       /\ snippets w' = snippets Sample.store
       /\ List.map CodeSnippet.timestamp (snippets w') = [700%Z; 1001%Z]
       /\ nth_error (trace w') 2 = Some (EvSql (DeleteSnippetsBefore (-3598999)%Z)).
Proof.
  split; [intros n; reflexivity|]. split; [reflexivity|].
  eexists. split; [vm_compute; reflexivity|]. split; [reflexivity|]. split; reflexivity.
Qed.

(** The years at the ends of the four-digit range, and a negative horizon that
    puts the cut-off beyond the year 9999: its text starts with [+], which
    sorts before every digit, so no row is removed, though every row is
    older. *)
Example cleanupOldData_far_horizons :
  Iso.year (-62167219200000) = 0%Z
  /\ Iso.year (-62167219200001) = (-1)%Z
  /\ Iso.year 253402300799999 = 9999%Z
  /\ Iso.year 0 = 1970%Z
  /\ Iso.before 700 (-62167219200001) = false
  /\ Iso.before 700 253402300800000 = false
  /\ Iso.before (-62167219200001) 700 = true
  /\ exists w',
       cleanupOldData Sample.env (Some (-3000000)%Z) Sample.store = (Ok tt, w')
       /\ snippets w' = snippets Sample.store.
Proof.
  repeat (split; [vm_compute; reflexivity|]).
  eexists. split; [vm_compute; reflexivity|]. reflexivity.
Qed.

(** C8: the updater is not the only stage that lets a storage failure
    through.  The storage calls of [detectErrors] are outside every
    [try]: here the updater has written its row, the query for cached
    solutions fails, and the pipeline throws. *)
Theorem processCodeContent_detector_storage_failure :
  exists w',
    processCodeContent (Sample.env_fault 5) Sample.helper
      (lit "TypeError: x is not a function") Sample.context_js Sample.empty
    = (Throw StorageError, w')
    /\ List.map (fun r => DeveloperContext.currentApp (snd r)) (developer_context w')
       = [lit "x"]
    /\ nth_error (trace w') 5
       = Some (EvSql (SelectErrorSolutions (lit "js")
                        (Sql.containing (lit "Error: x is not a function")))).
Proof. eexists. split; [vm_compute; reflexivity|]. split; reflexivity. Qed.

(** The same for every candidate of every text: with a language given, a
    failure of the look-up leaves [detectCandidate] as an exception. *)
Lemma detectCandidate_propagates (env : Env) (this : AIHelper) (language : option jsstring)
    (errorText : jsstring) (foundErrors : list FoundError) (w : World) :
  truthy language = true ->
  db_fault env (length (trace w)) = true ->
  exists w',
    detectCandidate env this language errorText foundErrors w = (Throw StorageError, w').
Proof.
  intros Hlang Hfault. unfold detectCandidate. rewrite Hlang.
  unfold getErrorSolutions, mbind, M_bind, getDb, storage. rewrite Hfault. eauto.
Qed.

(** ** The theorems at sample inputs *)

Lemma detectCandidate_cache_miss_witness :
  reliable Sample.env
  /\ (Query.selectErrorSolutions (lit "js")
        (Sql.percent :: take 100 (lit "SyntaxError: unexpected token") ++ [Sql.percent])
        (error_patterns Sample.store) = []
      /\ (forall e, In e (error_patterns Sample.store) ->
            ErrorPattern.id e <> uuid Sample.env (length (trace Sample.store) + 5))
      /\ exists found' w' rest,
           detectCandidate Sample.env Sample.helper (Some (lit "js"))
             (lit "SyntaxError: unexpected token") [] Sample.store = (Ok found', w')
           /\ found' = [ {| error := lit "SyntaxError: unexpected token";
                            found_solution := lit "Verify the type of x before the call." |} ]
           /\ (exists request,
                 trace w'
                 = [EvGetDb;
                    EvSql (SelectErrorSolutions (lit "js")
                             (Sql.containing (lit "SyntaxError: unexpected token")));
                    EvCompletion request] ++ rest)
           /\ (forall r, ~ In (EvCompletion r) rest)
           /\ List.map ErrorPattern.frequency (error_patterns w') = [3%Z; 7%Z; 1%Z; 1%Z])
  /\ (length Sample.reading_error = 65
      /\ Query.selectErrorSolutions (lit "js")
           (Sql.percent :: take 100 Sample.reading_error ++ [Sql.percent])
           (error_patterns Sample.store_reading) = []
      /\ exists found' w' rest,
           detectCandidate Sample.env Sample.helper (Some (lit "js"))
             Sample.reading_error [] Sample.store_reading = (Ok found', w')
           /\ length found' = 1
           /\ (exists request,
                 trace w'
                 = [EvGetDb;
                    EvSql (SelectErrorSolutions (lit "js")
                             (Sql.containing Sample.reading_error));
                    EvCompletion request] ++ rest)
           /\ (forall r, ~ In (EvCompletion r) rest)
           /\ error_patterns w'
              = [ {| ErrorPattern.id := lit "e1";
                     ErrorPattern.errorText :=
                       lit "TypeError: Cannot read properties of undefined (reading 'id')";
                     ErrorPattern.solution := lit "Verify the type of x before the call.";
                     ErrorPattern.language := lit "js";
                     ErrorPattern.frequency := 5%Z;
                     ErrorPattern.lastEncountered := 1005%Z |} ]).
Proof.
  assert (Hfresh : forall e, In e (error_patterns Sample.store) ->
            ErrorPattern.id e <> uuid Sample.env (length (trace Sample.store) + 5)).
  { intros e [<-|[<-|[<-|[]]]]; vm_compute; discriminate. }
  assert (Hfresh' : forall e, In e (error_patterns Sample.store_reading) ->
            ErrorPattern.id e <> uuid Sample.env (length (trace Sample.store_reading) + 5)).
  { intros e [<-|[]]; vm_compute; discriminate. }
  split; [apply sample_reliable|]. split.
  - split; [reflexivity|]. split; [exact Hfresh|].
    destruct (detectCandidate_cache_miss Sample.env Sample.helper Sample.store
                (Some (lit "js")) (lit "SyntaxError: unexpected token") []
                (sample_reliable _) (fun _ => eq_refl) Hfresh)
      as (found' & w' & rest & Hrun & Htrace & Honce & Hok).
    destruct (Hok (lit "Verify the type of x before the call. ") eq_refl)
      as (Hfound & _ & Hrows).
    { vm_compute. discriminate. }
    exists found', w', rest. split; [exact Hrun|].
    split; [rewrite Hfound; vm_compute; reflexivity|].
    split; [eexists; exact Htrace|]. split; [exact Honce|].
    specialize (Hrows eq_refl).
    match type of Hrows with
    | match ?x with _ => _ end =>
        change x with (@None ErrorPattern) in Hrows
    end.
    rewrite Hrows. reflexivity.
  - split; [reflexivity|]. split; [reflexivity|].
    destruct (detectCandidate_cache_miss Sample.env Sample.helper Sample.store_reading
                (Some (lit "js")) Sample.reading_error []
                (sample_reliable _) (fun _ => eq_refl) Hfresh')
      as (found' & w' & rest & Hrun & Htrace & Honce & Hok).
    destruct (Hok (lit "Verify the type of x before the call. ") eq_refl)
      as (Hfound & _ & Hrows).
    { vm_compute. discriminate. }
    exists found', w', rest. split; [exact Hrun|].
    split; [rewrite Hfound; reflexivity|].
    split; [eexists; exact Htrace|]. split; [exact Honce|].
    specialize (Hrows eq_refl).
    match type of Hrows with
    | match ?x with _ => _ end =>
        change x with (nth_error (error_patterns Sample.store_reading) 0) in Hrows
    end.
    cbv beta iota in Hrows.
    destruct Hrows as (Hlen & (i & Hi & Hi') & _ & _).
    destruct i as [|i]; [|destruct i; discriminate Hi].
    destruct (error_patterns w') as [|x [|y l]]; try discriminate Hlen.
    injection Hi' as ->. reflexivity.
Defined.


Lemma generateSuggestions_parses_bullets_witness :
  reliable Sample.env_bullets
  /\ exists out w',
       generateSuggestions Sample.env_bullets Sample.helper (lit "x--; x--") None None
         Sample.store = (Ok out, w')
       /\ length out <= 3
       /\ out = [lit "-x is decremented twice"; lit "rename y"].
Proof.
  split; [apply sample_reliable|].
  destruct (generateSuggestions_parses_bullets Sample.env_bullets Sample.helper
              (lit "x--; x--") None None Sample.store _ (sample_reliable _) eq_refl)
    as (out & w' & Hrun & Hlen & Hout & _).
  exists out, w'. split; [exact Hrun|]. split; [exact Hlen|].
  rewrite Hout. vm_compute. reflexivity.
Defined.

Lemma findRelevantSnippets_exact_first_witness :
  reliable Sample.env
  /\ length (trim Fixture.long_code) = 82
  /\ exists r w',
       findRelevantSnippets Sample.env Fixture.long_code (Some (lit "js")) Fixture.store_totals
       = (Ok (Some r), w')
       /\ List.map CodeSnippet.id r = [lit "s1"]
       /\ length r <= 2
       /\ trace w'
          = [EvGetDb;
             EvSql (SelectSnippets
                      {| SnippetQuery.language := Some (lit "js");
                         SnippetQuery.searchTerm :=
                           Some (lit "const total = items.reduce((sum, item) => sum + it");
                         SnippetQuery.limit := Some 2 |})].
Proof.
  assert (Hcode : trim Fixture.long_code <> []) by (vm_compute; discriminate).
  split; [apply sample_reliable|]. split; [reflexivity|].
  destruct (proj2 (findRelevantSnippets_exact_first Sample.env Sample.helper
                     Fixture.long_code (Some (lit "js")) Fixture.store_totals)
              (sample_reliable _) Hcode)
    as (w' & Hrun & Htrace & _).
  { vm_compute. discriminate. }
  eexists _, w'. split; [exact Hrun|]. split; [vm_compute; reflexivity|].
  split; [vm_compute; lia|]. rewrite Htrace. vm_compute. reflexivity.
Defined.

Lemma processCodeContent_empty_input_witness :
  reliable Sample.env_bullets
  /\ exists w',
       processCodeContent Sample.env_bullets Sample.helper [] Sample.context_x Sample.empty
       = (Ok {| suggestions := [lit "-x is decremented twice"; lit "rename y"];
                errors := None;
                matched_snippets := None |}, w').
Proof.
  split; [apply sample_reliable|].
  destruct (processCodeContent_empty_input Sample.env_bullets Sample.helper
              Sample.context_x Sample.empty (sample_reliable _))
    as (w' & Hrun & _).
  exists w'. rewrite Hrun. vm_compute. reflexivity.
Defined.


Lemma generateSuggestions_swallows_failures_witness :
  (* the retrieval of the context fails *)
  ((exists e w1, getCurrentContext (Sample.env_fault 1) Sample.store = (Throw e, w1))
   /\ exists w',
        generateSuggestions (Sample.env_fault 1) Sample.helper (lit "x") None None
          Sample.store = (Ok [], w'))
  (* the retrieval of the snippets fails *)
  /\ ((exists c w1 e w2,
         getCurrentContext (Sample.env_fault 3) Sample.store = (Ok c, w1)
         /\ getSnippets (Sample.env_fault 3)
              {| SnippetQuery.language := None; SnippetQuery.searchTerm := None;
                 SnippetQuery.limit := Some 3 |} w1 = (Throw e, w2))
      /\ exists w',
           generateSuggestions (Sample.env_fault 3) Sample.helper (lit "x") None None
             Sample.store = (Ok [], w'))
  (* the completion API fails *)
  /\ ((forall n r, completion Sample.env_down n r = ApiThrows)
      /\ exists w',
           generateSuggestions Sample.env_down Sample.helper (lit "x") None None
             Sample.store = (Ok [], w')).
Proof.
  split; [|split].
  - split; [eexists _, _; vm_compute; reflexivity|].
    destruct (generateSuggestions_swallows_failures (Sample.env_fault 1) Sample.helper
                (lit "x") None None Sample.store)
      as (out & w' & Hrun & Hctx & _).
    exists w'. rewrite Hrun. f_equal. f_equal. eapply Hctx. vm_compute. reflexivity.
  - split; [eexists _, _, _, _; split; vm_compute; reflexivity|].
    destruct (generateSuggestions_swallows_failures (Sample.env_fault 3) Sample.helper
                (lit "x") None None Sample.store)
      as (out & w' & Hrun & _ & Hsn & _).
    exists w'. rewrite Hrun. f_equal. f_equal.
    eapply Hsn; vm_compute; reflexivity.
  - split; [reflexivity|].
    destruct (generateSuggestions_swallows_failures Sample.env_down Sample.helper
                (lit "x") None None Sample.store)
      as (out & w' & Hrun & _ & _ & Hapi).
    exists w'. rewrite Hrun. f_equal. f_equal.
    eapply Hapi; [vm_compute; reflexivity|vm_compute; reflexivity|reflexivity].
Defined.

Lemma getErrorSolutions_top5_by_frequency_witness :
  reliable Sample.env
  /\ length Fixture.long_error = 127
  /\ take 100 Fixture.long_error = Fixture.stack_head
  /\ exists rows w',
       getErrorSolutions Sample.env Fixture.long_error (lit "js") Fixture.store_traces
       = (Ok rows, w')
       /\ length rows <= 5
       /\ StronglySorted (Sql.descending ErrorPattern.frequency) rows
       /\ List.map ErrorPattern.id rows = [lit "e2"; lit "e1"]
       /\ trace w'
          = [EvGetDb;
             EvSql (SelectErrorSolutions (lit "js")
                      (Sql.percent :: Fixture.stack_head ++ [Sql.percent]))]
       /\ getErrorSolutions Sample.env Fixture.long_error_again (lit "js")
            Fixture.store_traces
          = (Ok rows, w').
Proof.
  split; [apply sample_reliable|]. split; [reflexivity|]. split; [reflexivity|].
  destruct (getErrorSolutions_top5_by_frequency Sample.env Fixture.long_error (lit "js")
              Fixture.store_traces (sample_reliable _))
    as (rows & w' & Hrun & Hlen & Hsorted & _ & _ & _ & Htrace & Hsame).
  exists rows, w'. split; [exact Hrun|]. split; [exact Hlen|]. split; [exact Hsorted|].
  split; [|split; [exact Htrace|apply Hsame; reflexivity]].
  vm_compute in Hrun. injection Hrun as <- _. reflexivity.
Defined.


(** * More of the code *)

(** ** Relations that runs respect *)

#[global] Instance Frame_QuietFrame (R : World -> World -> Prop) `{!Frame R} : QuietFrame R.
Proof. split; [exact _|]. intros e w _. apply frame_record. Qed.

Section Respect.
Context (R : World -> World -> Prop).

Section WithStable.
Context `{!Stable R}.

Lemma respects_ret {A} (a : A) : respects R (mret a : M A).
Proof. intros w. apply frame_refl. Qed.

Lemma respects_bind {A B} (m : M A) (f : A -> M B) :
  respects R m -> (forall a, respects R (f a)) -> respects R (m ≫= f).
Proof.
  intros Hm Hf w. unfold mbind, M_bind. specialize (Hm w).
  destruct (m w) as [[a|e] w1]; simpl in *; [|exact Hm].
  eapply frame_trans; [exact Hm|apply Hf].
Qed.

Lemma respects_try_catch {A} (m : M A) (h : exn -> M A) :
  respects R m -> (forall e, respects R (h e)) -> respects R (try_catch m h).
Proof.
  intros Hm Hh w. unfold try_catch. specialize (Hm w).
  destruct (m w) as [[a|e] w1]; simpl in *; [exact Hm|].
  eapply frame_trans; [exact Hm|apply Hh].
Qed.

Lemma respects_gets {A} (f : World -> A) : respects R (gets f).
Proof. intros w. apply frame_refl. Qed.

Lemma respects_throw {A} (e : exn) : respects R (throw e : M A).
Proof. intros w. apply frame_refl. Qed.

Lemma respects_promiseAll3 {A B C} (a : M A) (b : M B) (c : M C) :
  respects R a -> respects R b -> respects R c -> respects R (promiseAll3 a b c).
Proof.
  intros Ha Hb Hc w. unfold promiseAll3.
  specialize (Ha w). destruct (a w) as [ra w1].
  specialize (Hb w1). destruct (b w1) as [rb w2].
  specialize (Hc w2). destruct (c w2) as [rc w3]. simpl in *.
  assert (H : R w w3) by (eapply frame_trans; [eapply frame_trans|]; eassumption).
  destruct ra, rb, rc; exact H.
Qed.

End WithStable.

Lemma respects_modify (f : World -> World) :
  (forall w, R w (f w)) -> respects R (modify f).
Proof. intros H w. apply H. Qed.

Section WithQuiet.
Context `{!QuietFrame R}.

Lemma respects_storage (env : Env) (e : event) :
  isCompletion e = false -> respects R (storage env e).
Proof.
  intros He w. unfold storage. destruct (db_fault env _); now apply quiet_record.
Qed.

Lemma respects_getDb (env : Env) : respects R (getDb env).
Proof. now apply respects_storage. Qed.

Lemma respects_sql (env : Env) (s : statement) : respects R (sql env s).
Proof. now apply respects_storage. Qed.

Lemma respects_newDate (env : Env) : respects R (newDate env).
Proof. intros w. now apply quiet_record. Qed.

Lemma respects_uuidv4 (env : Env) : respects R (uuidv4 env).
Proof. intros w. now apply quiet_record. Qed.

Lemma respects_consoleError : respects R consoleError.
Proof. intros w. now apply quiet_record. Qed.

Lemma respects_calculateSimilarity (env : Env) (embedding : list Q) (text : jsstring) :
  respects R (calculateSimilarity env embedding text).
Proof. intros w. now apply quiet_record. Qed.

Lemma respects_generateEmbedding (text : jsstring) : respects R (generateEmbedding text).
Proof. intros w. now apply quiet_record. Qed.

End WithQuiet.

Lemma respects_createCompletion `{!Frame R} (env : Env) (r : request) :
  respects R (createCompletion env r).
Proof.
  intros w. unfold createCompletion. destruct (completion env _ r); apply frame_record.
Qed.

End Respect.

(** Steps through a run, one construct of the monad at a time. *)
Ltac frame_step :=
  lazymatch goal with
  | |- Stable _ => exact _
  | |- QuietFrame _ => exact _
  | |- Frame _ => exact _
  | |- respects _ _ =>
      first
        [ apply respects_ret
        | apply respects_gets
        | apply respects_throw
        | apply respects_getDb
        | apply respects_sql
        | apply respects_newDate
        | apply respects_uuidv4
        | apply respects_consoleError
        | apply respects_createCompletion
        | apply respects_calculateSimilarity
        | apply respects_generateEmbedding
        | apply respects_bind
        | apply respects_try_catch
        | match goal with
          | |- respects _ (match ?x with _ => _ end) => destruct x
          | |- respects _ (let '(_, _) := ?x in _) => destruct x
          end
        | assumption ]
  | |- _ => intros ?
  end.

Ltac frame := cbv zeta; repeat frame_step.

(** The same, with [tac] for the functions a run calls. *)
Ltac frame_with tac := cbv zeta; repeat first [progress tac | frame_step].

Lemma apiCalls_record (e : event) (w : World) :
  apiCalls (record e w) = apiCalls w + (if isCompletion e then 1 else 0).
Proof.
  unfold apiCalls. simpl. rewrite List.filter_app, length_app. simpl.
  destruct (isCompletion e); reflexivity.
Qed.

#[global] Arguments apiCalls : simpl never.
#[global] Arguments record : simpl never.

#[global] Instance Stable_sameSnippets : Stable sameSnippets.
Proof. split; unfold sameSnippets; simpl; congruence. Qed.

#[global] Instance Frame_sameSnippets : Frame sameSnippets.
Proof. split; [exact _|]. intros e w. reflexivity. Qed.

#[global] Instance Stable_sameErrorPatterns : Stable sameErrorPatterns.
Proof. split; unfold sameErrorPatterns; simpl; congruence. Qed.

#[global] Instance Frame_sameErrorPatterns : Frame sameErrorPatterns.
Proof. split; [exact _|]. intros e w. reflexivity. Qed.

#[global] Instance Stable_sameContext : Stable sameContext.
Proof.
  split; unfold sameContext; simpl; [tauto|].
  intros w1 w2 w3 [-> ->] [-> ->]. tauto.
Qed.

#[global] Instance Frame_sameContext : Frame sameContext.
Proof. split; [exact _|]. intros e w. split; reflexivity. Qed.

#[global] Instance Stable_sameTables : Stable sameTables.
Proof.
  split; unfold sameTables.
  - intros w. split; [|split]; apply frame_refl.
  - intros w1 w2 w3 (H1 & H2 & H3) (H1' & H2' & H3').
    split; [|split]; eapply frame_trans; eassumption.
Qed.

#[global] Instance Frame_sameTables : Frame sameTables.
Proof. split; [exact _|]. intros e w. split; [|split]; apply frame_record. Qed.

#[global] Instance Stable_keepsKeys : Stable keepsKeys.
Proof. split; unfold keepsKeys; auto. Qed.

#[global] Instance Frame_keepsKeys : Frame keepsKeys.
Proof. split; [exact _|]. intros e w H. exact H. Qed.

#[global] Instance Stable_extends : Stable extends.
Proof.
  split; unfold extends.
  - intros w. exists []. now rewrite app_nil_r.
  - intros w1 w2 w3 [e1 H1] [e2 H2]. exists (e1 ++ e2). now rewrite H2, H1, app_assoc.
Qed.

#[global] Instance Frame_extends : Frame extends.
Proof. split; [exact _|]. intros e w. exists [e]. reflexivity. Qed.

#[global] Instance Stable_sameCalls : Stable sameCalls.
Proof. split; unfold sameCalls; congruence. Qed.

#[global] Instance QuietFrame_sameCalls : QuietFrame sameCalls.
Proof.
  split; [exact _|]. intros e w He. unfold sameCalls.
  rewrite apiCalls_record, He. lia.
Qed.

(** ** The functions that only read *)

Section Quiet.
Context (R : World -> World -> Prop) `{!QuietFrame R}.
Variable env : Env.

Lemma respects_getSnippets (o : SnippetQuery) : respects R (getSnippets env o).
Proof. unfold getSnippets. frame. Qed.

Lemma respects_getErrorSolutions (errorText language : jsstring) :
  respects R (getErrorSolutions env errorText language).
Proof. unfold getErrorSolutions. frame. Qed.

Lemma respects_getCurrentContext : respects R (getCurrentContext env).
Proof. unfold getCurrentContext. frame. Qed.

Lemma respects_scoreSnippets (embedding : list Q) (allSnippets : list CodeSnippet) :
  respects R (scoreSnippets env embedding allSnippets).
Proof. induction allSnippets; simpl; frame. Qed.

Lemma respects_findRelevantSnippets (code : jsstring) (language : option jsstring) :
  respects R (findRelevantSnippets env code language).
Proof.
  unfold findRelevantSnippets.
  destruct (trim code);
    frame_with ltac:(first [apply respects_getSnippets|apply respects_scoreSnippets]).
Qed.

End Quiet.

Section ReadOnly.
Context (R : World -> World -> Prop) `{!Frame R}.
Variable env : Env.

Lemma respects_generateErrorSolution (this : AIHelper) (error : jsstring)
    (language : option jsstring) :
  respects R (generateErrorSolution env this error language).
Proof. unfold generateErrorSolution. frame. Qed.

Lemma respects_generateSuggestions (this : AIHelper) (code : jsstring)
    (filePath language : option jsstring) :
  respects R (generateSuggestions env this code filePath language).
Proof.
  unfold generateSuggestions.
  frame_with ltac:(first [apply respects_getCurrentContext|apply respects_getSnippets]).
Qed.

(** The detector writes through [recordError] only. *)
Hypothesis HrecordError : forall error, respects R (recordError env error).

Lemma respects_detectCandidate (this : AIHelper) (language : option jsstring)
    (errorText : jsstring) (foundErrors : list FoundError) :
  respects R (detectCandidate env this language errorText foundErrors).
Proof.
  unfold detectCandidate.
  frame_with ltac:(first [apply respects_getErrorSolutions
                         |apply respects_generateErrorSolution|apply HrecordError]).
Qed.

Lemma respects_detectLoop (this : AIHelper) (patterns : list (jsstring -> option jsstring))
    (code : jsstring) (language : option jsstring) (foundErrors : list FoundError) :
  respects R (detectLoop env this patterns code language foundErrors).
Proof.
  revert foundErrors. induction patterns as [|p ps IH]; intros foundErrors; simpl.
  - frame.
  - destruct (Regex.search p code); [|apply IH].
    frame_with ltac:(first [apply respects_detectCandidate|apply IH]).
Qed.

Lemma respects_detectErrors (this : AIHelper) (code : jsstring) (language : option jsstring) :
  respects R (detectErrors env this code language).
Proof. unfold detectErrors. frame_with ltac:(apply respects_detectLoop). Qed.

Hypothesis HupdateContext : forall context, respects R (updateDeveloperContext env context).

Lemma respects_processCodeContent (this : AIHelper) (content : jsstring)
    (context : CodeContext) :
  respects R (processCodeContent env this content context).
Proof.
  unfold processCodeContent.
  frame_with ltac:(first [apply HupdateContext|apply respects_promiseAll3
                         |apply respects_detectErrors|apply respects_generateSuggestions
                         |apply respects_findRelevantSnippets]).
Qed.

End ReadOnly.

(** ** The functions that write *)

Lemma NoDup_map_filter {A B} (f : A -> B) (p : A -> bool) (l : list A) :
  NoDup (List.map f l) -> NoDup (List.map f (List.filter p l)).
Proof.
  induction l as [|x l IH]; simpl; [auto|].
  intros H. apply NoDup_cons in H. destruct H as [Hx Hl].
  destruct (p x); simpl; [|auto].
  apply NoDup_cons. split; [|auto].
  intros Hin. apply Hx. apply list_elem_of_In. apply list_elem_of_In in Hin.
  apply in_map_iff in Hin. destruct Hin as (y & <- & Hy).
  apply in_map. apply filter_In in Hy. tauto.
Qed.

Lemma NoDup_map_snoc {A B} (f : A -> B) (l : list A) (x : A) :
  NoDup (List.map f l) -> ~ In (f x) (List.map f l) -> NoDup (List.map f (l ++ [x])).
Proof.
  intros Hl Hx. rewrite map_app. simpl.
  apply NoDup_app. split; [exact Hl|]. split; [|apply NoDup_singleton].
  intros y Hy Hy'. apply list_elem_of_In in Hy. apply list_elem_of_In in Hy'.
  destruct Hy' as [<-|[]]. contradiction.
Qed.

Lemma existsb_id_false {A} (id : A -> jsstring) (rows : list A) (x : jsstring) :
  existsb (fun r => Js.eqb (id r) x) rows = false -> ~ In x (List.map id rows).
Proof.
  intros H Hin. apply in_map_iff in Hin. destruct Hin as (r & <- & Hr).
  assert (existsb (fun r0 => Js.eqb (id r0) (id r)) rows = true).
  { apply existsb_exists. exists r. split; [exact Hr|apply eqb_refl]. }
  congruence.
Qed.

Lemma updateError_ids (f t : Z) (s id : jsstring) (rows : list ErrorPattern) :
  List.map ErrorPattern.id (Query.updateError f t s id rows)
  = List.map ErrorPattern.id rows.
Proof.
  unfold Query.updateError. rewrite map_map. apply map_ext. intros e.
  destruct (Js.eqb _ _); reflexivity.
Qed.

Lemma nextKey_fresh (seq : N) (rows : list (N * DeveloperContext)) :
  ~ In (Query.nextKey seq rows) (List.map fst rows).
Proof.
  unfold Query.nextKey. intros H.
  assert (Hle : forall l k, In k l -> (k <= fold_right N.max seq l)%N).
  { induction l as [|x l IH]; simpl; [tauto|]. intros k [->|Hin]; [lia|].
    specialize (IH k Hin). lia. }
  specialize (Hle _ _ H). lia.
Qed.

Lemma update_keepsKeys (f t : Z) (s id : jsstring) :
  respects keepsKeys
    (modify (fun w => set_error_patterns
                        (Query.updateError f t s id (error_patterns w)) w)).
Proof.
  intros w (Hs & He & Hc). split; [exact Hs|]. split; [|exact Hc].
  simpl. now rewrite updateError_ids.
Qed.

Lemma append_keepsKeys (row : DeveloperContext) :
  respects keepsKeys
    (modify (fun w =>
       let key := Query.nextKey (context_seq w) (developer_context w) in
       set_developer_context (developer_context w ++ [(key, row)]) key w)).
Proof.
  intros w (Hs & He & Hc). split; [exact Hs|]. split; [exact He|]. simpl.
  apply (NoDup_map_snoc fst); [exact Hc|apply nextKey_fresh].
Qed.

Lemma sweepSnippets_keepsKeys (cutoff : Z) :
  respects keepsKeys
    (modify (fun w => set_snippets (Query.deleteSnippetsBefore cutoff (snippets w)) w)).
Proof.
  intros w (Hs & He & Hc). split; [|split; assumption]. simpl.
  now apply NoDup_map_filter.
Qed.

Lemma sweepContext_keepsKeys (cutoff : Z) :
  respects keepsKeys
    (modify (fun w => set_developer_context
                        (Query.deleteContextBefore cutoff (developer_context w))
                        (context_seq w) w)).
Proof.
  intros w (Hs & He & Hc). split; [exact Hs|]. split; [exact He|]. simpl.
  now apply NoDup_map_filter.
Qed.

Section Writers.
Variable env : Env.

Lemma insertSnippet_keepsKeys (s : CodeSnippet) : respects keepsKeys (insertSnippet env s).
Proof.
  intros w (Hs & He & Hc). unfold insertSnippet, mbind, M_bind, sql, storage, gets.
  destruct (db_fault env _); simpl; [repeat split; assumption|].
  destruct (existsb _ (snippets w)) eqn:Hex; simpl; [repeat split; assumption|].
  split; [|split; assumption]. simpl.
  apply NoDup_map_snoc; [exact Hs|]. now apply existsb_id_false.
Qed.

Lemma insertError_keepsKeys (e : ErrorPattern) : respects keepsKeys (insertError env e).
Proof.
  intros w (Hs & He & Hc). unfold insertError, mbind, M_bind, sql, storage, gets.
  destruct (db_fault env _); simpl; [repeat split; assumption|].
  destruct (existsb _ (error_patterns w)) eqn:Hex; simpl; [repeat split; assumption|].
  split; [exact Hs|]. split; [|exact Hc]. simpl.
  apply NoDup_map_snoc; [exact He|]. now apply existsb_id_false.
Qed.

Lemma insertSnippet_other_tables (s : CodeSnippet) :
  respects sameErrorPatterns (insertSnippet env s)
  /\ respects sameContext (insertSnippet env s).
Proof.
  split; intros w; unfold insertSnippet, mbind, M_bind, sql, storage, gets;
    destruct (db_fault env _); simpl; try (split; reflexivity); try reflexivity;
    destruct (existsb _ (snippets w)); simpl; try (split; reflexivity); reflexivity.
Qed.

Lemma insertError_other_tables (e : ErrorPattern) :
  respects sameSnippets (insertError env e)
  /\ respects sameContext (insertError env e).
Proof.
  split; intros w; unfold insertError, mbind, M_bind, sql, storage, gets;
    destruct (db_fault env _); simpl; try (split; reflexivity); try reflexivity;
    destruct (existsb _ (error_patterns w)); simpl; try (split; reflexivity); reflexivity.
Qed.

Lemma respects_saveSnippet (snippet : NewSnippet) :
  respects sameErrorPatterns (saveSnippet env snippet)
  /\ respects sameContext (saveSnippet env snippet)
  /\ respects keepsKeys (saveSnippet env snippet).
Proof.
  unfold saveSnippet. split; [|split].
  - frame_with ltac:(apply insertSnippet_other_tables).
  - frame_with ltac:(apply insertSnippet_other_tables).
  - frame_with ltac:(apply insertSnippet_keepsKeys).
Qed.

Lemma respects_recordError (error : NewError) :
  respects sameSnippets (recordError env error)
  /\ respects sameContext (recordError env error)
  /\ respects keepsKeys (recordError env error).
Proof.
  unfold recordError. split; [|split].
  - frame_with ltac:(first [apply insertError_other_tables
                           |apply respects_modify; intros w; hnf; reflexivity]).
  - frame_with ltac:(first [apply insertError_other_tables
                           |apply respects_modify; intros w; split; reflexivity]).
  - frame_with ltac:(first [apply insertError_keepsKeys|apply update_keepsKeys]).
Qed.

Lemma respects_updateDeveloperContext (context : ContextUpdate) :
  respects sameSnippets (updateDeveloperContext env context)
  /\ respects sameErrorPatterns (updateDeveloperContext env context)
  /\ respects keepsKeys (updateDeveloperContext env context).
Proof.
  unfold updateDeveloperContext. split; [|split].
  - frame_with ltac:(apply respects_modify; intros w; hnf; reflexivity).
  - frame_with ltac:(apply respects_modify; intros w; hnf; reflexivity).
  - frame_with ltac:(apply append_keepsKeys).
Qed.

Lemma respects_cleanupOldData (daysToKeep : option Z) :
  respects keepsKeys (cleanupOldData env daysToKeep).
Proof.
  unfold cleanupOldData.
  frame_with ltac:(first [apply sweepSnippets_keepsKeys|apply sweepContext_keepsKeys]).
Qed.

End Writers.

Lemma sameCalls_modify (f : World -> World) :
  (forall w, trace (f w) = trace w) -> respects sameCalls (modify f).
Proof. intros H w. unfold sameCalls, apiCalls. simpl. now rewrite H. Qed.

(** The functions of the store never call the completion API. *)
Lemma storage_sameCalls (env : Env) :
  (forall snippet, respects sameCalls (saveSnippet env snippet))
  /\ (forall error, respects sameCalls (recordError env error))
  /\ (forall context, respects sameCalls (updateDeveloperContext env context))
  /\ (forall daysToKeep, respects sameCalls (cleanupOldData env daysToKeep)).
Proof.
  split; [|split; [|split]]; intros x.
  - unfold saveSnippet, insertSnippet.
    frame_with ltac:(apply sameCalls_modify; intros w; reflexivity).
  - unfold recordError, insertError.
    frame_with ltac:(apply sameCalls_modify; intros w; reflexivity).
  - unfold updateDeveloperContext.
    frame_with ltac:(apply sameCalls_modify; intros w; reflexivity).
  - unfold cleanupOldData.
    frame_with ltac:(apply sameCalls_modify; intros w; reflexivity).
Qed.

(** ** The number of calls of the completion API *)

Lemma atMostCalls_quiet {A} (m : M A) : respects sameCalls m -> atMostCalls 0 m.
Proof. intros H w. specialize (H w). unfold sameCalls in H. lia. Qed.

Lemma atMostCalls_weaken {A} (n k : nat) (m : M A) :
  atMostCalls n m -> n <= k -> atMostCalls k m.
Proof. intros H Hle w. specialize (H w). lia. Qed.

Lemma atMostCalls_bind {A B} (n k : nat) (m : M A) (f : A -> M B) :
  atMostCalls n m -> (forall a, atMostCalls k (f a)) -> atMostCalls (n + k) (m ≫= f).
Proof.
  intros Hm Hf w. unfold mbind, M_bind. specialize (Hm w).
  destruct (m w) as [[a|e] w1]; simpl in *; [|lia].
  specialize (Hf a w1). lia.
Qed.

Lemma atMostCalls_promiseAll3 {A B C} (n1 n2 n3 : nat) (a : M A) (b : M B) (c : M C) :
  atMostCalls n1 a -> atMostCalls n2 b -> atMostCalls n3 c ->
  atMostCalls (n1 + n2 + n3) (promiseAll3 a b c).
Proof.
  intros Ha Hb Hc w. unfold promiseAll3.
  specialize (Ha w). destruct (a w) as [ra w1].
  specialize (Hb w1). destruct (b w1) as [rb w2].
  specialize (Hc w2). destruct (c w2) as [rc w3]. simpl in *.
  destruct ra, rb, rc; simpl; lia.
Qed.

Section Calls.
Variable env : Env.
Variable this : AIHelper.

(** One call of [generateErrorSolution] is one call of the API, answered or
    not. *)
Lemma generateErrorSolution_calls (error : jsstring) (language : option jsstring)
    (w : World) :
  apiCalls (snd (generateErrorSolution env this error language w)) = apiCalls w + 1.
Proof.
  rewrite generateErrorSolution_run. unfold apiCalls. simpl.
  rewrite List.filter_app, length_app. simpl.
  destruct (completion env _ _); reflexivity.
Qed.

Lemma detectCandidate_calls (language : option jsstring) (errorText : jsstring)
    (foundErrors : list FoundError) :
  atMostCalls 1 (detectCandidate env this language errorText foundErrors).
Proof.
  unfold detectCandidate.
  apply (atMostCalls_bind 0 1).
  { apply atMostCalls_quiet.
    destruct (truthy language); frame_with ltac:(apply respects_getErrorSolutions). }
  intros dbSolutions. destruct (0 <? length dbSolutions).
  { apply (atMostCalls_weaken 0); [|lia]. apply atMostCalls_quiet. frame. }
  apply (atMostCalls_bind 1 0).
  { intros w. rewrite generateErrorSolution_calls. lia. }
  intros [aiSolution|]; apply atMostCalls_quiet; [|frame].
  destruct (truthy language); frame_with ltac:(apply storage_sameCalls).
Qed.

Lemma detectLoop_calls (patterns : list (jsstring -> option jsstring)) (code : jsstring)
    (language : option jsstring) (foundErrors : list FoundError) :
  atMostCalls (length (candidatesOf patterns code))
    (detectLoop env this patterns code language foundErrors).
Proof.
  revert foundErrors. induction patterns as [|p ps IH]; intros foundErrors; simpl.
  - apply atMostCalls_quiet. frame.
  - unfold candidatesOf in *. simpl. destruct (Regex.search p code); [|apply IH].
    simpl. apply (atMostCalls_bind 1); [apply detectCandidate_calls|]. intros a. apply IH.
Qed.

Lemma detectErrors_calls (code : jsstring) (language : option jsstring) :
  atMostCalls (length (candidates code)) (detectErrors env this code language).
Proof.
  unfold detectErrors.
  apply (atMostCalls_weaken (length (candidates code) + 0)); [|lia].
  apply atMostCalls_bind; [apply detectLoop_calls|]. intros a.
  apply atMostCalls_quiet. frame.
Qed.

Lemma generateSuggestions_calls (code : jsstring) (filePath language : option jsstring) :
  atMostCalls 1 (generateSuggestions env this code filePath language).
Proof.
  intros w. rewrite generateSuggestions_run.
  pose proof (respects_getCurrentContext sameCalls env w) as H1.
  destruct (getCurrentContext env w) as [[c|e] w1]; simpl in H1; unfold sameCalls in H1.
  - pose proof (respects_getSnippets sameCalls env
                  {| SnippetQuery.language := language;
                     SnippetQuery.searchTerm := None;
                     SnippetQuery.limit := Some 3 |} w1) as H2.
    destruct (getSnippets env _ w1) as [[sn|e] w2]; simpl in H2; unfold sameCalls in H2.
    + cbv zeta. destruct (completion env _ _) as [|[content|]]; simpl;
        rewrite ?apiCalls_record; simpl; lia.
    + simpl. rewrite apiCalls_record. simpl. lia.
  - simpl. rewrite apiCalls_record. simpl. lia.
Qed.

Lemma candidates_length (code : jsstring) : length (candidates code) <= 4.
Proof.
  unfold candidates, candidatesOf. simpl.
  repeat match goal with |- context [Regex.search ?p code] =>
    destruct (Regex.search p code) end; simpl; lia.
Qed.

Lemma processCodeContent_calls (content : jsstring) (context : CodeContext) :
  atMostCalls (length (candidates content) + 1)
    (processCodeContent env this content context).
Proof.
  unfold processCodeContent.
  apply (atMostCalls_weaken (0 + (0 + (length (candidates content) + 1 + 0 + 0))));
    [|lia].
  apply atMostCalls_bind; [apply atMostCalls_quiet; frame|]. intros lastActivity.
  apply atMostCalls_bind; [apply atMostCalls_quiet, storage_sameCalls|]. intros _.
  apply atMostCalls_bind.
  - apply atMostCalls_promiseAll3;
      [apply detectErrors_calls|apply generateSuggestions_calls|].
    apply atMostCalls_quiet, respects_findRelevantSnippets. exact _.
  - intros [[? ?] ?]. apply atMostCalls_quiet. frame.
Qed.

End Calls.

(** ** What the analyses never do *)

(** X1. The suggestion generator, the snippet matcher, the request for a
    solution and the three reading functions of the store leave the three
    tables as they found them, whatever the collaborators do. *)
Theorem analyses_never_write (env : Env) (this : AIHelper) (w : World) :
  (forall code filePath language,
     sameTables w (snd (generateSuggestions env this code filePath language w)))
  /\ (forall code language, sameTables w (snd (findRelevantSnippets env code language w)))
  /\ (forall error language,
        sameTables w (snd (generateErrorSolution env this error language w)))
  /\ (forall options, sameTables w (snd (getSnippets env options w)))
  /\ (forall errorText language,
        sameTables w (snd (getErrorSolutions env errorText language w)))
  /\ sameTables w (snd (getCurrentContext env w)).
Proof.
  split; [|split; [|split; [|split; [|split]]]]; intros.
  - apply respects_generateSuggestions; exact _.
  - apply respects_findRelevantSnippets; exact _.
  - apply respects_generateErrorSolution; exact _.
  - apply respects_getSnippets; exact _.
  - apply respects_getErrorSolutions; exact _.
  - apply respects_getCurrentContext; exact _.
Qed.

(** X2. One run of the pipeline calls the completion API at most once per
    signature that matches the text and once more for the suggestions, so at
    most five times; the detector at most four times, the generator at most
    once, the matcher and the functions of the store never. *)
Theorem pipeline_call_budget (env : Env) (this : AIHelper) (content : jsstring)
    (context : CodeContext) (w : World) :
  apiCalls w
  <= apiCalls (snd (processCodeContent env this content context w))
  <= apiCalls w + length (candidates content) + 1
  /\ length (candidates content) <= 4
  /\ apiCalls w
     <= apiCalls (snd (detectErrors env this content (ctx_language context) w))
     <= apiCalls w + length (candidates content)
  /\ apiCalls w
     <= apiCalls (snd (generateSuggestions env this content (ctx_filePath context)
                         (ctx_language context) w))
     <= apiCalls w + 1
  /\ apiCalls (snd (findRelevantSnippets env content (ctx_language context) w))
     = apiCalls w
  /\ (forall error, apiCalls (snd (recordError env error w)) = apiCalls w)
  /\ (forall errorText language,
        apiCalls (snd (getErrorSolutions env errorText language w)) = apiCalls w).
Proof.
  split; [|split; [|split; [|split; [|split; [|split]]]]].
  - pose proof (processCodeContent_calls env this content context w). lia.
  - apply candidates_length.
  - apply detectErrors_calls.
  - apply generateSuggestions_calls.
  - apply (respects_findRelevantSnippets sameCalls).
  - intros error. apply (storage_sameCalls env).
  - intros errorText language. apply (respects_getErrorSolutions sameCalls).
Qed.

(** ** The keys of the tables *)

(** X3. When no [id] occurs twice in [snippets] or [error_patterns] and no
    key twice in [developer_context], the same holds after each function that
    writes to the store and after a run of the pipeline, whether they return
    or throw. *)
Theorem store_keys_stay_unique (env : Env) (this : AIHelper) (w : World) :
  wellKeyed w ->
  (forall snippet, wellKeyed (snd (saveSnippet env snippet w)))
  /\ (forall error, wellKeyed (snd (recordError env error w)))
  /\ (forall context, wellKeyed (snd (updateDeveloperContext env context w)))
  /\ (forall daysToKeep, wellKeyed (snd (cleanupOldData env daysToKeep w)))
  /\ (forall content context,
        wellKeyed (snd (processCodeContent env this content context w))).
Proof.
  intros Hw. split; [|split; [|split; [|split]]]; intros.
  - now apply respects_saveSnippet.
  - now apply respects_recordError.
  - now apply respects_updateDeveloperContext.
  - now apply respects_cleanupOldData.
  - apply (respects_processCodeContent keepsKeys env); [| |exact Hw].
    + intros e. apply respects_recordError.
    + intros c. apply respects_updateDeveloperContext.
Qed.

(** ** The pipeline without a language *)

Lemma storageCalls_record (e : event) (w : World) :
  storageCalls (record e w) = storageCalls w + (if isStorage e then 1 else 0).
Proof.
  unfold storageCalls, record. simpl. rewrite List.filter_app, length_app. simpl.
  destruct (isStorage e); reflexivity.
Qed.

Lemma generateErrorSolution_no_storage (env : Env) (this : AIHelper) (error : jsstring)
    (language : option jsstring) (w : World) :
  exists r w',
    generateErrorSolution env this error language w = (Ok r, w')
    /\ sameTables w w' /\ storageCalls w' = storageCalls w.
Proof.
  rewrite generateErrorSolution_run. eexists _, _. split; [reflexivity|].
  split; [split; [|split; [|split]]; reflexivity|].
  unfold storageCalls. simpl. rewrite List.filter_app, length_app.
  destruct (completion env _ _); simpl; lia.
Qed.

Lemma detectLoop_without_language (env : Env) (this : AIHelper)
    (patterns : list (jsstring -> option jsstring)) (code : jsstring)
    (language : option jsstring) (foundErrors : list FoundError) (w : World) :
  truthy language = false ->
  exists r w',
    detectLoop env this patterns code language foundErrors w = (Ok r, w')
    /\ sameTables w w' /\ storageCalls w' = storageCalls w.
Proof.
  intros Hlang. revert foundErrors w.
  induction patterns as [|p ps IH]; intros foundErrors w; simpl.
  - eexists _, _. split; [reflexivity|]. split; [apply frame_refl|reflexivity].
  - destruct (Regex.search p code) as [errorText|]; [|apply IH].
    unfold detectCandidate. rewrite Hlang.
    unfold mbind at 1, M_bind at 1. unfold mbind at 1, M_bind at 1.
    unfold mret at 1, M_ret at 1.
    change (0 <? length (@nil ErrorPattern)) with false. cbv iota.
    unfold mbind at 1, M_bind at 1.
    destruct (generateErrorSolution_no_storage env this errorText language w)
      as (r & w1 & -> & Ht & Hs).
    assert (Hnext : exists found', (match r with
                      | Some aiSolution =>
                          mret (foundErrors
                                ++ [ {| error := errorText;
                                        found_solution := aiSolution |} ])
                      | None => mret foundErrors
                      end : M (list FoundError)) w1 = (Ok found', w1))
      by (destruct r; eexists; reflexivity).
    destruct Hnext as [found' ->].
    destruct (IH found' w1) as (r' & w' & -> & Ht' & Hs').
    eexists _, _. split; [reflexivity|].
    split; [eapply frame_trans; eassumption|congruence].
Qed.

Lemma generateSuggestions_total (env : Env) (this : AIHelper) (code : jsstring)
    (filePath language : option jsstring) (w : World) :
  exists out w', generateSuggestions env this code filePath language w = (Ok out, w').
Proof.
  rewrite generateSuggestions_run.
  destruct (getCurrentContext env w) as [[c|e] w1]; [|eauto].
  destruct (getSnippets env _ w1) as [[sn|e] w2]; [|eauto].
  cbv zeta. destruct (completion env _ _) as [|[content|]]; eauto.
Qed.

Lemma findRelevantSnippets_total (env : Env) (code : jsstring)
    (language : option jsstring) (w : World) :
  exists r w', findRelevantSnippets env code language w = (Ok r, w').
Proof.
  unfold findRelevantSnippets.
  destruct (trim code) as [|c0 t0]; [eexists _, _; reflexivity|].
  unfold try_catch, mbind, M_bind, consoleError, modify, mret, M_ret.
  destruct (getSnippets env _ w) as [[exact|e] w1]; [|eauto].
  destruct (0 <? length exact); [eauto|].
  unfold generateEmbedding, mbind, M_bind, modify, mret, M_ret. cbv beta iota zeta.
  destruct (getSnippets env _ _) as [[allSnippets|e] w2]; [|eauto].
  destruct (scoreSnippets_run env [] allSnippets w2) as (scored & w3 & -> & _). eauto.
Qed.

Lemma updateDeveloperContext_run_if (env : Env) (context : ContextUpdate) (w : World) :
  db_fault env (length (trace w)) = false ->
  db_fault env (length (trace w) + 2) = false ->
  let now := clock env (length (trace w) + 1) in
  let row :=
    {| DeveloperContext.currentApp :=
         orElse (ContextUpdate.currentApp context) (lit "unknown");
       DeveloperContext.activeFile := ContextUpdate.activeFile context;
       DeveloperContext.projectRoot := ContextUpdate.projectRoot context;
       DeveloperContext.lastActivity := now |} in
  let key := Query.nextKey (context_seq w) (developer_context w) in
  updateDeveloperContext env context w
  = (Ok tt,
     {| snippets := snippets w; error_patterns := error_patterns w;
        developer_context := developer_context w ++ [(key, row)];
        context_seq := key;
        trace := trace w ++ [EvGetDb; EvNow now; EvSql (InsertContext row)] |}).
Proof.
  intros H0 H2. unfold updateDeveloperContext.
  unfold mbind, M_bind, mret, M_ret, getDb, sql, storage, gets, modify, newDate.
  rewrite H0. cbv beta iota zeta.
  rewrite !trace_record, !length_app. simpl length.
  rewrite <- !Nat.add_assoc. simpl Nat.add. rewrite H2.
  unfold set_developer_context, record. simpl. rewrite <- !app_assoc. reflexivity.
Qed.

Lemma detector_without_language (env : Env) (this : AIHelper) (code : jsstring)
    (language : option jsstring) (w : World) :
  truthy language = false ->
  exists r w',
    detectErrors env this code language w = (Ok r, w')
    /\ (sameSnippets w w' /\ sameErrorPatterns w w'
        /\ developer_context w' = developer_context w
        /\ storageCalls w' = storageCalls w).
Proof.
  intros Hlang. unfold detectErrors, mbind, M_bind.
  destruct (detectLoop_without_language env this errorPatterns code language [] w Hlang)
    as (r & w' & -> & (Hs & He & Hc & _) & Hst).
  eexists _, _. split; [reflexivity|]. auto.
Qed.

(** X4. Without a language the detector neither reads nor writes the store
    and cannot throw: it returns, the tables are as before, and no call
    reached the storage engine. *)
Theorem detectErrors_without_language (env : Env) (this : AIHelper) (code : jsstring)
    (language : option jsstring) (w : World) :
  truthy language = false ->
  exists r w',
    detectErrors env this code language w = (Ok r, w')
    /\ sameTables w w'
    /\ storageCalls w' = storageCalls w.
Proof.
  intros Hlang. unfold detectErrors, mbind, M_bind.
  destruct (detectLoop_without_language env this errorPatterns code language [] w Hlang)
    as (r & w' & -> & Ht & Hs).
  eexists _, _. split; [reflexivity|]. split; assumption.
Qed.

(** X5. Without a language, which is how [monitorScreenActivity] calls it,
    the pipeline fails exactly when the context updater fails.  When the two
    storage calls of the updater succeed, the pipeline returns whatever the
    storage engine and the completion API do afterwards, and the store differs
    by the one context row: its application is the [sourceApp] of the call,
    or ["unknown"] when that is the empty string (which is what
    [monitorScreenActivity] passes for a window without an application name);
    its file is the [filePath] of the call, it has no project root, and its
    stamp is the instant the updater read, not the one the pipeline passed.
    When one of the two storage calls fails, the pipeline throws and the three
    tables are as before. *)
Theorem pipeline_without_language (env : Env) (this : AIHelper) (content : jsstring)
    (context : CodeContext) (w : World) :
  truthy (ctx_language context) = false ->
  (db_fault env (length (trace w) + 1) = false ->
   db_fault env (length (trace w) + 3) = false ->
   exists result w' key,
     processCodeContent env this content context w = (Ok result, w')
     /\ snippets w' = snippets w
     /\ error_patterns w' = error_patterns w
     /\ developer_context w'
        = developer_context w
          ++ [(key,
               {| DeveloperContext.currentApp :=
                    match ctx_sourceApp context with
                    | [] => lit "unknown"
                    | _ :: _ => ctx_sourceApp context
                    end;
                  DeveloperContext.activeFile := ctx_filePath context;
                  DeveloperContext.projectRoot := None;
                  DeveloperContext.lastActivity := clock env (length (trace w) + 2) |})])
  /\
  (db_fault env (length (trace w) + 1) = true
   \/ db_fault env (length (trace w) + 3) = true ->
   exists w',
     processCodeContent env this content context w = (Throw StorageError, w')
     /\ snippets w' = snippets w
     /\ error_patterns w' = error_patterns w
     /\ developer_context w' = developer_context w).
Proof.
  intros Hlang.
  set (w0 := record (EvNow (clock env (length (trace w)))) w).
  assert (Hlen : length (trace w0) = length (trace w) + 1)
    by (unfold w0; rewrite trace_record, length_app; reflexivity).
  split.
  - intros H1 H3.
    unfold processCodeContent.
    unfold mbind at 1, M_bind at 1. unfold newDate at 1. fold w0.
    unfold mbind at 1, M_bind at 1.
    assert (H1' : db_fault env (length (trace w0)) = false) by (rewrite Hlen; exact H1).
    assert (H3' : db_fault env (length (trace w0) + 2) = false)
      by (rewrite Hlen, <- Nat.add_assoc; exact H3).
    rewrite (updateDeveloperContext_run_if env _ w0 H1' H3').
    cbv zeta. set (w1 := {| snippets := snippets w0 |}).
    unfold mbind, M_bind, promiseAll3.
    destruct (detector_without_language env this content _ w1 Hlang)
      as (r1 & w2 & -> & (Hs2 & He2 & Hc2 & _)).
    pose proof (respects_generateSuggestions sameTables env this content
                  (ctx_filePath context) (ctx_language context) w2) as (Hs3 & He3 & Hc3 & _).
    destruct (generateSuggestions_total env this content (ctx_filePath context)
                (ctx_language context) w2) as (r2 & w3 & Hrun3).
    rewrite Hrun3 in *. simpl in Hs3, He3, Hc3.
    pose proof (respects_findRelevantSnippets sameTables env content
                  (ctx_language context) w3) as (Hs4 & He4 & Hc4 & _).
    destruct (findRelevantSnippets_total env content (ctx_language context) w3)
      as (r3 & w4 & Hrun4).
    rewrite Hrun4 in *. simpl in Hs4, He4, Hc4.
    eexists _, w4, _. split; [reflexivity|].
    unfold sameSnippets, sameErrorPatterns in *.
    split; [rewrite Hs4, Hs3, Hs2; reflexivity|].
    split; [rewrite He4, He3, He2; reflexivity|].
    rewrite Hc4, Hc3, Hc2. unfold w1. cbn [developer_context].
    rewrite Hlen, <- Nat.add_assoc.
    cbn [ContextUpdate.currentApp ContextUpdate.activeFile ContextUpdate.projectRoot].
    destruct (ctx_sourceApp context); reflexivity.
  - intros Hfault.
    set (update := {| ContextUpdate.currentApp := Some (ctx_sourceApp context);
                      ContextUpdate.activeFile := ctx_filePath context;
                      ContextUpdate.projectRoot := None;
                      ContextUpdate.lastActivity :=
                        Some (clock env (length (trace w))) |}).
    destruct (updateDeveloperContext_propagates env update w0) as (w' & Hrun & Hctx).
    { rewrite Hlen, <- Nat.add_assoc. exact Hfault. }
    exists w'. split; [now apply processCodeContent_updater_first|].
    pose proof (proj1 (respects_updateDeveloperContext env update) w0) as Hs.
    pose proof (proj1 (proj2 (respects_updateDeveloperContext env update)) w0) as He.
    rewrite Hrun in Hs, He. simpl in Hs, He.
    unfold sameSnippets, sameErrorPatterns in *.
    split; [rewrite Hs; reflexivity|]. split; [rewrite He; reflexivity|].
    rewrite Hctx. reflexivity.
Qed.

(** ** The signatures *)

Lemma takeWhile_dropWhile (p : N -> bool) (s : jsstring) :
  takeWhile p s ++ dropWhile p s = s.
Proof.
  induction s as [|c s IH]; simpl; [reflexivity|].
  destruct (p c); simpl; [now rewrite IH|reflexivity].
Qed.

Lemma matchLit_split (i : bool) (w s m r : jsstring) :
  Regex.matchLit i w s = Some (m, r) -> s = m ++ r /\ length m = length w.
Proof.
  revert s m r. induction w as [|c w IH]; intros s m r; simpl.
  - intros [= <- <-]. auto.
  - destruct s as [|d s]; [discriminate|].
    destruct (Regex.charEq i c d); [|discriminate].
    destruct (Regex.matchLit i w s) as [[m' r']|] eqn:E; [|discriminate].
    intros [= <- <-]. destruct (IH _ _ _ E) as [-> Hlen]. simpl. auto.
Qed.

Lemma matchLit_head (w s m r : jsstring) (c : N) :
  Regex.matchLit false (c :: w) s = Some (m, r) -> exists s', s = c :: s'.
Proof.
  simpl. destruct s as [|d s]; [discriminate|].
  destruct (N.eqb_spec c d) as [->|]; [eauto|discriminate].
Qed.

Lemma spacesThenLine_prefix (s : jsstring) : exists b, s = Regex.spacesThenLine s ++ b.
Proof.
  unfold Regex.spacesThenLine.
  exists (dropWhile (fun c => negb (isLineTerminator c)) (dropWhile isWhiteSpace s)).
  rewrite <- app_assoc, takeWhile_dropWhile, takeWhile_dropWhile. reflexivity.
Qed.

Lemma colonSpacesThenLine_prefix (s m : jsstring) :
  Regex.colonSpacesThenLine s = Some m -> exists b, s = m ++ b.
Proof.
  unfold Regex.colonSpacesThenLine. destruct s as [|c s]; [discriminate|].
  destruct (c =? colon)%N; [|discriminate]. intros [= <-].
  destruct (spacesThenLine_prefix s) as [b Hb]. exists b. simpl. now rewrite <- Hb.
Qed.

(** An alternation of words that are not empty matches a prefix that is not
    empty, when the rest of the expression matches a prefix. *)
Lemma alt_prefix (i : bool) (ws : list jsstring) (k : jsstring -> option jsstring)
    (s m : jsstring) :
  (forall r m', k r = Some m' -> exists b, r = m' ++ b) ->
  Forall (fun w => w <> []) ws ->
  Regex.alt i ws k s = Some m ->
  m <> [] /\ exists b, s = m ++ b.
Proof.
  intros Hk Hws. induction Hws as [|w ws Hw _ IH]; simpl; [discriminate|].
  destruct (Regex.matchLit i w s) as [[m0 r]|] eqn:E; [|exact IH].
  destruct (k r) as [m'|] eqn:Ek; [|exact IH].
  intros [= <-]. destruct (matchLit_split _ _ _ _ _ E) as [-> Hlen].
  destruct (Hk _ _ Ek) as [b ->]. split.
  - destruct m0; [destruct w; [contradiction|discriminate]|discriminate].
  - exists b. now rewrite <- app_assoc.
Qed.

(** A case-sensitive alternation matches only where the text starts with the
    first letter of one of its words. *)
Lemma alt_head (ws : list jsstring) (k : jsstring -> option jsstring) (s m : jsstring) :
  Forall (fun w => w <> []) ws ->
  Regex.alt false ws k s = Some m ->
  exists c w s', In (c :: w) ws /\ s = c :: s'.
Proof.
  intros Hws. induction Hws as [|w ws Hw _ IH]; simpl; [discriminate|].
  destruct (Regex.matchLit false w s) as [[m0 r]|] eqn:E.
  - intros _. destruct w as [|c w]; [contradiction|].
    destruct (matchLit_head _ _ _ _ _ E) as [s' ->]. exists c, w, s'. auto.
  - intros H. destruct (IH H) as (c & w' & s' & Hin & ->). exists c, w', s'. auto.
Qed.

Lemma search_Some (re : jsstring -> option jsstring) (code m : jsstring) :
  Regex.search re code = Some m -> exists a s, code = a ++ s /\ re s = Some m.
Proof.
  induction code as [|c code IH]; simpl.
  - destruct (re []) eqn:E; [|discriminate]. intros [= <-]. exists [], []. auto.
  - destruct (re (c :: code)) eqn:E.
    + intros [= <-]. exists [], (c :: code). auto.
    + intros H. destruct (IH H) as (a & s & -> & Hs). exists (c :: a), s. auto.
Qed.

Lemma search_finds (re : jsstring -> option jsstring) (a s : jsstring) :
  re s <> None -> Regex.search re (a ++ s) <> None.
Proof.
  intros Hs. induction a as [|c a IH]; simpl.
  - destruct s; simpl; destruct (re _); congruence.
  - destruct (re (c :: a ++ s)); [discriminate|exact IH].
Qed.

Lemma signature_prefix (re : jsstring -> option jsstring) (s m : jsstring) :
  In re errorPatterns -> re s = Some m -> m <> [] /\ exists b, s = m ++ b.
Proof.
  assert (Hwords : forall ws : list string,
            Forall (fun w => w <> []) (List.map lit ws) <-> forallb (fun w =>
              match w with EmptyString => false | _ => true end) ws = true).
  { induction ws as [|w ws IH]; simpl.
    - split; [reflexivity|constructor].
    - rewrite andb_true_iff, <- IH. split.
      + intros H. inversion H; subst. split; [|assumption].
        destruct w; [now contradiction H2|reflexivity].
      + intros [Hw H]. constructor; [|assumption]. destruct w; [discriminate|].
        discriminate. }
  intros [<-|[<-|[<-|[<-|[]]]]]; unfold Regex.reError, Regex.reTyped, Regex.reCode,
    Regex.reException; apply alt_prefix.
  - intros r m'. destruct (Regex.colonSpacesThenLine _) as [m0|] eqn:E; [|discriminate].
    intros [= <-]. destruct (colonSpacesThenLine_prefix _ _ E) as [b Hb].
    exists b. rewrite <- app_assoc, <- Hb. now rewrite takeWhile_dropWhile.
  - apply (Hwords ["error"%string]). reflexivity.
  - apply colonSpacesThenLine_prefix.
  - apply (Hwords ["SyntaxError"; "TypeError"; "ReferenceError"]%string). reflexivity.
  - intros r m'. destruct (takeWhile isDigit r) as [|d ds] eqn:Ed; [discriminate|].
    destruct (Regex.colonSpacesThenLine _) as [m0|] eqn:E; [|discriminate].
    intros [= <-]. destruct (colonSpacesThenLine_prefix _ _ E) as [b Hb].
    exists b. transitivity ((d :: ds) ++ m0 ++ b); [|simpl; now rewrite app_assoc].
    rewrite <- Hb, <- Ed. symmetry. apply takeWhile_dropWhile.
  - apply (Hwords ["E"%string]). reflexivity.
  - intros r m' [= <-]. apply spacesThenLine_prefix.
  - apply (Hwords ["exception"; "unhandled"]%string). reflexivity.
Qed.

Lemma candidatesOf_In (patterns : list (jsstring -> option jsstring))
    (code m : jsstring) :
  In m (candidatesOf patterns code) <->
  exists re, In re patterns /\ Regex.search re code = Some m.
Proof.
  unfold candidatesOf. rewrite <- list_elem_of_In, list_elem_of_omap.
  split; intros (re & Hin & H); exists re; (split; [|exact H]);
    now apply list_elem_of_In.
Qed.

Lemma candidate_piece (code m : jsstring) :
  In m (candidates code) ->
  m <> [] /\ exists a b, code = a ++ m ++ b.
Proof.
  intros H. apply candidatesOf_In in H. destruct H as (re & Hre & Hsearch).
  destruct (search_Some _ _ _ Hsearch) as (a & s & -> & Hs).
  destruct (signature_prefix re s m Hre Hs) as (Hm & b & ->). eauto.
Qed.

(** X6. Every candidate error string is a piece of the text that is not
    empty: the text is something, then the candidate, then something. *)
Theorem candidates_are_substrings (code m : jsstring) :
  In m (candidates code) ->
  m <> [] /\ exists a b, code = a ++ m ++ b.
Proof. apply candidate_piece. Qed.

Lemma detectCandidate_entries (env : Env) (this : AIHelper) (language : option jsstring)
    (errorText : jsstring) (foundErrors found' : list FoundError) (w w' : World) :
  detectCandidate env this language errorText foundErrors w = (Ok found', w') ->
  exists l, found' = foundErrors ++ l /\ List.Forall (fun f => error f = errorText) l.
Proof.
  assert (Hnone : exists l, foundErrors = foundErrors ++ l
                            /\ List.Forall (fun f => error f = errorText) l)
    by (exists []; split; [now rewrite app_nil_r|constructor]).
  assert (Hone : forall s, exists l,
            foundErrors ++ [ {| error := errorText; found_solution := s |} ]
            = foundErrors ++ l
            /\ List.Forall (fun f => error f = errorText) l)
    by (intros s; eexists; split; [reflexivity|repeat constructor]).
  unfold detectCandidate. destruct (truthy language) eqn:Hlang.
  - unfold mbind at 1, M_bind at 1.
    destruct (getErrorSolutions env errorText _ w) as [[dbs|e] w1]; [|discriminate].
    destruct (0 <? length dbs).
    + intros [= <- _]. eexists. split; [reflexivity|].
      apply List.Forall_forall. intros f Hf. apply in_map_iff in Hf.
      destruct Hf as (sol & <- & _). reflexivity.
    + unfold mbind at 1, M_bind at 1. rewrite generateErrorSolution_run.
      destruct (completion env _ _) as [|[c|]]; try (intros [= <- _]; exact Hnone).
      destruct (trim c) as [|t0 ts]; [intros [= <- _]; exact Hnone|].
      unfold mbind, M_bind.
      destruct (recordError env _ _) as [[r|e] w4]; [|discriminate].
      intros [= <- _]. apply Hone.
  - unfold mbind at 1, M_bind at 1. unfold mret at 1, M_ret at 1.
    change (0 <? length (@nil ErrorPattern)) with false. cbv iota.
    unfold mbind at 1, M_bind at 1. rewrite generateErrorSolution_run.
    destruct (completion env _ _) as [|[c|]]; try (intros [= <- _]; exact Hnone).
    destruct (trim c) as [|t0 ts]; [intros [= <- _]; exact Hnone|].
    intros [= <- _]. apply Hone.
Qed.

Lemma detectLoop_entries (env : Env) (this : AIHelper)
    (patterns : list (jsstring -> option jsstring)) (code : jsstring)
    (language : option jsstring) (foundErrors found' : list FoundError) (w w' : World) :
  detectLoop env this patterns code language foundErrors w = (Ok found', w') ->
  exists l, found' = foundErrors ++ l
            /\ List.Forall (fun f => In (error f) (candidatesOf patterns code)) l.
Proof.
  revert foundErrors w. induction patterns as [|p ps IH]; intros foundErrors w; simpl.
  - intros [= <- _]. exists []. split; [now rewrite app_nil_r|constructor].
  - unfold candidatesOf in *. simpl.
    destruct (Regex.search p code) as [errorText|]; [|apply IH].
    unfold mbind, M_bind.
    destruct (detectCandidate env this language errorText foundErrors w)
      as [[found1|e] w1] eqn:Hc; [|discriminate].
    intros H. destruct (detectCandidate_entries _ _ _ _ _ _ _ _ Hc) as (l1 & -> & Hl1).
    destruct (IH _ _ H) as (l2 & -> & Hl2).
    exists (l1 ++ l2). split; [now rewrite app_assoc|].
    apply List.Forall_app. split.
    + eapply List.Forall_impl; [|exact Hl1]. intros f ->. now left.
    + eapply List.Forall_impl; [|exact Hl2]. intros f Hf. now right.
Qed.

(** X7. The detector reports only what a signature matched.  When it returns
    a list, the list is not empty and the error of each entry is a candidate
    of the text, so a piece of the text that is not empty; and when no
    signature matches, it returns [undefined] at once and does nothing. *)
Theorem detectErrors_reports_candidates (env : Env) (this : AIHelper) (code : jsstring)
    (language : option jsstring) (w : World) :
  (forall found w',
     detectErrors env this code language w = (Ok (Some found), w') ->
     found <> []
     /\ forall f, In f found ->
          In (error f) (candidates code)
          /\ error f <> []
          /\ exists a b, code = a ++ error f ++ b)
  /\ (candidates code = [] -> detectErrors env this code language w = (Ok None, w)).
Proof.
  split.
  - intros found w'. unfold detectErrors, mbind, M_bind.
    destruct (detectLoop env this errorPatterns code language [] w)
      as [[found1|e] w1] eqn:Hloop; [|discriminate].
    destruct (0 <? length found1) eqn:Hlen; [|discriminate].
    intros [= <- _]. split; [destruct found1; [discriminate|discriminate]|].
    destruct (detectLoop_entries _ _ _ _ _ _ _ _ _ Hloop) as (l & Hl & Hall).
    simpl in Hl. subst l. intros f Hf.
    rewrite List.Forall_forall in Hall. specialize (Hall f Hf).
    split; [exact Hall|]. now apply candidate_piece.
  - unfold candidates, candidatesOf, detectErrors, errorPatterns. simpl.
    destruct (Regex.search Regex.reError code); [discriminate|].
    destruct (Regex.search Regex.reTyped code); [discriminate|].
    destruct (Regex.search Regex.reCode code); [discriminate|].
    destruct (Regex.search Regex.reException code); [discriminate|].
    reflexivity.
Qed.

Lemma lower_suffix (a s : jsstring) :
  forallb (fun c => negb (isUpperAscii c)) (a ++ s) = true ->
  forallb (fun c => negb (isUpperAscii c)) s = true.
Proof. rewrite forallb_app, andb_true_iff. tauto. Qed.

Lemma search_case_sensitive_None (ws : list jsstring) (k : jsstring -> option jsstring)
    (code : jsstring) :
  Forall (fun w => w <> []) ws ->
  (forall c w, In (c :: w) ws -> isUpperAscii c = true) ->
  forallb (fun c => negb (isUpperAscii c)) code = true ->
  Regex.search (Regex.alt false ws k) code = None.
Proof.
  intros Hws Hupper Hlower.
  destruct (Regex.search _ code) as [m|] eqn:E; [|reflexivity]. exfalso.
  destruct (search_Some _ _ _ E) as (a & s & -> & Hs).
  destruct (alt_head _ _ _ _ Hws Hs) as (c & w & s' & Hin & ->).
  apply lower_suffix in Hlower. simpl in Hlower.
  rewrite (Hupper c w Hin) in Hlower. discriminate.
Qed.

(** X8. A text without upper-case ASCII letters, such as every text
    [monitorScreenActivity] passes on after [toLowerCase], is never matched by
    the two case-sensitive signatures (the typed errors and the error codes):
    its candidates come from the other two signatures, they are at most two,
    and a run of the pipeline on it calls the completion API at most three
    times. *)
Theorem lower_case_text_candidates (code : jsstring) :
  forallb (fun c => negb (isUpperAscii c)) code = true ->
  Regex.search Regex.reTyped code = None
  /\ Regex.search Regex.reCode code = None
  /\ candidates code = candidatesOf [Regex.reError; Regex.reException] code
  /\ length (candidates code) <= 2
  /\ forall env this context w,
       apiCalls (snd (processCodeContent env this code context w)) <= apiCalls w + 3.
Proof.
  intros Hlower.
  assert (Htyped : Regex.search Regex.reTyped code = None).
  { apply search_case_sensitive_None; [repeat constructor; discriminate| |exact Hlower].
    intros c w [[= <- _]|[[= <- _]|[[= <- _]|[]]]]; reflexivity. }
  assert (Hcode : Regex.search Regex.reCode code = None).
  { apply search_case_sensitive_None; [repeat constructor; discriminate| |exact Hlower].
    intros c w [[= <- _]|[]]. reflexivity. }
  assert (Hcand : candidates code = candidatesOf [Regex.reError; Regex.reException] code).
  { unfold candidates, candidatesOf. simpl. rewrite Htyped, Hcode. reflexivity. }
  assert (Hlen : length (candidates code) <= 2).
  { rewrite Hcand. unfold candidatesOf. simpl.
    destruct (Regex.search Regex.reError code), (Regex.search Regex.reException code);
      simpl; lia. }
  repeat split; try assumption.
  intros env this context w.
  pose proof (processCodeContent_calls env this code context w). lia.
Qed.

(** X9. A text that contains the name of a typed error followed by a colon is
    matched by the typed signature; the match starts with one of the three
    names and a colon, and it is one of the candidates of the text. *)
Theorem typed_signature_complete (a b name : jsstring) :
  In name [lit "SyntaxError"; lit "TypeError"; lit "ReferenceError"] ->
  exists m found rest,
    Regex.search Regex.reTyped (a ++ name ++ colon :: b) = Some m
    /\ In found [lit "SyntaxError"; lit "TypeError"; lit "ReferenceError"]
    /\ m = found ++ colon :: rest
    /\ In m (candidates (a ++ name ++ colon :: b)).
Proof.
  intros Hname.
  assert (Hhere : Regex.reTyped (name ++ colon :: b) <> None).
  { destruct Hname as [<-|[<-|[<-|[]]]]; discriminate. }
  pose proof (search_finds Regex.reTyped a _ Hhere) as Hsearch.
  destruct (Regex.search Regex.reTyped (a ++ name ++ colon :: b)) as [m|] eqn:E;
    [|contradiction].
  destruct (search_Some _ _ _ E) as (a' & s & _ & Hs).
  assert (Hshape : exists found rest,
            In found [lit "SyntaxError"; lit "TypeError"; lit "ReferenceError"]
            /\ m = found ++ colon :: rest).
  { revert Hs. unfold Regex.reTyped. generalize
      [lit "SyntaxError"; lit "TypeError"; lit "ReferenceError"].
    intros ws. induction ws as [|w ws IH]; simpl; [discriminate|].
    destruct (Regex.matchLit false w s) as [[m0 r]|] eqn:Ew.
    - destruct (Regex.colonSpacesThenLine r) as [m'|] eqn:Ek.
      + intros [= <-]. unfold Regex.colonSpacesThenLine in Ek.
        destruct r as [|c r]; [discriminate|].
        destruct (c =? colon)%N eqn:Ec; [|discriminate].
        apply N.eqb_eq in Ec. subst c. injection Ek as <-.
        assert (m0 = w) as ->.
        { revert Ew. clear. revert s m0. induction w as [|x w IH]; intros s m0; simpl.
          - now intros [= <- _].
          - destruct s as [|d s]; [discriminate|]. simpl.
            destruct (N.eqb_spec x d) as [->|]; [|discriminate].
            destruct (Regex.matchLit false w s) as [[m1 r1]|] eqn:E1; [|discriminate].
            intros [= <- ->]. f_equal. eapply IH. exact E1. }
        exists w, (Regex.spacesThenLine r). split; [now left|reflexivity].
      + intros H. destruct (IH H) as (f & rest & Hin & ->). exists f, rest. auto.
    - intros H. destruct (IH H) as (f & rest & Hin & ->). exists f, rest. auto. }
  destruct Hshape as (found & rest & Hin & ->).
  exists (found ++ colon :: rest), found, rest. repeat split; try assumption.
  apply candidatesOf_In. exists Regex.reTyped. split; [right; now left|exact E].
Qed.

(** ** Saving and finding snippets *)

Lemma saveSnippet_run (env : Env) (snippet : NewSnippet) (w : World) :
  reliable env ->
  let id := uuid env (length (trace w) + 1) in
  let now := clock env (length (trace w) + 2) in
  let fullSnippet :=
    {| CodeSnippet.id := id;
       CodeSnippet.content := NewSnippet.content snippet;
       CodeSnippet.language := NewSnippet.language snippet;
       CodeSnippet.tags := NewSnippet.tags snippet;
       CodeSnippet.filePath := NewSnippet.filePath snippet;
       CodeSnippet.projectContext := NewSnippet.projectContext snippet;
       CodeSnippet.timestamp := now;
       CodeSnippet.sourceApp := NewSnippet.sourceApp snippet;
       CodeSnippet.favorited := default false (NewSnippet.favorited snippet) |} in
  let events := [EvGetDb; EvUuid id; EvNow now; EvSql (InsertSnippet fullSnippet)] in
  saveSnippet env snippet w
  = if existsb (fun r => Js.eqb (CodeSnippet.id r) id) (snippets w)
    then (Throw StorageError,
          {| snippets := snippets w; error_patterns := error_patterns w;
             developer_context := developer_context w; context_seq := context_seq w;
             trace := trace w ++ events |})
    else (Ok fullSnippet,
          {| snippets := snippets w ++ [fullSnippet]; error_patterns := error_patterns w;
             developer_context := developer_context w; context_seq := context_seq w;
             trace := trace w ++ events |}).
Proof.
  intros Hdb id now fullSnippet events.
  unfold saveSnippet, insertSnippet. run_storage Hdb. fold id now fullSnippet.
  destruct (existsb _ (snippets w)); unfold set_snippets, record; simpl;
    rewrite <- !app_assoc; reflexivity.
Qed.

(** X10. [saveSnippet] gives the snippet a fresh [id] and the current instant
    and appends it, and returns the row it stored; [favorited] is false when
    it was left out; the other two tables are left alone.  When the [id] it
    drew is already the [id] of a snippet, the primary key refuses the row:
    the call throws and the three tables are as before. *)
Theorem saveSnippet_stores_row (env : Env) (snippet : NewSnippet) (w : World) :
  reliable env ->
  let id := uuid env (length (trace w) + 1) in
  ((forall s, In s (snippets w) -> CodeSnippet.id s <> id) ->
   exists stored w',
     saveSnippet env snippet w = (Ok stored, w')
     /\ snippets w' = snippets w ++ [stored]
     /\ sameErrorPatterns w w' /\ sameContext w w'
     /\ CodeSnippet.id stored = id
     /\ CodeSnippet.timestamp stored = clock env (length (trace w) + 2)
     /\ CodeSnippet.favorited stored = default false (NewSnippet.favorited snippet)
     /\ CodeSnippet.content stored = NewSnippet.content snippet
     /\ CodeSnippet.language stored = NewSnippet.language snippet
     /\ CodeSnippet.tags stored = NewSnippet.tags snippet
     /\ CodeSnippet.filePath stored = NewSnippet.filePath snippet
     /\ CodeSnippet.projectContext stored = NewSnippet.projectContext snippet
     /\ CodeSnippet.sourceApp stored = NewSnippet.sourceApp snippet)
  /\
  ((exists s, In s (snippets w) /\ CodeSnippet.id s = id) ->
   exists w', saveSnippet env snippet w = (Throw StorageError, w') /\ sameTables w w').
Proof.
  intros Hdb id. rewrite (saveSnippet_run env snippet w Hdb). cbv zeta. fold id. split.
  - intros Hfresh.
    assert (Hex : existsb (fun r => Js.eqb (CodeSnippet.id r) id) (snippets w) = false).
    { apply not_true_is_false. intros H. apply existsb_exists in H.
      destruct H as (s & Hs & Hid). apply eqb_eq in Hid. now apply (Hfresh s). }
    rewrite Hex. eexists _, _. split; [reflexivity|].
    repeat split; reflexivity.
  - intros (s & Hs & Hid).
    assert (Hex : existsb (fun r => Js.eqb (CodeSnippet.id r) id) (snippets w) = true).
    { apply existsb_exists. exists s. split; [exact Hs|]. now apply eqb_eq. }
    rewrite Hex. eexists. split; [reflexivity|]. repeat split; reflexivity.
Qed.


Lemma selectSnippets_complete (o : SnippetQuery) (rows : list CodeSnippet) (s : CodeSnippet) :
  match SnippetQuery.limit o with Some (S _) => False | _ => True end ->
  In s rows -> Query.snippetSelected o s = true -> In s (Query.selectSnippets o rows).
Proof.
  intros Hlimit Hin Hsel. unfold Query.selectSnippets.
  assert (H : In s (Sql.orderByDesc CodeSnippet.timestamp
                      (List.filter (Query.snippetSelected o) rows)))
    by (apply orderByDesc_In, filter_In; auto).
  destruct (SnippetQuery.limit o) as [[|n]|]; [exact H|contradiction|exact H].
Qed.



Lemma likeFails_not_complex (o : SnippetQuery) (rows : list CodeSnippet) :
  (truthy (SnippetQuery.searchTerm o) = true ->
   Sql.tooComplex (Sql.containing (orElse (SnippetQuery.searchTerm o) [])) = false) ->
  Query.likeFails o rows = false.
Proof.
  intros H. unfold Query.likeFails.
  destruct (truthy (SnippetQuery.searchTerm o)); [|reflexivity].
  rewrite (H eq_refl). reflexivity.
Qed.


(** X12. [getSnippets] only reads, whether it returns or throws.  The
    statement is refused, and the call throws, when the pattern made of the
    search term has more than 50 000 bytes in UTF-8 and a row of the table
    gets as far as the comparison (a row of the language asked for, any row
    when none is asked for).  Otherwise the call returns rows of the table
    that satisfy the conditions of the query: of the language asked for, and
    with the pattern matching the content or the serialized tags, character by
    character.  They come from the latest stamp to the earliest (for stamps
    of the years 0000 to 9999); with a limit of at least 1 they are at most
    that many; with no limit, or with the limit 0, they are all the rows that
    satisfy the conditions. *)
Theorem getSnippets_result (env : Env) (options : SnippetQuery) (w : World) :
  reliable env ->
  let language := SnippetQuery.language options in
  let term := orElse (SnippetQuery.searchTerm options) [] in
  let pattern := Sql.percent :: term ++ [Sql.percent] in
  let compared (s : CodeSnippet) :=
    truthy language = true -> CodeSnippet.language s = orElse language [] in
  let refused :=
    truthy (SnippetQuery.searchTerm options) = true
    /\ (Sql.maxLikePattern < Sql.utf8Length pattern)%N
    /\ exists s, In s (snippets w) /\ compared s in
  sameTables w (snd (getSnippets env options w))
  /\ (refused -> fst (getSnippets env options w) = Throw LikeError)
  /\ (~ refused ->
      exists rows w',
        getSnippets env options w = (Ok rows, w')
        /\ (fourDigitYears w ->
            StronglySorted (Sql.descending CodeSnippet.timestamp) rows)
        /\ (forall s, In s rows ->
              In s (snippets w)
              /\ compared s
              /\ (truthy (SnippetQuery.searchTerm options) = true ->
                  Sql.like pattern (CodeSnippet.content s) = true
                  \/ Sql.like pattern (Json.stringify (CodeSnippet.tags s)) = true))
        /\ (forall n, SnippetQuery.limit options = Some (S n) -> length rows <= S n)
        /\ (SnippetQuery.limit options = None \/ SnippetQuery.limit options = Some 0 ->
            Permutation rows
              (List.filter (Query.snippetSelected options) (snippets w)))).
Proof.
  intros Hdb language term pattern compared refused.
  assert (Hrefused : refused <-> Query.likeFails options (snippets w) = true).
  { unfold refused, Query.likeFails, Sql.tooComplex, compared.
    fold language term. change (Sql.containing term) with pattern.
    rewrite !andb_true_iff, N.ltb_lt, existsb_exists. split.
    - intros (Ht & Hlong & s & Hs & Hc). split; [split; assumption|].
      exists s. split; [exact Hs|].
      destruct (truthy language); [|reflexivity]. apply eqb_eq. now apply Hc.
    - intros ((Ht & Hlong) & s & Hs & Hc). split; [exact Ht|]. split; [exact Hlong|].
      exists s. split; [exact Hs|]. intros Hl. rewrite Hl in Hc. now apply eqb_eq. }
  pose proof (getSnippets_outcome env Hdb options w) as Hrun.
  destruct (Query.likeFails options (snippets w)) eqn:Hfails.
  - rewrite Hrun. split; [repeat split; reflexivity|]. split; [reflexivity|].
    intros Hnot. elim Hnot. now apply Hrefused.
  - rewrite Hrun. split; [repeat split; reflexivity|]. split.
    { intros H. apply Hrefused in H. discriminate. }
    intros _. eexists _, _. split; [reflexivity|].
    split.
    { intros _. unfold Query.selectSnippets.
      destruct (SnippetQuery.limit options) as [[|n]|];
        try apply take_sorted; apply orderByDesc_sorted. }
    split.
    { intros s Hs. apply selectSnippets_In in Hs. destruct Hs as [Hin Hsel].
      split; [exact Hin|].
      unfold Query.snippetSelected in Hsel. fold language term in Hsel.
      apply andb_true_iff in Hsel. destruct Hsel as [Hlang Hlike]. split.
      - intros Hl. unfold compared. rewrite Hl in Hlang. now apply eqb_eq in Hlang.
      - intros Ht. rewrite Ht in Hlike. cbv zeta in Hlike.
        apply orb_true_iff in Hlike. exact Hlike. }
    split.
    + intros n Hn. now apply selectSnippets_limit.
    + unfold Query.selectSnippets. intros [-> | ->]; apply orderByDesc_perm.
Qed.

(** ** Recording errors and finding them again *)

Lemma recordError_existing_result (env : Env) (error : NewError) (existing : ErrorPattern)
    (w : World) :
  reliable env ->
  let language := NewError.language error in
  let pattern := Sql.containing (substring0 50 (NewError.errorText error)) in
  let now := clock env (length (trace w) + 2) in
  let frequency := addNumber (ErrorPattern.frequency existing) 1 in
  Query.selectSimilarError language pattern (error_patterns w) = Some existing ->
  recordError env error w
  = (Ok {| ErrorPattern.id := ErrorPattern.id existing;
           ErrorPattern.errorText := ErrorPattern.errorText existing;
           ErrorPattern.solution := ErrorPattern.solution existing;
           ErrorPattern.language := ErrorPattern.language existing;
           ErrorPattern.frequency := frequency;
           ErrorPattern.lastEncountered := ErrorPattern.lastEncountered existing |},
     {| snippets := snippets w;
        error_patterns :=
          Query.updateError frequency now (NewError.solution error)
            (ErrorPattern.id existing) (error_patterns w);
        developer_context := developer_context w;
        context_seq := context_seq w;
        trace := trace w
          ++ [EvGetDb; EvSql (SelectSimilarError language pattern); EvNow now;
              EvSql (UpdateError frequency now (NewError.solution error)
                       (ErrorPattern.id existing))] |}).
Proof.
  intros Hdb language pattern now frequency Hex.
  unfold recordError. run_storage Hdb.
  fold language pattern. rewrite Hex. run_storage Hdb.
  unfold set_error_patterns, record; simpl.
  rewrite <- !app_assoc. reflexivity.
Qed.

Lemma updateError_In (f t : Z) (s : jsstring) (rows : list ErrorPattern) (e : ErrorPattern) :
  In e rows ->
  In {| ErrorPattern.id := ErrorPattern.id e;
        ErrorPattern.errorText := ErrorPattern.errorText e;
        ErrorPattern.solution := s;
        ErrorPattern.language := ErrorPattern.language e;
        ErrorPattern.frequency := f;
        ErrorPattern.lastEncountered := t |}
     (Query.updateError f t s (ErrorPattern.id e) rows).
Proof.
  intros H. unfold Query.updateError. apply in_map_iff. exists e.
  rewrite eqb_refl. auto.
Qed.

(** An update leaves the text and the language of every pattern, so the
    patterns a look-up selects are the same ones before and after. *)
Lemma updateError_matches (f t : Z) (s id language pattern : jsstring)
    (rows : list ErrorPattern) :
  List.filter (Query.errorMatches language pattern) (Query.updateError f t s id rows)
  = Query.updateError f t s id (List.filter (Query.errorMatches language pattern) rows).
Proof.
  unfold Query.updateError. induction rows as [|e rows IH]; [reflexivity|]. simpl.
  assert (He : Query.errorMatches language pattern
                 (if Js.eqb (ErrorPattern.id e) id
                  then {| ErrorPattern.id := ErrorPattern.id e;
                          ErrorPattern.errorText := ErrorPattern.errorText e;
                          ErrorPattern.solution := s;
                          ErrorPattern.language := ErrorPattern.language e;
                          ErrorPattern.frequency := f;
                          ErrorPattern.lastEncountered := t |}
                  else e)
               = Query.errorMatches language pattern e)
    by (destruct (Js.eqb (ErrorPattern.id e) id); reflexivity).
  rewrite He. destruct (Query.errorMatches language pattern e); simpl; now rewrite IH.
Qed.

Lemma selectErrorSolutions_nil (language pattern : jsstring) (rows : list ErrorPattern) :
  Query.selectErrorSolutions language pattern rows = []
  <-> List.filter (Query.errorMatches language pattern) rows = [].
Proof.
  unfold Query.selectErrorSolutions, Sql.limit. split.
  - intros H. apply (orderByDesc_nil ErrorPattern.frequency).
    destruct (Sql.orderByDesc _ _); [reflexivity|discriminate].
  - intros ->. reflexivity.
Qed.



(** X13. What [recordError] returns.  For a new pattern it is the row it
    stored.  For a repeat it is the row as it was read before the update, with
    the new frequency only: its solution and its [lastEncountered] are the old
    ones, while the row of the table now has the solution of this call and
    the current instant.  The new frequency is the sum the language gives for
    the old count and 1: one more when the old count is a safe integer, and
    the old count itself at 2^53, where the sum is not a number of the
    language. *)
Theorem recordError_returned_row (env : Env) (error : NewError) (w : World) :
  reliable env ->
  let language := NewError.language error in
  let pattern := Sql.percent :: take 50 (NewError.errorText error) ++ [Sql.percent] in
  (forall existing,
     Query.selectSimilarError language pattern (error_patterns w) = Some existing ->
     let frequency := addNumber (ErrorPattern.frequency existing) 1 in
     exists r w',
       recordError env error w = (Ok r, w')
       /\ ErrorPattern.id r = ErrorPattern.id existing
       /\ ErrorPattern.errorText r = ErrorPattern.errorText existing
       /\ ErrorPattern.language r = ErrorPattern.language existing
       /\ ErrorPattern.frequency r = frequency
       /\ ErrorPattern.solution r = ErrorPattern.solution existing
       /\ ErrorPattern.lastEncountered r = ErrorPattern.lastEncountered existing
       /\ In {| ErrorPattern.id := ErrorPattern.id existing;
                ErrorPattern.errorText := ErrorPattern.errorText existing;
                ErrorPattern.solution := NewError.solution error;
                ErrorPattern.language := ErrorPattern.language existing;
                ErrorPattern.frequency := frequency;
                ErrorPattern.lastEncountered := clock env (length (trace w) + 2) |}
             (error_patterns w')
       /\ (isSafeInteger (ErrorPattern.frequency existing) = true ->
           frequency = (ErrorPattern.frequency existing + 1)%Z)
       /\ (ErrorPattern.frequency existing = 9007199254740992%Z ->
           frequency = 9007199254740992%Z))
  /\
  (Query.selectSimilarError language pattern (error_patterns w) = None ->
   (forall e, In e (error_patterns w) ->
      ErrorPattern.id e <> uuid env (length (trace w) + 2)) ->
   exists r w',
     recordError env error w = (Ok r, w')
     /\ error_patterns w' = error_patterns w ++ [r]
     /\ ErrorPattern.errorText r = NewError.errorText error
     /\ ErrorPattern.solution r = NewError.solution error
     /\ ErrorPattern.language r = NewError.language error
     /\ ErrorPattern.frequency r = 1%Z
     /\ ErrorPattern.lastEncountered r = clock env (length (trace w) + 3)).
Proof.
  intros Hdb language pattern.
  change pattern with (Sql.containing (substring0 50 (NewError.errorText error))).
  split.
  - intros existing Hex frequency.
    rewrite (recordError_existing_result env error existing w Hdb Hex).
    eexists _, _. split; [reflexivity|]. do 6 (split; [reflexivity|]).
    cbn [error_patterns]. split; [|split].
    + apply updateError_In. now apply (selectSimilarError_Some language _ _ _ Hex).
    + apply addNumber_safe.
    + intros Hf. unfold frequency. rewrite Hf. apply addNumber_stuck.
  - intros Hnone Hfresh.
    rewrite (recordError_new_run env Hdb error w Hnone Hfresh).
    eexists _, _. split; [reflexivity|]. repeat split; reflexivity.
Qed.


(** X15. A candidate with cached solutions costs no call of the API and no
    write: with a language, when the look-up returns rows (at most five), the
    detector emits one pair per row, in the order of the rows, each with the
    error string and the solution of the row; the only events are the two of
    the look-up. *)
Theorem detectCandidate_cache_hit (env : Env) (this : AIHelper) (w : World)
    (language : option jsstring) (errorText : jsstring) (foundErrors : list FoundError) :
  reliable env ->
  truthy language = true ->
  let lang := orElse language [] in
  let pattern := Sql.containing (substring0 100 errorText) in
  let cached := Query.selectErrorSolutions lang pattern (error_patterns w) in
  cached <> [] ->
  exists w',
    detectCandidate env this language errorText foundErrors w
    = (Ok (foundErrors
           ++ List.map (fun sol => {| error := errorText;
                                      found_solution := ErrorPattern.solution sol |})
                cached), w')
    /\ 1 <= length cached <= 5
    /\ trace w' = trace w ++ [EvGetDb; EvSql (SelectErrorSolutions lang pattern)]
    /\ sameTables w w'.
Proof.
  intros Hdb Hlang lang pattern cached Hcached.
  unfold detectCandidate. rewrite Hlang.
  unfold mbind at 1, M_bind at 1. rewrite (getErrorSolutions_run env Hdb).
  fold lang pattern cached.
  assert (Hlen : 1 <= length cached <= 5).
  { split; [destruct cached; [contradiction|simpl; lia]|].
    apply selectErrorSolutions_length. }
  assert (Hpos : (0 <? length cached) = true) by (apply Nat.ltb_lt; lia).
  rewrite Hpos. eexists. split; [reflexivity|]. split; [exact Hlen|].
  split; [|repeat split; reflexivity].
  unfold record. simpl. rewrite <- app_assoc. reflexivity.
Qed.

Lemma detectCandidate_miss_calls (env : Env) (this : AIHelper) (w : World)
    (language : option jsstring) (errorText : jsstring) (foundErrors : list FoundError) :
  reliable env ->
  truthy language = true ->
  Query.selectErrorSolutions (orElse language [])
    (Sql.containing (substring0 100 errorText)) (error_patterns w) = [] ->
  apiCalls (snd (detectCandidate env this language errorText foundErrors w))
  = apiCalls w + 1.
Proof.
  intros Hdb Hlang Hmiss. unfold detectCandidate. rewrite Hlang.
  unfold mbind at 1, M_bind at 1. rewrite (getErrorSolutions_run env Hdb), Hmiss.
  change (0 <? length (@nil ErrorPattern)) with false. cbv iota.
  unfold mbind at 1, M_bind at 1.
  pose proof (generateErrorSolution_calls env this errorText language
                (record (EvSql (SelectErrorSolutions (orElse language [])
                                  (Sql.containing (substring0 100 errorText))))
                   (record EvGetDb w))) as Hcalls.
  rewrite !apiCalls_record in Hcalls. simpl in Hcalls.
  destruct (generateErrorSolution env this errorText language _) as [[[s|]|e] w1];
    simpl in Hcalls; simpl; try lia.
  unfold mbind, M_bind.
  pose proof (proj1 (proj2 (storage_sameCalls env))
                {| NewError.errorText := errorText;
                   NewError.solution := s;
                   NewError.language := orElse language [] |} w1) as Hrec.
  unfold sameCalls in Hrec.
  destruct (recordError env _ w1) as [[r|e] w2]; simpl in *; lia.
Qed.

(** X16. A long error text that shares its first 50 characters with a stored
    pattern is never cached.  When [recordError] finds a similar pattern
    while no pattern contains the first 100 characters of the text, it
    updates that pattern and adds none, so the look-up by 100 characters
    still finds nothing, and the next detection of the same text calls the
    API again. *)
Theorem recordError_update_keeps_cache_miss (env : Env) (this : AIHelper) (error : NewError)
    (existing : ErrorPattern) (w : World) :
  reliable env ->
  let language := NewError.language error in
  let errorText := NewError.errorText error in
  Query.selectSimilarError language (Sql.containing (substring0 50 errorText))
    (error_patterns w) = Some existing ->
  Query.selectErrorSolutions language (Sql.containing (substring0 100 errorText))
    (error_patterns w) = [] ->
  exists r w',
    recordError env error w = (Ok r, w')
    /\ Query.selectErrorSolutions language (Sql.containing (substring0 100 errorText))
         (error_patterns w') = []
    /\ (language <> [] ->
        forall foundErrors,
          apiCalls (snd (detectCandidate env this (Some language) errorText foundErrors w'))
          = apiCalls w' + 1).
Proof.
  intros Hdb language errorText Hex Hmiss.
  rewrite (recordError_existing_result env error existing w Hdb Hex).
  eexists _, _. split; [reflexivity|].
  assert (Hmiss' : Query.selectErrorSolutions language
                     (Sql.containing (substring0 100 errorText))
                     (Query.updateError (addNumber (ErrorPattern.frequency existing) 1)
                        (clock env (length (trace w) + 2)) (NewError.solution error)
                        (ErrorPattern.id existing) (error_patterns w)) = []).
  { apply selectErrorSolutions_nil. rewrite updateError_matches.
    apply selectErrorSolutions_nil in Hmiss. now rewrite Hmiss. }
  split; [exact Hmiss'|].
  intros Hlang foundErrors.
  assert (Hor : orElse (Some language) [] = language)
    by (destruct language; [contradiction|reflexivity]).
  apply detectCandidate_miss_calls; [exact Hdb| |rewrite Hor; exact Hmiss'].
  destruct language; [contradiction|reflexivity].
Qed.

(** ** The developer context *)


Lemma nextKey_above (seq : N) (rows : list (N * DeveloperContext)) :
  (seq < Query.nextKey seq rows)%N
  /\ forall r, In r rows -> (fst r < Query.nextKey seq rows)%N.
Proof.
  unfold Query.nextKey.
  assert (Hseq : forall l, (seq <= fold_right N.max seq l)%N)
    by (induction l as [|x l IH]; simpl; lia).
  assert (Hle : forall l k, In k l -> (k <= fold_right N.max seq l)%N).
  { induction l as [|x l IH]; simpl; [tauto|]. intros k [->|Hin]; [lia|].
    specialize (IH k Hin). lia. }
  split.
  - specialize (Hseq (List.map fst rows)). lia.
  - intros r Hr. specialize (Hle (List.map fst rows) (fst r) (in_map fst _ _ Hr)). lia.
Qed.


(** X18. [updateDeveloperContext] adds one row and touches nothing else.  The
    row has the application of the update, or [unknown] when that is missing
    or empty, so never the empty string; the file and the project root of the
    update; and the instant of the call, whatever [lastActivity] the update
    carries.  Its key is larger than every key of the table and than the last
    key given. *)
Theorem updateDeveloperContext_row (env : Env) (context : ContextUpdate) (w : World) :
  reliable env ->
  exists key row w',
    updateDeveloperContext env context w = (Ok tt, w')
    /\ developer_context w' = developer_context w ++ [(key, row)]
    /\ sameSnippets w w' /\ sameErrorPatterns w w'
    /\ context_seq w' = key
    /\ (context_seq w < key)%N
    /\ (forall r, In r (developer_context w) -> (fst r < key)%N)
    /\ DeveloperContext.currentApp row
       = (if truthy (ContextUpdate.currentApp context)
          then orElse (ContextUpdate.currentApp context) []
          else lit "unknown")
    /\ DeveloperContext.currentApp row <> []
    /\ DeveloperContext.activeFile row = ContextUpdate.activeFile context
    /\ DeveloperContext.projectRoot row = ContextUpdate.projectRoot context
    /\ DeveloperContext.lastActivity row = clock env (length (trace w) + 1)
    /\ (forall stamp,
          updateDeveloperContext env
            {| ContextUpdate.currentApp := ContextUpdate.currentApp context;
               ContextUpdate.activeFile := ContextUpdate.activeFile context;
               ContextUpdate.projectRoot := ContextUpdate.projectRoot context;
               ContextUpdate.lastActivity := stamp |} w
          = updateDeveloperContext env context w).
Proof.
  intros Hdb. eexists _, _, _.
  split; [apply (updateDeveloperContext_run env Hdb)|]. cbn.
  split; [reflexivity|]. split; [reflexivity|]. split; [reflexivity|].
  split; [reflexivity|].
  split; [apply nextKey_above|]. split; [apply nextKey_above|].
  split; [destruct (ContextUpdate.currentApp context) as [[|c s]|]; reflexivity|].
  split; [destruct (ContextUpdate.currentApp context) as [[|c s]|]; discriminate|].
  repeat (split; [reflexivity|]). intros stamp. reflexivity.
Qed.


(** ** The sweep *)

(** X20. [cleanupOldData] with a horizon of [d] whole days (30 when it is
    left out).  The cut-off is the instant the host gives for the local
    reading of the clock moved back by [d] days.  When it is out of the range
    of a [Date] the call throws a [RangeError] before any statement is sent,
    and the tables are as before.  Otherwise the call keeps the snippet rows
    and the context rows whose stamp does not sort before the cut-off as a
    text, in their order, and leaves the error patterns and the last key
    given alone.  On a host of one offset from UTC the cut-off is the instant
    of the call less [d] days; with the cut-off and the stamps in the years
    0000 to 9999 the rows kept are those stamped at or after the cut-off, and
    when no row is older the three tables are as before; a cut-off outside
    those years removes no row stamped within them; and on such a host a
    longer horizon keeps every row a shorter one keeps. *)
Theorem cleanupOldData_horizon (env : Env) (daysToKeep : option Z) (w : World) :
  reliable env ->
  let now := clock env (length (trace w) + 1) in
  let days := default 30%Z daysToKeep in
  let instant d := utcTime env (localTime env now - d * millisecondsPerDay) in
  (Iso.timeClip (instant days) = None ->
   exists w',
     cleanupOldData env daysToKeep w = (Throw RangeError, w')
     /\ sameTables w w'
     /\ trace w' = trace w ++ [EvGetDb; EvNow now])
  /\
  (forall cutoff,
     Iso.timeClip (instant days) = Some cutoff ->
     exists w',
       cleanupOldData env daysToKeep w = (Ok tt, w')
       /\ cutoff = instant days
       /\ (Z.abs cutoff <= 8640000000000000)%Z
       /\ snippets w'
          = List.filter (fun s => negb (Iso.before (CodeSnippet.timestamp s) cutoff))
              (snippets w)
       /\ developer_context w'
          = List.filter
              (fun r => negb (Iso.before (DeveloperContext.lastActivity (snd r)) cutoff))
              (developer_context w)
       /\ sameErrorPatterns w w'
       /\ context_seq w' = context_seq w
       /\ (fixedOffset env -> cutoff = (now - days * 86400000)%Z)
       /\ (fourDigitYears w ->
           (Iso.fourDigitYear cutoff = false -> sameTables w w')
           /\ (Iso.fourDigitYear cutoff = true ->
               snippets w'
               = List.filter (fun s => (cutoff <=? CodeSnippet.timestamp s)%Z) (snippets w)
               /\ developer_context w'
                  = List.filter
                      (fun r => (cutoff <=? DeveloperContext.lastActivity (snd r))%Z)
                      (developer_context w)
               /\ ((forall s, In s (snippets w) -> (cutoff <= CodeSnippet.timestamp s)%Z) ->
                   (forall r, In r (developer_context w) ->
                      (cutoff <= DeveloperContext.lastActivity (snd r))%Z) ->
                   sameTables w w')
               /\ (fixedOffset env ->
                   forall longer w'',
                     (days <= longer)%Z ->
                     cleanupOldData env (Some longer) w = (Ok tt, w'') ->
                     (forall s, In s (snippets w') -> In s (snippets w''))
                     /\ (forall r, In r (developer_context w') ->
                           In r (developer_context w'')))))).
Proof.
  intros Hdb now days instant.
  pose proof (cleanupOldData_run env daysToKeep w Hdb) as Hrun. cbv zeta in Hrun.
  fold now days in Hrun. change (utcTime env _) with (instant days) in Hrun.
  split.
  - intros Hclip. rewrite Hclip in Hrun. rewrite Hrun. eexists.
    split; [reflexivity|]. split; [repeat split; reflexivity|reflexivity].
  - intros cutoff Hclip. rewrite Hclip in Hrun. rewrite Hrun.
    assert (Hcut : cutoff = instant days /\ (Z.abs cutoff <= 8640000000000000)%Z).
    { revert Hclip. unfold Iso.timeClip, Iso.maxTime.
      destruct (Z.leb_spec (Z.abs (instant days)) 8640000000000000);
        [intros [= <-]; auto|discriminate]. }
    destruct Hcut as [Hcut Hrange].
    eexists. split; [reflexivity|]. split; [exact Hcut|]. split; [exact Hrange|].
    cbn [snippets developer_context context_seq].
    split; [reflexivity|]. split; [reflexivity|]. split; [reflexivity|].
    split; [reflexivity|].
    split.
    { intros Hzone. rewrite Hcut. unfold instant.
      now rewrite (cutoff_fixedOffset env now days Hzone). }
    intros [Hsnippets Hcontext]. split.
    + intros Hout. split; [|split; [reflexivity|split; [|reflexivity]]].
      * unfold sameSnippets. cbn [snippets]. unfold Query.deleteSnippetsBefore.
        apply forallb_filter_id, forallb_forall. intros s Hs.
        now rewrite (before_outside _ _ (Hsnippets s Hs) Hout).
      * cbn [developer_context]. unfold Query.deleteContextBefore.
        apply forallb_filter_id, forallb_forall. intros r Hr.
        now rewrite (before_outside _ _ (Hcontext r Hr) Hout).
    + intros Hin.
      rewrite (deleteSnippetsBefore_fourDigit cutoff _ Hin Hsnippets),
        (deleteContextBefore_fourDigit cutoff _ Hin Hcontext).
      split; [reflexivity|]. split; [reflexivity|]. split.
      * intros Hsnip Hctx. split; [|split; [reflexivity|split; [|reflexivity]]].
        -- unfold sameSnippets. cbn [snippets].
           apply forallb_filter_id, forallb_forall. intros s Hs. apply Z.leb_le. auto.
        -- cbn [developer_context].
           apply forallb_filter_id, forallb_forall. intros r Hr. apply Z.leb_le. auto.
      * intros Hzone longer w'' Hle Hlonger.
        pose proof (cleanupOldData_run env (Some longer) w Hdb) as Hrun'.
        cbv zeta in Hrun'. fold now in Hrun'.
        rewrite (cutoff_fixedOffset env now _ Hzone) in Hrun'.
        change (default 30%Z (Some longer)) with longer in Hrun'.
        assert (Hcut' : cutoff = (now - days * millisecondsPerDay)%Z).
        { rewrite Hcut. unfold instant. apply (cutoff_fixedOffset env now days Hzone). }
        assert (Hday : (0 < millisecondsPerDay)%Z) by reflexivity.
        set (cutoff' := (now - longer * millisecondsPerDay)%Z) in *.
        assert (Hearlier : (cutoff' <= cutoff)%Z) by (unfold cutoff'; nia).
        rewrite Hrun' in Hlonger.
        destruct (Iso.timeClip cutoff') as [c'|] eqn:Hclip'; [|discriminate].
        assert (c' = cutoff') as ->.
        { revert Hclip'. unfold Iso.timeClip.
          destruct (Z.abs cutoff' <=? Iso.maxTime)%Z; [now intros [= <-]|discriminate]. }
        injection Hlonger as <-. cbn [snippets developer_context].
        destruct (Iso.fourDigitYear cutoff') eqn:Hin'.
        -- rewrite (deleteSnippetsBefore_fourDigit cutoff' _ Hin' Hsnippets),
             (deleteContextBefore_fourDigit cutoff' _ Hin' Hcontext).
           split; intros x Hx; apply filter_In in Hx; destruct Hx as [Hx Hkeep];
             apply filter_In; (split; [exact Hx|]); apply Z.leb_le;
             apply Z.leb_le in Hkeep; lia.
        -- split; intros x Hx; apply filter_In in Hx; destruct Hx as [Hx _];
             apply filter_In; (split; [exact Hx|]).
           ++ now rewrite (before_outside _ _ (Hsnippets x Hx) Hin').
           ++ now rewrite (before_outside _ _ (Hcontext x Hx) Hin').
Qed.

(** X21. The two deletions of [cleanupOldData] are not one transaction: when
    the cut-off is in the range of a [Date] and the storage engine fails at
    the second deletion, the call throws after the old snippets are gone (the
    rows whose stamp sorts before the cut-off as a text; for stamps and a
    cut-off of the years 0000 to 9999, the rows stamped before it), with the
    context rows all still there. *)
Theorem cleanupOldData_second_delete_fails (env : Env) (daysToKeep : option Z) (w : World)
    (cutoff : Z) :
  db_fault env (length (trace w)) = false ->
  db_fault env (length (trace w) + 2) = false ->
  db_fault env (length (trace w) + 3) = true ->
  let now := clock env (length (trace w) + 1) in
  Iso.timeClip (utcTime env (localTime env now - default 30%Z daysToKeep * 86400000))
  = Some cutoff ->
  exists w',
    cleanupOldData env daysToKeep w = (Throw StorageError, w')
    /\ snippets w'
       = List.filter (fun s => negb (Iso.before (CodeSnippet.timestamp s) cutoff))
           (snippets w)
    /\ (Iso.fourDigitYear cutoff = true ->
        (forall s, In s (snippets w) -> Iso.fourDigitYear (CodeSnippet.timestamp s) = true) ->
        forall s, In s (snippets w') <->
                  In s (snippets w) /\ (cutoff <= CodeSnippet.timestamp s)%Z)
    /\ sameErrorPatterns w w'
    /\ sameContext w w'
    /\ trace w'
       = trace w ++ [EvGetDb; EvNow now; EvSql (DeleteSnippetsBefore cutoff);
                     EvSql (DeleteContextBefore cutoff)].
Proof.
  intros H0 H2 H3 now Hclip. unfold cleanupOldData.
  unfold mbind, M_bind, mret, M_ret, getDb, sql, storage, gets, modify, newDate. simpl.
  rewrite H0. simpl. rewrite !length_app. simpl. fold now.
  change millisecondsPerDay with 86400000%Z. rewrite Hclip. simpl.
  rewrite !length_app. simpl. rewrite <- !Nat.add_assoc. simpl. rewrite H2. simpl.
  rewrite !length_app. simpl. rewrite <- !Nat.add_assoc. simpl. rewrite H3. simpl.
  eexists. split; [reflexivity|]. split; [reflexivity|]. split.
  { intros Hin Hrows s. unfold record, set_snippets. cbn [snippets].
    rewrite (deleteSnippetsBefore_fourDigit cutoff _ Hin Hrows), filter_In, Z.leb_le.
    reflexivity. }
  split; [reflexivity|]. split; [split; reflexivity|].
  unfold record. simpl. rewrite <- !app_assoc. reflexivity.
Qed.

(** ** What a request for a solution returns *)

Lemma takeWhile_all (p : N -> bool) (s : jsstring) : forallb p (takeWhile p s) = true.
Proof.
  induction s as [|c s IH]; simpl; [reflexivity|].
  destruct (p c) eqn:E; simpl; [now rewrite E|reflexivity].
Qed.

Lemma trimEnd_split (s : jsstring) :
  exists b, s = trimEnd s ++ b /\ forallb isWhiteSpace b = true.
Proof.
  exists (rev (takeWhile isWhiteSpace (rev s))). split.
  - unfold trimEnd. rewrite <- rev_app_distr, takeWhile_dropWhile.
    now rewrite rev_involutive.
  - rewrite forallb_forall. intros c Hc. apply in_rev in Hc.
    pose proof (takeWhile_all isWhiteSpace (rev s)) as H.
    rewrite forallb_forall in H. now apply H.
Qed.

Lemma trimEnd_last (s : jsstring) :
  trimEnd s = [] \/ exists t e, trimEnd s = t ++ [e] /\ isWhiteSpace e = false.
Proof.
  unfold trimEnd. destruct (dropWhile isWhiteSpace (rev s)) as [|e r] eqn:E.
  - now left.
  - right. exists (rev r), e. split; [reflexivity|]. now apply (dropWhile_head _ _ _ _ E).
Qed.

(** [trim] takes white space off both ends, and all of it. *)
Lemma trim_split (c : jsstring) :
  exists a b,
    c = a ++ trim c ++ b
    /\ forallb isWhiteSpace a = true /\ forallb isWhiteSpace b = true.
Proof.
  destruct (trimEnd_split (trimStart c)) as (b & Hb & Hws).
  exists (takeWhile isWhiteSpace c), b. split; [|split; [apply takeWhile_all|exact Hws]].
  unfold trim. rewrite <- Hb. symmetry. apply takeWhile_dropWhile.
Qed.

Lemma trim_ends (c : jsstring) (d : N) (r : jsstring) :
  trim c = d :: r ->
  isWhiteSpace d = false
  /\ exists t e, trim c = t ++ [e] /\ isWhiteSpace e = false.
Proof.
  intros H. split.
  - unfold trim, trimStart in H.
    destruct (dropWhile isWhiteSpace c) as [|d0 r0] eqn:E; [discriminate|].
    pose proof (dropWhile_head _ _ _ _ E) as Hd0.
    destruct (trimEnd_cons d0 r0 Hd0) as (r' & Hr'). rewrite Hr' in H.
    now injection H as <- _.
  - unfold trim in *. destruct (trimEnd_last (trimStart c)) as [Hnil|Hlast].
    + rewrite Hnil in H. discriminate.
    + exact Hlast.
Qed.

(** X22. A request for a solution cannot throw, leaves the tables alone and
    is exactly one call of the API.  A solution it returns is the answer of
    the API with the white space taken off both ends, and is never blank: it
    neither starts nor ends with white space.  It returns none when the API
    throws, answers without a text, or with white space only. *)
Theorem generateErrorSolution_solution (env : Env) (this : AIHelper) (error : jsstring)
    (language : option jsstring) (w : World) :
  let request := chat this Prompt.system_solution (Prompt.errorSolution error language) 200 in
  let answer := completion env (length (trace w)) request in
  exists r w',
    generateErrorSolution env this error language w = (Ok r, w')
    /\ sameTables w w'
    /\ apiCalls w' = apiCalls w + 1
    /\ (forall s, r = Some s ->
          exists c a b,
            answer = ApiReplies (Some c)
            /\ c = a ++ s ++ b
            /\ forallb isWhiteSpace a = true /\ forallb isWhiteSpace b = true
            /\ (exists d t, s = d :: t /\ isWhiteSpace d = false)
            /\ (exists t e, s = t ++ [e] /\ isWhiteSpace e = false))
    /\ (r = None <->
        match answer with
        | ApiReplies (Some c) => forallb isWhiteSpace c = true
        | _ => True
        end).
Proof.
  intros request answer.
  pose proof (generateErrorSolution_calls env this error language w) as Hcalls.
  rewrite generateErrorSolution_run in *. fold request answer in Hcalls |- *.
  eexists _, _. split; [reflexivity|]. split; [repeat split; reflexivity|].
  split; [exact Hcalls|].
  destruct answer as [|[c|]].
  - split; [discriminate|tauto].
  - destruct (trim_split c) as (a & b & Hc & Ha & Hb).
    destruct (trim c) as [|d t] eqn:Htrim.
    + split; [discriminate|]. split; [intros _|reflexivity].
      rewrite Hc. simpl. rewrite forallb_app, Ha, Hb. reflexivity.
    + destruct (trim_ends c d t Htrim) as (Hd & Hlast). rewrite Htrim in Hlast.
      split.
      * intros s [= <-]. exists c, a, b. repeat split; eauto.
      * split; [discriminate|]. intros Hall. exfalso.
        rewrite Hc in Hall. rewrite !forallb_app in Hall.
        apply andb_true_iff in Hall. destruct Hall as [_ Hall].
        apply andb_true_iff in Hall. destruct Hall as [Hall _].
        simpl in Hall. rewrite Hd in Hall. discriminate.
  - split; [discriminate|tauto].
Qed.

(** ** The matcher when the query finds nothing *)

(** The scores are the random numbers drawn one after the other, one per
    snippet, in the order of the snippets. *)
Lemma scoreSnippets_scores (env : Env) (embedding : list Q) (allSnippets : list CodeSnippet)
    (w : World) :
  let draws := List.map (fun i => random env (length (trace w) + i))
                 (seq 0 (length allSnippets)) in
  scoreSnippets env embedding allSnippets w
  = (Ok (combine allSnippets draws),
     {| snippets := snippets w; error_patterns := error_patterns w;
        developer_context := developer_context w; context_seq := context_seq w;
        trace := trace w ++ List.map EvRandom draws |}).
Proof.
  revert w. induction allSnippets as [|s l IH]; intros w; cbv zeta.
  - simpl. rewrite app_nil_r. destruct w; reflexivity.
  - assert (Hseq : List.map (fun i => random env (length (trace w) + i))
                     (seq 0 (length (s :: l)))
                   = random env (length (trace w))
                     :: List.map (fun i => random env (length (trace w) + 1 + i))
                          (seq 0 (length l))).
    { simpl length. simpl seq. rewrite <- seq_shift. simpl List.map.
      rewrite List.map_map, Nat.add_0_r. f_equal. apply map_ext. intros i. f_equal. lia. }
    rewrite Hseq. simpl scoreSnippets.
    unfold mbind at 1, M_bind at 1, calculateSimilarity at 1.
    unfold mbind at 1, M_bind at 1. rewrite IH. cbv zeta.
    unfold mret, M_ret, record.
    cbn [trace snippets error_patterns developer_context context_seq].
    rewrite length_app. simpl length. rewrite <- app_assoc. reflexivity.
Qed.

Lemma randomDraws_app (w : World) (events : list event) (xs : list N) :
  List.filter isRandom events = [] ->
  length (List.filter isRandom ((trace w ++ events) ++ List.map EvRandom xs))
  = randomDraws w + length xs.
Proof.
  intros H. unfold randomDraws. rewrite !List.filter_app, !length_app, H. simpl.
  rewrite Nat.add_0_r. f_equal.
  induction xs as [|x xs IH]; simpl; [reflexivity|now rewrite IH].
Qed.

(** X23. When the query of the matcher finds nothing, the snippets it returns
    do not depend on the text: every snippet of the language gets a random
    number, one draw per snippet, and the two with the largest numbers are
    returned.  The result is a list (empty when the store has no snippet of
    the language), its snippets have the language asked for, and nothing is
    written. *)
Theorem findRelevantSnippets_fallback (env : Env) (code : jsstring)
    (language : option jsstring) (w : World) :
  reliable env ->
  trim code <> [] ->
  Query.selectSnippets
    {| SnippetQuery.language := language;
       SnippetQuery.searchTerm := Some (substring0 50 (trim code));
       SnippetQuery.limit := Some 2 |} (snippets w) = [] ->
  let allSnippets :=
    Query.selectSnippets
      {| SnippetQuery.language := language;
         SnippetQuery.searchTerm := None;
         SnippetQuery.limit := None |} (snippets w) in
  let draws := List.map (fun i => random env (length (trace w) + 5 + i))
                 (seq 0 (length allSnippets)) in
  exists r w',
    findRelevantSnippets env code language w = (Ok (Some r), w')
    /\ r = List.map fst
             (take 2 (Sql.orderByDesc (fun item => Z.of_N (snd item))
                        (combine allSnippets draws)))
    /\ length r = Nat.min 2 (length allSnippets)
    /\ (forall s, In s r ->
          In s (snippets w)
          /\ (truthy language = true -> CodeSnippet.language s = orElse language []))
    /\ randomDraws w' = randomDraws w + length allSnippets
    /\ sameTables w w'.
Proof.
  intros Hdb Hcode. unfold findRelevantSnippets.
  destruct (trim code) as [|c0 t0] eqn:Htrim; [contradiction|]. rewrite <- Htrim.
  intros Hexact.
  set (allSnippets := Query.selectSnippets
                        {| SnippetQuery.language := language;
                           SnippetQuery.searchTerm := None;
                           SnippetQuery.limit := None |} (snippets w)).
  set (draws := List.map (fun i => random env (length (trace w) + 5 + i))
                  (seq 0 (length allSnippets))).
  unfold try_catch. unfold mbind at 1, M_bind at 1.
  set (query := {| SnippetQuery.searchTerm := Some _ |}) in *.
  rewrite (getSnippets_run env Hdb query w (likeFails_short _ _ 50 _ _ ltac:(lia))),
    Hexact.
  change (0 <? length (@nil CodeSnippet)) with false. cbv iota.
  unfold generateEmbedding. unfold mbind at 1, M_bind at 1.
  unfold mbind at 1, M_bind at 1. unfold modify at 1. unfold mret at 1, M_ret at 1.
  unfold mbind at 1, M_bind at 1.
  rewrite (getSnippets_run env Hdb _ _ (likeFails_no_term _ _ _)).
  unfold mbind at 1, M_bind at 1. rewrite scoreSnippets_scores. cbv zeta.
  unfold record, mret, M_ret.
  cbn [trace snippets error_patterns developer_context context_seq].
  fold allSnippets. rewrite !length_app. simpl length.
  replace (length (trace w) + 1 + 1 + 1 + 1 + 1) with (length (trace w) + 5) by lia.
  fold draws.
  eexists _, _. split; [reflexivity|]. split; [reflexivity|].
  assert (Hdraws : length draws = length allSnippets)
    by (unfold draws; rewrite length_map, length_seq; reflexivity).
  split.
  { rewrite length_map, length_take, orderByDesc_length, length_combine, Hdraws. lia. }
  split.
  { intros s Hs. apply in_map_iff in Hs. destruct Hs as ([s' x] & Heq & Hin).
    simpl in Heq. subst s'.
    assert (Hin' : In (s, x) (combine allSnippets draws)).
    { apply (orderByDesc_In (fun item : CodeSnippet * N => Z.of_N (snd item))).
      rewrite <- (take_drop 2 (Sql.orderByDesc _ _)). apply in_or_app. now left. }
    apply in_combine_l in Hin'. apply selectSnippets_In in Hin'.
    destruct Hin' as [Hrow Hsel]. split; [exact Hrow|]. intros Hlang.
    unfold Query.snippetSelected in Hsel. cbn [SnippetQuery.language] in Hsel.
    rewrite Hlang in Hsel. apply andb_true_iff in Hsel. destruct Hsel as [Hsel _].
    now apply eqb_eq in Hsel. }
  split; [|repeat split; reflexivity].
  cbn [trace]. rewrite <- Hdraws.
  unfold randomDraws at 1. cbn [trace].
  repeat rewrite <- (app_assoc (trace w) _ [_]). simpl app.
  apply randomDraws_app. reflexivity.
Qed.

(** ** The directory of a file *)

Lemma split_nonempty (s : jsstring) : Path.split s <> [].
Proof.
  destruct s as [|c s]; simpl; [discriminate|].
  destruct (Path.isSeparator c); [discriminate|].
  destruct (Path.split s); discriminate.
Qed.

Lemma split_plain (s : jsstring) :
  forallb (fun c => negb (Path.isSeparator c)) s = true -> Path.split s = [s].
Proof.
  induction s as [|c s IH]; simpl; [reflexivity|].
  intros H. apply andb_true_iff in H. destruct H as [Hc Hs].
  apply negb_true_iff in Hc. rewrite Hc, (IH Hs). reflexivity.
Qed.

Lemma split_separator (a b : jsstring) (sep : N) :
  Path.isSeparator sep = true ->
  Path.split (a ++ sep :: b) = Path.split a ++ Path.split b.
Proof.
  intros Hsep. induction a as [|c a IH]; simpl.
  - now rewrite Hsep.
  - rewrite IH. destruct (Path.isSeparator c); [reflexivity|].
    pose proof (split_nonempty a) as Ha.
    destruct (Path.split a) as [|l ls]; [contradiction|reflexivity].
Qed.

(** X24. [getProjectContext] returns the name between the last two
    separators of the path (slash or backslash), or the part before the only
    separator, which is the empty string for a file at the root; and nothing
    for a path without a separator or for no path. *)
Theorem getProjectContext_directory (front dir file : jsstring) (sep : N) :
  Path.isSeparator sep = true ->
  forallb (fun c => negb (Path.isSeparator c)) dir = true ->
  forallb (fun c => negb (Path.isSeparator c)) file = true ->
  getProjectContext (Some (dir ++ sep :: file)) = Some dir
  /\ (forall sep', Path.isSeparator sep' = true ->
        getProjectContext (Some (front ++ sep' :: dir ++ sep :: file)) = Some dir)
  /\ getProjectContext (Some file) = None
  /\ getProjectContext None = None.
Proof.
  intros Hsep Hdir Hfile.
  assert (Hparts : Path.split (dir ++ sep :: file) = [dir; file])
    by (rewrite (split_separator _ _ _ Hsep), (split_plain _ Hdir), (split_plain _ Hfile);
        reflexivity).
  assert (Hor : forall c s, orElse (Some (c :: s)) [] = c :: s) by reflexivity.
  split; [|split; [|split]].
  - unfold getProjectContext.
    destruct (dir ++ sep :: file) as [|c s] eqn:E; [now destruct dir|].
    cbn [truthy]. rewrite Hor, Hparts. reflexivity.
  - intros sep' Hsep'. unfold getProjectContext.
    destruct (front ++ sep' :: dir ++ sep :: file) as [|c s] eqn:E; [now destruct front|].
    cbn [truthy]. rewrite Hor, <- E, (split_separator _ _ _ Hsep'), Hparts.
    rewrite length_app. simpl length.
    assert (Hlt : (1 <? length (Path.split front) + 2) = true) by (apply Nat.ltb_lt; lia).
    rewrite Hlt.
    replace (length (Path.split front) + 2 - 2) with (length (Path.split front) + 0) by lia.
    rewrite nth_error_app2 by lia.
    replace (length (Path.split front) + 0 - length (Path.split front)) with 0 by lia.
    reflexivity.
  - unfold getProjectContext. destruct file as [|c s]; [reflexivity|].
    cbn [truthy]. rewrite Hor, (split_plain _ Hfile). reflexivity.
  - reflexivity.
Qed.

(** ** What the search term of a query stands for *)

Lemma likeChars_underscore (x y a b : list N) (c : N) :
  Sql.likeChars (Sql.percent :: (x ++ Sql.underscore :: y) ++ [Sql.percent])
    (a ++ x ++ c :: y ++ b) = true.
Proof.
  apply like_percent_skip. rewrite like_percent.
  apply orb_true_iff. left. rewrite <- app_assoc.
  apply like_prefix; [reflexivity|].
  change ((Sql.underscore :: y) ++ [Sql.percent])
    with (Sql.underscore :: (y ++ [Sql.percent])).
  rewrite like_cons by reflexivity. rewrite N.eqb_refl, like_self. reflexivity.
Qed.

Lemma likeChars_inner_percent (x y a b m : list N) :
  Sql.likeChars (Sql.percent :: (x ++ Sql.percent :: y) ++ [Sql.percent])
    (a ++ x ++ m ++ y ++ b) = true.
Proof.
  apply like_percent_skip. rewrite like_percent.
  apply orb_true_iff. left. rewrite <- app_assoc.
  apply like_prefix; [reflexivity|].
  change ((Sql.percent :: y) ++ [Sql.percent])
    with (Sql.percent :: (y ++ [Sql.percent])).
  apply like_percent_skip. rewrite like_percent, like_self. reflexivity.
Qed.

Lemma likeChars_any_case (x x' a b : list N) :
  List.map Regex.asciiUpper x' = List.map Regex.asciiUpper x ->
  Sql.likeChars (Sql.percent :: x ++ [Sql.percent]) (a ++ x' ++ b) = true.
Proof.
  intros Hup. apply like_percent_skip. rewrite like_percent.
  apply orb_true_iff. left. apply like_prefix; [exact Hup|]. apply like_percent_only.
Qed.

(** A string of units that are characters by themselves is read as it
    stands. *)
Lemma chars_plain (s : jsstring) : forallb Sql.plainUnit s = true -> Sql.chars s = s.
Proof.
  intros H. destruct (plain_units s H) as [Hunits _].
  rewrite <- (app_nil_r s) at 1. rewrite (chars_units s [] Hunits).
  change (Sql.chars []) with (@nil N). apply app_nil_r.
Qed.

Lemma like_chars (p t : jsstring) (t' : list N) :
  forallb Sql.plainUnit p = true ->
  Sql.chars t = t' -> forallb Sql.notNul t' = true ->
  Sql.like p t = Sql.likeChars p t'.
Proof.
  intros Hp Ht Hnul. unfold Sql.like.
  rewrite (chars_plain p Hp), (cstring_notNul p) by apply (plain_units p Hp).
  rewrite Ht, (cstring_notNul t' Hnul). reflexivity.
Qed.

Lemma plainUnit_app (a b : jsstring) :
  forallb Sql.plainUnit (a ++ b) = true
  <-> forallb Sql.plainUnit a = true /\ forallb Sql.plainUnit b = true.
Proof. rewrite forallb_app, andb_true_iff. reflexivity. Qed.

(** X25. The search term of [getSnippets] is used as a pattern, as long as
    the pattern is within the limit of [LIKE]: an underscore in it stands for
    any one character of the content, be it one unit or the two units of a
    surrogate pair; a percent sign stands for any run of characters; and its
    ASCII letters match in either case.  A query without a limit returns
    every snippet of the language whose content contains the term read so.
    The units of the term and of the content around the character are
    characters by themselves, none of them U+0000. *)
Theorem search_term_is_a_pattern (env : Env) (language : option jsstring)
    (s : CodeSnippet) (w : World) (x y a b : jsstring) :
  reliable env ->
  In s (snippets w) ->
  (truthy language = true -> orElse language [] = CodeSnippet.language s) ->
  forallb Sql.plainUnit (a ++ x ++ y ++ b) = true ->
  let rows term :=
    fst (getSnippets env
           {| SnippetQuery.language := language;
              SnippetQuery.searchTerm := Some term;
              SnippetQuery.limit := None |} w) in
  let withinLimit term :=
    (Sql.utf8Length (Sql.percent :: term ++ [Sql.percent]) <= Sql.maxLikePattern)%N in
  (withinLimit (x ++ Sql.underscore :: y) ->
   (forall c, Sql.plainUnit c = true ->
      CodeSnippet.content s = a ++ x ++ c :: y ++ b ->
      exists found, rows (x ++ Sql.underscore :: y) = Ok found /\ In s found)
   /\ (forall high low,
         isHighSurrogate high = true -> isLowSurrogate low = true ->
         CodeSnippet.content s = a ++ x ++ high :: low :: y ++ b ->
         exists found, rows (x ++ Sql.underscore :: y) = Ok found /\ In s found))
  /\ (withinLimit (x ++ Sql.percent :: y) ->
      forall m, forallb Sql.plainUnit m = true ->
        CodeSnippet.content s = a ++ x ++ m ++ y ++ b ->
        exists found, rows (x ++ Sql.percent :: y) = Ok found /\ In s found)
  /\ (withinLimit x ->
      forall x', List.map Regex.asciiUpper x' = List.map Regex.asciiUpper x ->
        forallb Sql.plainUnit x' = true ->
        CodeSnippet.content s = a ++ x' ++ y ++ b ->
        exists found, rows x = Ok found /\ In s found).
Proof.
  intros Hdb Hin Hlang Hplain rows withinLimit.
  apply plainUnit_app in Hplain. destruct Hplain as [Ha Hplain].
  apply plainUnit_app in Hplain. destruct Hplain as [Hx Hplain].
  pose proof Hplain as Hyb.
  apply plainUnit_app in Hplain. destruct Hplain as [Hy Hb].
  assert (Hsel : forall term,
            withinLimit term ->
            Sql.like (Sql.containing term) (CodeSnippet.content s) = true ->
            exists found, rows term = Ok found /\ In s found).
  { intros term Hlimit Hlike. unfold rows.
    rewrite (getSnippets_run env Hdb).
    2:{ apply likeFails_not_complex. intros _. cbn [SnippetQuery.searchTerm].
        unfold Sql.tooComplex. apply N.ltb_ge.
        destruct term as [|c0 t0]; [|exact Hlimit]. exact Hlimit. }
    eexists. split; [reflexivity|].
    apply selectSnippets_complete; [exact I|exact Hin|].
    unfold Query.snippetSelected. cbn [SnippetQuery.language SnippetQuery.searchTerm].
    apply andb_true_iff. split.
    - destruct (truthy language); [|reflexivity].
      apply eqb_eq. symmetry. now apply Hlang.
    - destruct term as [|c0 t0]; [reflexivity|].
      cbn [truthy orElse]. cbv zeta. now rewrite Hlike. }
  assert (Hnul : forall l, forallb Sql.plainUnit l = true -> forallb Sql.notNul l = true)
    by (intros l Hl; apply (plain_units l Hl)).
  split; [|split].
  - intros Hlimit.
    assert (Hp : forallb Sql.plainUnit (Sql.containing (x ++ Sql.underscore :: y)) = true).
    { unfold Sql.containing. cbn [forallb].
      rewrite !forallb_app. cbn [forallb]. rewrite Hx, Hy. reflexivity. }
    split.
    + intros c Hc Hcontent. apply (Hsel _ Hlimit). rewrite Hcontent.
      assert (Ht : forallb Sql.plainUnit (a ++ x ++ c :: y ++ b) = true).
      { rewrite !forallb_app. cbn [forallb]. rewrite forallb_app, Ha, Hx, Hc, Hy, Hb.
        reflexivity. }
      rewrite (like_chars _ _ _ Hp (chars_plain _ Ht) (Hnul _ Ht)).
      apply likeChars_underscore.
    + intros high low Hhigh Hlow Hcontent. apply (Hsel _ Hlimit). rewrite Hcontent.
      set (c := (65536 + (high - 55296) * 1024 + (low - 56320))%N).
      assert (Ht : Sql.chars (a ++ x ++ high :: low :: y ++ b) = a ++ x ++ c :: y ++ b).
      { rewrite (chars_units a) by apply (plain_units a Ha).
        rewrite (chars_units x) by apply (plain_units x Hx).
        rewrite (chars_pair high low _ Hhigh Hlow). fold c.
        rewrite (chars_plain _ Hyb). reflexivity. }
      rewrite (like_chars _ _ _ Hp Ht).
      * apply likeChars_underscore.
      * rewrite !forallb_app. cbn [forallb].
        rewrite forallb_app, (Hnul a Ha), (Hnul x Hx), (Hnul y Hy), (Hnul b Hb).
        unfold Sql.notNul at 1.
        destruct (N.eqb_spec c 0) as [E|_]; [unfold c in E; lia|reflexivity].
  - intros Hlimit m Hm Hcontent. apply (Hsel _ Hlimit). rewrite Hcontent.
    assert (Hp : forallb Sql.plainUnit (Sql.containing (x ++ Sql.percent :: y)) = true).
    { unfold Sql.containing. cbn [forallb].
      rewrite !forallb_app. cbn [forallb]. rewrite Hx, Hy. reflexivity. }
    assert (Ht : forallb Sql.plainUnit (a ++ x ++ m ++ y ++ b) = true).
    { rewrite !forallb_app, Ha, Hx, Hm, Hy, Hb. reflexivity. }
    rewrite (like_chars _ _ _ Hp (chars_plain _ Ht) (Hnul _ Ht)).
    apply likeChars_inner_percent.
  - intros Hlimit x' Hup Hx' Hcontent. apply (Hsel _ Hlimit). rewrite Hcontent.
    assert (Hp : forallb Sql.plainUnit (Sql.containing x) = true).
    { unfold Sql.containing. cbn [forallb]. rewrite !forallb_app. cbn [forallb].
      rewrite Hx. reflexivity. }
    assert (Ht : forallb Sql.plainUnit (a ++ x' ++ y ++ b) = true).
    { rewrite !forallb_app, Ha, Hx', Hy, Hb. reflexivity. }
    rewrite (like_chars _ _ _ Hp (chars_plain _ Ht) (Hnul _ Ht)).
    now apply likeChars_any_case.
Qed.

(** ** How much a run of the pipeline writes *)

Lemma atMostPatterns_quiet {A} (m : M A) :
  respects sameErrorPatterns m -> atMostPatterns 0 m.
Proof. intros H w. specialize (H w). unfold sameErrorPatterns in H. rewrite H. lia. Qed.

Lemma atMostPatterns_weaken {A} (n k : nat) (m : M A) :
  atMostPatterns n m -> n <= k -> atMostPatterns k m.
Proof. intros H Hle w. specialize (H w). lia. Qed.

Lemma atMostPatterns_bind {A B} (n k : nat) (m : M A) (f : A -> M B) :
  atMostPatterns n m -> (forall a, atMostPatterns k (f a)) ->
  atMostPatterns (n + k) (m ≫= f).
Proof.
  intros Hm Hf w. unfold mbind, M_bind. specialize (Hm w).
  destruct (m w) as [[a|e] w1]; simpl in *; [|lia].
  specialize (Hf a w1). lia.
Qed.

Lemma atMostPatterns_promiseAll3 {A B C} (n1 n2 n3 : nat) (a : M A) (b : M B) (c : M C) :
  atMostPatterns n1 a -> atMostPatterns n2 b -> atMostPatterns n3 c ->
  atMostPatterns (n1 + n2 + n3) (promiseAll3 a b c).
Proof.
  intros Ha Hb Hc w. unfold promiseAll3.
  specialize (Ha w). destruct (a w) as [ra w1].
  specialize (Hb w1). destruct (b w1) as [rb w2].
  specialize (Hc w2). destruct (c w2) as [rc w3]. simpl in *.
  destruct ra, rb, rc; simpl; lia.
Qed.

Section Patterns.
Variable env : Env.
Variable this : AIHelper.

Lemma insertError_patterns (e : ErrorPattern) : atMostPatterns 1 (insertError env e).
Proof.
  unfold insertError.
  apply (atMostPatterns_bind 0 1); [apply atMostPatterns_quiet; frame|]. intros _.
  intros w. unfold mbind, M_bind, gets, throw, modify.
  destruct (existsb _ _); simpl; [lia|]. rewrite length_app. simpl. lia.
Qed.

Lemma recordError_patterns (error : NewError) : atMostPatterns 1 (recordError env error).
Proof.
  unfold recordError. cbv zeta.
  apply (atMostPatterns_bind 0 1); [apply atMostPatterns_quiet; frame|]. intros _.
  apply (atMostPatterns_bind 0 1); [apply atMostPatterns_quiet; frame|]. intros _.
  apply (atMostPatterns_bind 0 1); [apply atMostPatterns_quiet; frame|].
  intros [existing|].
  - apply (atMostPatterns_weaken 0); [|lia].
    apply (atMostPatterns_bind 0 0); [apply atMostPatterns_quiet; frame|]. intros now.
    apply (atMostPatterns_bind 0 0); [apply atMostPatterns_quiet; frame|]. intros _.
    apply (atMostPatterns_bind 0 0); [|intros _; apply atMostPatterns_quiet; frame].
    intros w. simpl. rewrite updateError_length. lia.
  - apply (atMostPatterns_bind 0 1); [apply atMostPatterns_quiet; frame|]. intros id.
    apply (atMostPatterns_bind 0 1); [apply atMostPatterns_quiet; frame|]. intros now.
    apply (atMostPatterns_bind 1 0); [apply insertError_patterns|]. intros _.
    apply atMostPatterns_quiet. frame.
Qed.

Lemma detectCandidate_patterns (language : option jsstring) (errorText : jsstring)
    (foundErrors : list FoundError) :
  atMostPatterns 1 (detectCandidate env this language errorText foundErrors).
Proof.
  unfold detectCandidate.
  apply (atMostPatterns_bind 0 1).
  { apply atMostPatterns_quiet.
    destruct (truthy language); frame_with ltac:(apply respects_getErrorSolutions). }
  intros dbSolutions. destruct (0 <? length dbSolutions).
  { apply (atMostPatterns_weaken 0); [|lia]. apply atMostPatterns_quiet. frame. }
  apply (atMostPatterns_bind 0 1).
  { apply atMostPatterns_quiet, respects_generateErrorSolution. exact _. }
  intros [aiSolution|]; [|apply (atMostPatterns_weaken 0); [|lia];
                           apply atMostPatterns_quiet; frame].
  destruct (truthy language).
  - apply (atMostPatterns_bind 1 0); [apply recordError_patterns|]. intros _.
    apply atMostPatterns_quiet. frame.
  - apply (atMostPatterns_weaken 0); [|lia]. apply atMostPatterns_quiet. frame.
Qed.

Lemma detectLoop_patterns (patterns : list (jsstring -> option jsstring)) (code : jsstring)
    (language : option jsstring) (foundErrors : list FoundError) :
  atMostPatterns (length (candidatesOf patterns code))
    (detectLoop env this patterns code language foundErrors).
Proof.
  revert foundErrors. induction patterns as [|p ps IH]; intros foundErrors; simpl.
  - apply atMostPatterns_quiet. frame.
  - unfold candidatesOf in *. simpl. destruct (Regex.search p code); [|apply IH].
    simpl. apply (atMostPatterns_bind 1); [apply detectCandidate_patterns|].
    intros a. apply IH.
Qed.

Lemma processCodeContent_patterns (content : jsstring) (context : CodeContext) :
  atMostPatterns (length (candidates content))
    (processCodeContent env this content context).
Proof.
  unfold processCodeContent.
  apply (atMostPatterns_weaken (0 + (0 + (length (candidates content) + 0 + 0 + 0 + 0))));
    [|lia].
  apply atMostPatterns_bind; [apply atMostPatterns_quiet; frame|]. intros lastActivity.
  apply atMostPatterns_bind;
    [apply atMostPatterns_quiet, respects_updateDeveloperContext|]. intros _.
  apply atMostPatterns_bind.
  - apply atMostPatterns_promiseAll3.
    + unfold detectErrors. apply atMostPatterns_bind; [apply detectLoop_patterns|].
      intros a. apply atMostPatterns_quiet. frame.
    + apply atMostPatterns_quiet, respects_generateSuggestions. exact _.
    + apply atMostPatterns_quiet, respects_findRelevantSnippets. exact _.
  - intros [[? ?] ?]. apply atMostPatterns_quiet. frame.
Qed.

Lemma processCodeContent_snippets (content : jsstring) (context : CodeContext) :
  respects sameSnippets (processCodeContent env this content context).
Proof.
  apply respects_processCodeContent; [exact _| |].
  - intros error. apply respects_recordError.
  - intros update. apply respects_updateDeveloperContext.
Qed.

Lemma analyses_context (content : jsstring) (context : CodeContext) :
  respects sameContext
    (promiseAll3
       (detectErrors env this content (ctx_language context))
       (generateSuggestions env this content (ctx_filePath context) (ctx_language context))
       (findRelevantSnippets env content (ctx_language context))).
Proof.
  apply respects_promiseAll3.
  - exact _.
  - apply respects_detectErrors; [exact _|]. intros error. apply respects_recordError.
  - apply respects_generateSuggestions. exact _.
  - apply respects_findRelevantSnippets. exact _.
Qed.

End Patterns.

(** X26. What a run of the pipeline may write, whatever the storage engine
    and the API do and whether it returns or throws: no snippet is added,
    changed or removed; no error pattern is removed and at most one is added
    per signature that matches the text, so at most four; and the context
    table is as before or has one more row. *)
Theorem pipeline_write_budget (env : Env) (this : AIHelper) (content : jsstring)
    (context : CodeContext) (w : World) :
  let w' := snd (processCodeContent env this content context w) in
  snippets w' = snippets w
  /\ length (error_patterns w) <= length (error_patterns w')
     <= length (error_patterns w) + length (candidates content)
  /\ length (candidates content) <= 4
  /\ (developer_context w' = developer_context w
      \/ exists key row, developer_context w' = developer_context w ++ [(key, row)]).
Proof.
  intros w'. split; [apply processCodeContent_snippets|].
  split; [apply processCodeContent_patterns|]. split; [apply candidates_length|].
  set (w0 := record (EvNow (clock env (length (trace w)))) w).
  set (update := {| ContextUpdate.currentApp := Some (ctx_sourceApp context);
                    ContextUpdate.activeFile := ctx_filePath context;
                    ContextUpdate.projectRoot := None;
                    ContextUpdate.lastActivity := Some (clock env (length (trace w))) |}).
  destruct (db_fault env (length (trace w0))) eqn:E0.
  { destruct (updateDeveloperContext_propagates env update w0 (or_introl E0))
      as (w1 & Hrun & Hctx).
    left. unfold w'.
    rewrite (processCodeContent_updater_first env this content context w _ _ Hrun).
    exact Hctx. }
  destruct (db_fault env (length (trace w0) + 2)) eqn:E2.
  { destruct (updateDeveloperContext_propagates env update w0 (or_intror E2))
      as (w1 & Hrun & Hctx).
    left. unfold w'.
    rewrite (processCodeContent_updater_first env this content context w _ _ Hrun).
    exact Hctx. }
  right. unfold w', processCodeContent.
  unfold mbind at 1, M_bind at 1. unfold newDate at 1. fold w0.
  unfold mbind at 1, M_bind at 1. fold update.
  rewrite (updateDeveloperContext_run_if env update w0 E0 E2). cbv zeta.
  set (w1 := {| snippets := snippets w0 |}).
  unfold mbind, M_bind.
  pose proof (analyses_context env this content context w1) as [Hctx _].
  destruct (promiseAll3 _ _ _ w1) as [[[[r1 r2] r3]|e] w2]; cbn [snd] in Hctx |- *;
    unfold mret, M_ret; cbn [snd]; rewrite Hctx; unfold w1; cbn [developer_context];
    eauto.
Qed.

(** ** The configuration of the helper *)

(** X27. Whatever the configuration, the helper it makes sends requests with
    a model name that is not empty and a temperature that is neither 0 nor
    [NaN]: a missing or empty name gives way to [gpt-4-turbo], and a
    temperature that is missing, zero or [NaN] to 0.7, so a temperature of 0
    cannot be configured; any other name and temperature, an infinity too,
    are sent as configured. *)
Theorem configured_requests (config : AIConfig) (system user : jsstring) (max_tokens : N) :
  let r := chat (newAIHelper config) system user max_tokens in
  req_model r <> []
  /\ req_temperature r <> NaN
  /\ (forall q, req_temperature r = Num q -> ~ (q == 0)%Q)
  /\ req_max_tokens r = max_tokens
  /\ List.map message_content (req_messages r) = [system; user]
  /\ (forall name, config_model config = Some name -> name <> [] -> req_model r = name)
  /\ (truthy (config_model config) = false -> req_model r = lit "gpt-4-turbo")
  /\ (forall q, config_temperature config = Some (Num q) -> ~ (q == 0)%Q ->
        req_temperature r = Num q)
  /\ (forall negative, config_temperature config = Some (Infinity negative) ->
        req_temperature r = Infinity negative)
  /\ (forall q, config_temperature config = Some (Num q) -> (q == 0)%Q ->
        req_temperature r = Num (7 # 10))
  /\ (config_temperature config = Some NaN -> req_temperature r = Num (7 # 10))
  /\ (config_temperature config = None -> req_temperature r = Num (7 # 10)).
Proof.
  intros r. unfold r, chat, newAIHelper. cbn [req_model req_temperature req_max_tokens
    req_messages model temperature List.map message_content].
  split.
  { destruct (config_model config) as [[|c s]|]; discriminate. }
  split.
  { destruct (config_temperature config) as [[q| |negative]|]; cbn [truthyNumber];
      try discriminate.
    destruct (Qeq_bool q 0); discriminate. }
  split.
  { intros q. destruct (config_temperature config) as [[q0| |negative]|];
      cbn [truthyNumber]; try discriminate.
    - destruct (Qeq_bool q0 0) eqn:E; cbn [negb].
      + intros [= <-]. discriminate.
      + intros [= <-]. apply Qeq_bool_neq. exact E.
    - intros [= <-]. discriminate.
    - intros [= <-]. discriminate. }
  split; [reflexivity|]. split; [reflexivity|]. split.
  { intros name -> Hname. destruct name; [contradiction|reflexivity]. }
  split.
  { destruct (config_model config) as [[|c s]|]; [reflexivity|discriminate|reflexivity]. }
  split.
  { intros q -> Hq. cbn [truthyNumber]. destruct (Qeq_bool q 0) eqn:E; [|reflexivity].
    apply Qeq_bool_iff in E. contradiction. }
  split.
  { intros negative ->. reflexivity. }
  split.
  { intros q -> Hq. cbn [truthyNumber]. apply Qeq_bool_iff in Hq. now rewrite Hq. }
  split; intros ->; reflexivity.
Qed.

(** ** What the suggestions do not depend on *)

(** X28. [generateSuggestions] reads the current context and never uses it:
    what it returns is the same whatever rows the context table and the table
    of error patterns hold.  The read can only lose the suggestions: when its
    query fails, the result is the empty list and the API is not called. *)
Theorem suggestions_ignore_context (env : Env) (this : AIHelper) (code : jsstring)
    (filePath language : option jsstring) (w : World) :
  (forall rows seq patterns,
     fst (generateSuggestions env this code filePath language
            (set_error_patterns patterns (set_developer_context rows seq w)))
     = fst (generateSuggestions env this code filePath language w))
  /\ (db_fault env (length (trace w)) = false ->
      db_fault env (length (trace w) + 1) = true ->
      exists w',
        generateSuggestions env this code filePath language w = (Ok [], w')
        /\ apiCalls w' = apiCalls w).
Proof.
  split.
  - intros rows seq patterns. rewrite !generateSuggestions_run. cbv zeta.
    unfold getCurrentContext, getSnippets, mbind, M_bind, getDb, sql, storage, gets,
      mret, M_ret, set_error_patterns, set_developer_context, record.
    simpl.
    repeat (match goal with
            | |- context [db_fault env ?n] => destruct (db_fault env n)
            end; simpl); try reflexivity.
    destruct (completion env _ _) as [|[content|]]; reflexivity.
  - intros H0 H1. rewrite generateSuggestions_run. cbv zeta.
    unfold getCurrentContext, mbind, M_bind, getDb, sql, storage, gets, mret, M_ret.
    rewrite H0. cbn [fst snd]. rewrite length_trace_record.
    replace (S (length (trace w))) with (length (trace w) + 1) by lia.
    rewrite H1. eexists. split; [reflexivity|].
    rewrite !apiCalls_record. simpl. lia.
Qed.

(** ** These theorems at sample inputs *)

Lemma sample_wellKeyed : wellKeyed Sample.store.
Proof. repeat split; apply (bool_decide_unpack _); vm_compute; exact I. Defined.

Lemma store_keys_stay_unique_witness :
  wellKeyed Sample.store
  /\ wellKeyed (snd (saveSnippet Sample.env Fixture.new_snippet Sample.store))
  /\ wellKeyed (snd (processCodeContent Sample.env Sample.helper
                       (lit "TypeError: x is not defined") Sample.context_js Sample.store)).
Proof.
  split; [exact sample_wellKeyed|].
  destruct (store_keys_stay_unique Sample.env Sample.helper Sample.store sample_wellKeyed)
    as (Hsave & _ & _ & _ & Hrun).
  split; [apply Hsave|apply Hrun].
Defined.

Lemma detectErrors_without_language_witness :
  truthy None = false
  /\ exists r w',
       detectErrors Sample.env Sample.helper (lit "TypeError: x is not defined") None
         Sample.store = (Ok r, w')
       /\ sameTables Sample.store w'
       /\ storageCalls w' = 0.
Proof.
  split; [reflexivity|].
  destruct (detectErrors_without_language Sample.env Sample.helper
              (lit "TypeError: x is not defined") None Sample.store eq_refl)
    as (r & w' & Hrun & Hsame & Hcalls).
  exists r, w'. split; [exact Hrun|]. split; [exact Hsame|]. exact Hcalls.
Defined.

Lemma pipeline_without_language_witness :
  truthy (ctx_language Sample.context_x) = false
  /\ (exists result w' key,
        processCodeContent Sample.env Sample.helper (lit "TypeError: x is not defined")
          Sample.context_x Sample.store = (Ok result, w')
        /\ snippets w' = snippets Sample.store
        /\ error_patterns w' = error_patterns Sample.store
        /\ developer_context w'
           = developer_context Sample.store
             ++ [(key, {| DeveloperContext.currentApp := lit "x";
                          DeveloperContext.activeFile := None;
                          DeveloperContext.projectRoot := None;
                          DeveloperContext.lastActivity := 1002%Z |})])
  /\ (exists result w' key,
        processCodeContent Sample.env Sample.helper (lit "TypeError: x is not defined")
          Fixture.context_unnamed Sample.store = (Ok result, w')
        /\ developer_context w'
           = developer_context Sample.store
             ++ [(key, {| DeveloperContext.currentApp := lit "unknown";
                          DeveloperContext.activeFile := None;
                          DeveloperContext.projectRoot := None;
                          DeveloperContext.lastActivity := 1002%Z |})])
  /\ (exists w',
        processCodeContent (Sample.env_fault 3) Sample.helper
          (lit "TypeError: x is not defined") Sample.context_x Sample.store
        = (Throw StorageError, w')
        /\ developer_context w' = developer_context Sample.store).
Proof.
  split; [reflexivity|]. split; [|split].
  - destruct (proj1 (pipeline_without_language Sample.env Sample.helper
                       (lit "TypeError: x is not defined") Sample.context_x Sample.store
                       eq_refl) eq_refl eq_refl)
      as (result & w' & key & Hrun & Hs & He & Hc).
    exists result, w', key. split; [exact Hrun|]. split; [exact Hs|]. split; [exact He|].
    rewrite Hc. reflexivity.
  - destruct (proj1 (pipeline_without_language Sample.env Sample.helper
                       (lit "TypeError: x is not defined") Fixture.context_unnamed
                       Sample.store eq_refl) eq_refl eq_refl)
      as (result & w' & key & Hrun & _ & _ & Hc).
    exists result, w', key. split; [exact Hrun|]. rewrite Hc. reflexivity.
  - destruct (proj2 (pipeline_without_language (Sample.env_fault 3) Sample.helper
                       (lit "TypeError: x is not defined") Sample.context_x Sample.store
                       eq_refl) (or_intror eq_refl))
      as (w' & Hrun & _ & _ & Hc).
    exists w'. split; [exact Hrun|exact Hc].
Defined.

Lemma candidates_are_substrings_witness :
  In (lit "TypeError: boom") (candidates (lit "oops TypeError: boom"))
  /\ lit "TypeError: boom" <> []
  /\ exists a b, lit "oops TypeError: boom" = a ++ lit "TypeError: boom" ++ b.
Proof.
  assert (H : In (lit "TypeError: boom") (candidates (lit "oops TypeError: boom")))
    by (vm_compute; auto).
  split; [exact H|]. exact (candidates_are_substrings _ _ H).
Defined.

Lemma lower_case_text_candidates_witness :
  forallb (fun c => negb (isUpperAscii c)) (lit "typeerror: x is not a function") = true
  /\ Regex.search Regex.reTyped (lit "typeerror: x is not a function") = None
  /\ candidates (lit "typeerror: x is not a function") = [lit "error: x is not a function"]
  /\ length (candidates (lit "typeerror: x is not a function")) <= 2.
Proof.
  split; [reflexivity|].
  destruct (lower_case_text_candidates (lit "typeerror: x is not a function") eq_refl)
    as (Htyped & _ & Hcand & Hlen & _).
  split; [exact Htyped|]. split; [rewrite Hcand; reflexivity|exact Hlen].
Defined.

Lemma typed_signature_complete_witness :
  In (lit "TypeError") [lit "SyntaxError"; lit "TypeError"; lit "ReferenceError"]
  /\ exists m found rest,
       Regex.search Regex.reTyped (lit "at run: " ++ lit "TypeError" ++ colon :: lit " boom")
       = Some m
       /\ In found [lit "SyntaxError"; lit "TypeError"; lit "ReferenceError"]
       /\ m = found ++ colon :: rest
       /\ In m (candidates (lit "at run: " ++ lit "TypeError" ++ colon :: lit " boom")).
Proof.
  assert (H : In (lit "TypeError")
                [lit "SyntaxError"; lit "TypeError"; lit "ReferenceError"])
    by (right; left; reflexivity).
  split; [exact H|].
  exact (typed_signature_complete (lit "at run: ") (lit " boom") (lit "TypeError") H).
Defined.

Lemma saveSnippet_stores_row_witness :
  reliable Sample.env
  /\ (exists stored w',
        saveSnippet Sample.env Fixture.new_snippet Sample.store = (Ok stored, w')
        /\ snippets w' = snippets Sample.store ++ [stored]
        /\ CodeSnippet.timestamp stored = 1002%Z
        /\ CodeSnippet.favorited stored = false)
  /\ (exists w',
        saveSnippet Sample.env Fixture.new_snippet Fixture.store_taken
        = (Throw StorageError, w')
        /\ sameTables Fixture.store_taken w').
Proof.
  split; [apply sample_reliable|]. split.
  - destruct (proj1 (saveSnippet_stores_row Sample.env Fixture.new_snippet Sample.store
                       (sample_reliable _)))
      as (stored & w' & Hrun & Hrows & _ & _ & _ & Hstamp & Hfav & _).
    { intros s [<-|[<-|[]]]; vm_compute; discriminate. }
    exists stored, w'. split; [exact Hrun|]. split; [exact Hrows|].
    split; [rewrite Hstamp; reflexivity|rewrite Hfav; reflexivity].
  - apply (proj2 (saveSnippet_stores_row Sample.env Fixture.new_snippet Fixture.store_taken
                    (sample_reliable _))).
    eexists. split; [left; reflexivity|reflexivity].
Defined.


Lemma getSnippets_result_witness :
  reliable Sample.env
  /\ (exists rows w',
        getSnippets Sample.env (Fixture.all_snippets (Some (lit "js"))) Sample.store
        = (Ok rows, w')
        /\ sameTables Sample.store w'
        /\ StronglySorted (Sql.descending CodeSnippet.timestamp) rows
        /\ Permutation rows (snippets Sample.store))
  /\ (fst (getSnippets Sample.env (Fixture.huge_query "js") Sample.store) = Throw LikeError
      /\ sameTables Sample.store
           (snd (getSnippets Sample.env (Fixture.huge_query "js") Sample.store)))
  /\ (exists rows w',
        getSnippets Sample.env (Fixture.huge_query "ts") Sample.store = (Ok rows, w')
        /\ Permutation rows []).
Proof.
  split; [apply sample_reliable|]. split; [|split].
  - destruct (getSnippets_result Sample.env (Fixture.all_snippets (Some (lit "js")))
                Sample.store (sample_reliable _))
      as (Hsame & _ & Hok).
    destruct Hok as (rows & w' & Hrun & Hsorted & _ & _ & Hall).
    { intros (Hterm & _). discriminate Hterm. }
    exists rows, w'. rewrite Hrun in Hsame. split; [exact Hrun|]. split; [exact Hsame|].
    split; [exact (Hsorted sample_fourDigitYears)|].
    apply (Hall (or_introl eq_refl)).
  - destruct (getSnippets_result Sample.env (Fixture.huge_query "js")
                Sample.store (sample_reliable _))
      as (Hsame & Hthrows & _).
    split; [|exact Hsame]. apply Hthrows.
    split; [reflexivity|]. split; [vm_compute; reflexivity|].
    eexists. split; [left; reflexivity|]. intros _. reflexivity.
  - destruct (getSnippets_result Sample.env (Fixture.huge_query "ts")
                Sample.store (sample_reliable _))
      as (_ & _ & Hok).
    destruct Hok as (rows & w' & Hrun & _ & _ & _ & Hall).
    { intros (_ & _ & s & Hs & Hlang). specialize (Hlang eq_refl).
      destruct Hs as [<-|[<-|[]]]; vm_compute in Hlang; discriminate. }
    exists rows, w'. split; [exact Hrun|].
    assert (Hnone : List.filter (Query.snippetSelected (Fixture.huge_query "ts"))
                      (snippets Sample.store) = []).
    { unfold Query.snippetSelected. reflexivity. }
    rewrite <- Hnone. apply (Hall (or_introl eq_refl)).
Defined.

Lemma recordError_returned_row_witness :
  reliable Sample.env
  /\ exists r w',
       recordError Sample.env (Sample.error "TypeError: x is undefined" "Give x a value.")
         Sample.store = (Ok r, w')
       /\ ErrorPattern.solution r = lit "Define x."
       /\ ErrorPattern.frequency r = 8%Z
       /\ In {| ErrorPattern.id := lit "e2";
                ErrorPattern.errorText := lit "TypeError: x is undefined";
                ErrorPattern.solution := lit "Give x a value.";
                ErrorPattern.language := lit "js";
                ErrorPattern.frequency := 8%Z;
                ErrorPattern.lastEncountered := 1002%Z |} (error_patterns w').
Proof.
  split; [apply sample_reliable|].
  destruct (proj1 (recordError_returned_row Sample.env
                     (Sample.error "TypeError: x is undefined" "Give x a value.")
                     Sample.store (sample_reliable _))
              (Sample.pattern "e2" "TypeError: x is undefined" "Define x." 7%Z) eq_refl)
    as (r & w' & Hrun & _ & _ & _ & Hfreq & Hsol & _ & Hin & _).
  exists r, w'. split; [exact Hrun|]. split; [rewrite Hsol; reflexivity|].
  split; [rewrite Hfreq; reflexivity|exact Hin].
Defined.


Lemma detectCandidate_cache_hit_witness :
  reliable Sample.env
  /\ truthy (Some (lit "js")) = true
  /\ exists w',
       detectCandidate Sample.env Sample.helper (Some (lit "js")) (lit "TypeError: x") []
         Sample.store
       = (Ok [ {| error := lit "TypeError: x"; found_solution := lit "Define x." |};
               {| error := lit "TypeError: x"; found_solution := lit "Call a function." |} ],
          w')
       /\ length (trace w') = 2
       /\ sameTables Sample.store w'.
Proof.
  split; [apply sample_reliable|]. split; [reflexivity|].
  destruct (detectCandidate_cache_hit Sample.env Sample.helper Sample.store
              (Some (lit "js")) (lit "TypeError: x") [] (sample_reliable _) eq_refl)
    as (w' & Hrun & _ & Htrace & Hsame).
  { vm_compute. discriminate. }
  exists w'. split; [rewrite Hrun; reflexivity|].
  split; [rewrite Htrace; reflexivity|exact Hsame].
Defined.

Lemma recordError_update_keeps_cache_miss_witness :
  reliable Sample.env
  /\ Query.selectErrorSolutions (lit "js")
       (Sql.containing (substring0 100 Sample.reading_error))
       (error_patterns Sample.store_reading) = []
  /\ exists r w',
       recordError Sample.env
         {| NewError.errorText := Sample.reading_error;
            NewError.solution := lit "Look at the array first.";
            NewError.language := lit "js" |} Sample.store_reading = (Ok r, w')
       /\ length (error_patterns w') = 1
       /\ Query.selectErrorSolutions (lit "js")
            (Sql.containing (substring0 100 Sample.reading_error)) (error_patterns w') = []
       /\ apiCalls (snd (detectCandidate Sample.env Sample.helper (Some (lit "js"))
                           Sample.reading_error [] w'))
          = apiCalls w' + 1.
Proof.
  split; [apply sample_reliable|]. split; [reflexivity|].
  destruct (recordError_update_keeps_cache_miss Sample.env Sample.helper
              {| NewError.errorText := Sample.reading_error;
                 NewError.solution := lit "Look at the array first.";
                 NewError.language := lit "js" |}
              (Sample.pattern "e1"
                 "TypeError: Cannot read properties of undefined (reading 'id')"
                 "Fetch the record first." 4%Z)
              Sample.store_reading (sample_reliable _) eq_refl eq_refl)
    as (r & w' & Hrun & Hmiss & Hcalls).
  exists r, w'. split; [exact Hrun|].
  split; [vm_compute in Hrun; injection Hrun as _ <-; reflexivity|].
  split; [exact Hmiss|]. apply Hcalls. vm_compute. discriminate.
Defined.


Lemma updateDeveloperContext_row_witness :
  reliable Sample.env
  /\ exists key row w',
       updateDeveloperContext Sample.env (Fixture.update (Some [])) Sample.store
       = (Ok tt, w')
       /\ developer_context w' = developer_context Sample.store ++ [(key, row)]
       /\ key = 2%N
       /\ DeveloperContext.currentApp row = lit "unknown"
       /\ DeveloperContext.lastActivity row = 1001%Z.
Proof.
  split; [apply sample_reliable|].
  destruct (updateDeveloperContext_row Sample.env (Fixture.update (Some [])) Sample.store
              (sample_reliable _))
    as (key & row & w' & Hrun & Hrows & _ & _ & _ & _ & _ & Happ & _ & _ & _ & Hstamp & _).
  exists key, row, w'. split; [exact Hrun|]. split; [exact Hrows|].
  split; [|split; [rewrite Happ; reflexivity|rewrite Hstamp; reflexivity]].
  vm_compute in Hrun. injection Hrun as <-. vm_compute in Hrows.
  now injection Hrows as <- _.
Defined.


Lemma cleanupOldData_horizon_witness :
  reliable Sample.env
  /\ (exists w',
        cleanupOldData Sample.env (Some 0%Z) Sample.store = (Ok tt, w')
        /\ snippets w' = [ Sample.snippet "s2" "items.map(render)" ["list"]%string 1001%Z ]
        /\ developer_context w' = developer_context Sample.store
        /\ sameErrorPatterns Sample.store w')
  /\ (exists w',
        cleanupOldData Sample.env (Some 1000000000%Z) Sample.store = (Throw RangeError, w')
        /\ sameTables Sample.store w'
        /\ length (trace w') = 2).
Proof.
  split; [apply sample_reliable|]. split.
  - destruct (proj2 (cleanupOldData_horizon Sample.env (Some 0%Z) Sample.store
                       (sample_reliable _)) 1001%Z)
      as (w' & Hrun & _ & _ & Hs & Hc & He & _).
    { vm_compute. reflexivity. }
    exists w'. split; [exact Hrun|]. split; [rewrite Hs; vm_compute; reflexivity|].
    split; [rewrite Hc; vm_compute; reflexivity|exact He].
  - destruct (proj1 (cleanupOldData_horizon Sample.env (Some 1000000000%Z) Sample.store
                       (sample_reliable _)))
      as (w' & Hrun & Hsame & Htrace).
    { vm_compute. reflexivity. }
    exists w'. split; [exact Hrun|]. split; [exact Hsame|]. rewrite Htrace. reflexivity.
Defined.

Lemma cleanupOldData_second_delete_fails_witness :
  db_fault (Sample.env_fault 3) 3 = true
  /\ exists w',
       cleanupOldData (Sample.env_fault 3) (Some 0%Z) Sample.store
       = (Throw StorageError, w')
       /\ snippets w' = [ Sample.snippet "s2" "items.map(render)" ["list"]%string 1001%Z ]
       /\ sameContext Sample.store w'.
Proof.
  split; [reflexivity|].
  destruct (cleanupOldData_second_delete_fails (Sample.env_fault 3) (Some 0%Z) Sample.store
              1001%Z eq_refl eq_refl eq_refl)
    as (w' & Hrun & Hs & _ & _ & Hc & _).
  { vm_compute. reflexivity. }
  exists w'. split; [exact Hrun|]. split; [rewrite Hs; vm_compute; reflexivity|exact Hc].
Defined.

Lemma findRelevantSnippets_fallback_witness :
  reliable Sample.env
  /\ trim (lit " zip(a, b) ") <> []
  /\ exists r w',
       findRelevantSnippets Sample.env (lit " zip(a, b) ") (Some (lit "js")) Sample.store
       = (Ok (Some r), w')
       /\ List.map CodeSnippet.id r = [lit "s1"; lit "s2"]
       /\ randomDraws w' = 2
       /\ sameTables Sample.store w'.
Proof.
  assert (Hcode : trim (lit " zip(a, b) ") <> []) by (vm_compute; discriminate).
  split; [apply sample_reliable|]. split; [exact Hcode|].
  destruct (findRelevantSnippets_fallback Sample.env (lit " zip(a, b) ") (Some (lit "js"))
              Sample.store (sample_reliable _) Hcode eq_refl)
    as (r & w' & Hrun & Hr & _ & _ & Hdraws & Hsame).
  exists r, w'. split; [exact Hrun|]. split; [rewrite Hr; reflexivity|].
  split; [rewrite Hdraws; reflexivity|exact Hsame].
Defined.

Lemma getProjectContext_directory_witness :
  Path.isSeparator 47 = true
  /\ getProjectContext (Some (lit "src/util/id.js")) = Some (lit "util")
  /\ getProjectContext (Some (lit "/id.js")) = Some []
  /\ getProjectContext (Some (lit "id.js")) = None.
Proof.
  split; [reflexivity|].
  destruct (getProjectContext_directory (lit "src") (lit "util") (lit "id.js") 47
              eq_refl eq_refl eq_refl) as (_ & Hdir & Hfile & _).
  destruct (getProjectContext_directory [] [] (lit "id.js") 47 eq_refl eq_refl eq_refl)
    as (Hroot & _).
  split; [exact (Hdir 47%N eq_refl)|]. split; [exact Hroot|exact Hfile].
Defined.

Lemma search_term_is_a_pattern_witness :
  reliable Sample.env
  /\ (exists found,
        fst (getSnippets Sample.env
               {| SnippetQuery.language := Some (lit "js");
                  SnippetQuery.searchTerm := Some (lit "items_map");
                  SnippetQuery.limit := None |} Sample.store) = Ok found
        /\ In (Sample.snippet "s2" "items.map(render)" ["list"]%string 1001%Z) found)
  /\ (exists found,
        fst (getSnippets Sample.env
               {| SnippetQuery.language := Some (lit "js");
                  SnippetQuery.searchTerm := Some (lit "say(_)");
                  SnippetQuery.limit := None |} Fixture.store_face) = Ok found
        /\ length found = 1)
  /\ fst (getSnippets Sample.env
            {| SnippetQuery.language := Some (lit "js");
               SnippetQuery.searchTerm := Some (lit "say(__)");
               SnippetQuery.limit := None |} Fixture.store_face) = Ok [].
Proof.
  split; [apply sample_reliable|]. split; [|split].
  - destruct (search_term_is_a_pattern Sample.env (Some (lit "js"))
                (Sample.snippet "s2" "items.map(render)" ["list"]%string 1001%Z)
                Sample.store (lit "items") (lit "map") [] (lit "(render)")
                (sample_reliable _))
      as (Hunderscore & _).
    + right. left. reflexivity.
    + intros _. reflexivity.
    + reflexivity.
    + destruct Hunderscore as [Hunit _]; [vm_compute; discriminate|].
      exact (Hunit 46%N eq_refl eq_refl).
  - destruct (search_term_is_a_pattern Sample.env (Some (lit "js"))
                (nth 0 (snippets Fixture.store_face) (Sample.snippet "" "" [] 0%Z))
                Fixture.store_face (lit "say(") (lit ")") [] []
                (sample_reliable _))
      as (Hunderscore & _).
    + left. reflexivity.
    + intros _. reflexivity.
    + reflexivity.
    + destruct Hunderscore as [_ Hpair]; [vm_compute; discriminate|].
      destruct (Hpair 55357%N 56832%N eq_refl eq_refl eq_refl) as (found & Hrun & Hin).
      exists found. split; [exact Hrun|].
      vm_compute in Hrun. injection Hrun as <-. reflexivity.
  - vm_compute. reflexivity.
Defined.
